(** * ai-todo-manager: the two AI route handlers

    A shallow embedding of

    - the route served at [/api/ai/generate-todo] (source file
      [unnamed/part_004]; the natural-language task normalizer:
      [validateInput], [preprocessInput], [POST] with its post-generation
      repair pass), and
    - the route served at [/api/ai/analyze-todos] (source file
      [unnamed/part_003]; the productivity summarizer: [POST] with its
      statistics), together with its caller [handleAnalyzeTodos] of
      [app/page.tsx],

    and the properties of the design specification that concern them.

    Conventions of the embedding.

    - A JavaScript string is the list of its UTF-16 code units, so that
      [.length], [.substring] and [.trim] count what the engine counts.
    - [undefined] is [None] in an optional field.
    - A handler is a term of the free monad [Handler]: it either answers,
      or throws, or awaits the completion service ([generateObject]) and
      goes on with its reply.  "No call is made" is then a statement about
      the shape of that term, independent of any service.
    - Completion rates, which the code computes in IEEE doubles as
      [(completed / total) * 100], are exact rationals here.  Rounding is
      monotone, so bounds and non-strict comparisons carry over. *)

From Stdlib Require Import List Bool Arith ZArith NArith QArith Lia Lqa.
From Stdlib Require Import Ascii String.
From Stdlib Require Import Permutation.
Import ListNotations.

(* ================================================================= *)
(** ** JavaScript strings *)

Module JS.

(** A UTF-16 code unit. *)
Definition unit16 := N.

Definition jsstring := list unit16.

Definition unit_eqb (a b : unit16) : bool := N.eqb a b.

Fixpoint str_eqb (s t : jsstring) : bool :=
  match s, t with
  | [], [] => true
  | a :: s', b :: t' => unit_eqb a b && str_eqb s' t'
  | _, _ => false
  end.

(** Source literals are written as Rocq strings, whose bytes are the
    UTF-8 encoding of the literal; [js] decodes them to code units. *)
Fixpoint utf8_decode (bs : list N) : jsstring :=
  match bs with
  | [] => []
  | b :: rest =>
    if (b <? 128)%N then b :: utf8_decode rest
    else if (b <? 224)%N then
      match rest with
      | b2 :: rest2 =>
        (N.land b 31 * 64 + N.land b2 63)%N :: utf8_decode rest2
      | _ => [65533%N]
      end
    else if (b <? 240)%N then
      match rest with
      | b2 :: b3 :: rest3 =>
        (N.land b 15 * 4096 + N.land b2 63 * 64 + N.land b3 63)%N
          :: utf8_decode rest3
      | _ => [65533%N]
      end
    else
      match rest with
      | b2 :: b3 :: b4 :: rest4 =>
        let cp := (N.land b 7 * 262144 + N.land b2 63 * 4096
                   + N.land b3 63 * 64 + N.land b4 63)%N in
        let v := (cp - 65536)%N in
        (55296 + v / 1024)%N :: (56320 + v mod 1024)%N :: utf8_decode rest4
      | _ => [65533%N]
      end
  end.

Definition js (s : string) : jsstring :=
  utf8_decode (map N_of_ascii (list_ascii_of_string s)).

(** [String.prototype.length] *)
Definition length (s : jsstring) : Z := Z.of_nat (List.length s).

(** [s.substring(0, n)] for a non-negative integer [n]. *)
Definition substring0 (n : nat) (s : jsstring) : jsstring := firstn n s.

(** WhiteSpace and LineTerminator code points of ECMAScript: what
    [trim] strips and what [\s] matches. *)
Definition isWhiteSpace (c : unit16) : bool :=
  ((9 <=? c) && (c <=? 13) || (c =? 32) || (c =? 160) || (c =? 5760)
   || (8192 <=? c) && (c <=? 8202)
   || (c =? 8232) || (c =? 8233) || (c =? 8239) || (c =? 8287)
   || (c =? 12288) || (c =? 65279))%N.

Fixpoint trimStart (s : jsstring) : jsstring :=
  match s with
  | [] => []
  | c :: s' => if isWhiteSpace c then trimStart s' else s
  end.

Definition trimEnd (s : jsstring) : jsstring := rev (trimStart (rev s)).

(** [String.prototype.trim] *)
Definition trim (s : jsstring) : jsstring := trimEnd (trimStart s).

(** [s.replace(/\s+/g, " ")]: every maximal run of white space becomes
    one space; [inRun] tells that the previous unit was white space. *)
Fixpoint collapseRuns (inRun : bool) (s : jsstring) : jsstring :=
  match s with
  | [] => []
  | c :: s' =>
    if isWhiteSpace c
    then (if inRun then collapseRuns true s'
          else 32%N :: collapseRuns true s')
    else c :: collapseRuns false s'
  end.

Definition collapseSpaces (s : jsstring) : jsstring := collapseRuns false s.

(** [s.includes(k)] *)
Fixpoint startsWith (k s : jsstring) : bool :=
  match k, s with
  | [], _ => true
  | a :: k', b :: s' => unit_eqb a b && startsWith k' s'
  | _ :: _, [] => false
  end.

Fixpoint includes (k s : jsstring) : bool :=
  startsWith k s ||
  match s with
  | [] => false
  | _ :: s' => includes k s'
  end.

(** Vocabulary of the statements: no white space at either end. *)
Definition Trimmed (s : jsstring) : Prop :=
  trimStart s = s /\ trimStart (rev s) = rev s.

(** Every white-space unit is a plain space and no two are adjacent;
    [prevWs] tells that the unit before the string is white space. *)
Fixpoint singleSpaced (prevWs : bool) (s : jsstring) : bool :=
  match s with
  | [] => true
  | c :: s' =>
    if isWhiteSpace c
    then (c =? 32)%N && negb prevWs && singleSpaced true s'
    else singleSpaced false s'
  end.

(** The units of a string that are not white space. *)
Definition inkOf (s : jsstring) : jsstring :=
  filter (fun c => negb (isWhiteSpace c)) s.

End JS.


(* ================================================================= *)
(** ** JavaScript values, as far as the handlers inspect them *)

(** A value read from a JSON body.  The handlers only test such values
    for truthiness, for being a string and for being an array; the
    elements of an array are kept at the type [A] at which the code
    reads them, and objects are opaque. *)
Inductive JSValue (A : Type) : Type :=
| JUndefined                    (* absent key *)
| JNull
| JBool (b : bool)
| JNumber (q : Q)
| JString (s : JS.jsstring)
| JArray (elems : list A)
| JObject.

Arguments JUndefined {A}.
Arguments JNull {A}.
Arguments JBool {A} b.
Arguments JNumber {A} q.
Arguments JString {A} s.
Arguments JArray {A} elems.
Arguments JObject {A}.

(** [!v] is [negb (truthy v)] *)
Definition truthy {A} (v : JSValue A) : bool :=
  match v with
  | JUndefined | JNull => false
  | JBool b => b
  | JNumber q => negb (Qeq_bool q 0)
  | JString s => negb (JS.str_eqb s [])
  | JArray _ | JObject => true
  end.

Definition isArray {A} (v : JSValue A) : bool :=
  match v with JArray _ => true | _ => false end.

(** Truthiness of an optional string field: [undefined] and [""] are
    falsy. *)
Definition truthyStr (o : option JS.jsstring) : bool :=
  match o with
  | Some (_ :: _) => true
  | _ => false
  end.

(** An array element nobody looks into. *)
Definition Opaque := unit.

(** A thrown value, as far as the catch blocks read it. *)
Record JSError := mkError {
  message : option JS.jsstring;
  errStatus : option Z
}.

(* ================================================================= *)
(** ** Dates *)

Module JSDate.

Definition isDigit (c : JS.unit16) : bool := ((48 <=? c) && (c <=? 57))%N.

Definition digitVal (c : JS.unit16) : Z := Z.of_N c - 48.

Definition num2 (a b : JS.unit16) : Z := 10 * digitVal a + digitVal b.

Definition num4 (a b c d : JS.unit16) : Z :=
  1000 * digitVal a + 100 * digitVal b + 10 * digitVal c + digitVal d.

Definition hyphen : JS.unit16 := 45%N.
Definition colon : JS.unit16 := 58%N.

(** [/^\d{4}-\d{2}-\d{2}$/.test(s)].  No flag is set, so [\d] is an ASCII
    digit and [$] is the very end of the string. *)
Definition dateRegex_test (s : JS.jsstring) : bool :=
  match s with
  | [y1; y2; y3; y4; h1; m1; m2; h2; d1; d2] =>
    isDigit y1 && isDigit y2 && isDigit y3 && isDigit y4
    && JS.unit_eqb h1 hyphen
    && isDigit m1 && isDigit m2
    && JS.unit_eqb h2 hyphen
    && isDigit d1 && isDigit d2
  | _ => false
  end.

(** Day arithmetic of ECMAScript (sec. "Time Values and Time Range"). *)
Definition msPerDay : Z := 86400000.

Definition isLeapYear (y : Z) : bool :=
  (y mod 4 =? 0)%Z && (negb (y mod 100 =? 0)%Z || (y mod 400 =? 0)%Z).

Definition DayFromYear (y : Z) : Z :=
  365 * (y - 1970) + (y - 1969) / 4 - (y - 1901) / 100 + (y - 1601) / 400.

Definition daysInMonth (y m : Z) : Z :=
  if (m =? 2)%Z then (if isLeapYear y then 29 else 28)
  else if ((m =? 4) || (m =? 6) || (m =? 9) || (m =? 11))%Z then 30
  else 31.

(** Days of the year before the first of month [m] (1-based). *)
Fixpoint daysBefore (y : Z) (m : nat) : Z :=
  match m with
  | O => 0
  | S O => 0
  | S k => daysBefore y k + daysInMonth y (Z.of_nat k)
  end.

(** [MakeDay(y, m - 1, d)] for a month [m] in [1..12]; a day beyond the
    end of the month runs over into the following one. *)
Definition MakeDay (y m d : Z) : Z :=
  DayFromYear y + daysBefore y (Z.to_nat m) + d - 1.

(** Engines differ on a day number past the end of its month.  V8, the
    engine of the server, takes any day in [01..31] and lets [MakeDay]
    carry the excess over into the next month ([CarryOver]); an engine
    may also answer NaN ([Reject]). *)
Inductive Engine := CarryOver | Reject.

Definition dayAccepted (engine : Engine) (y m d : Z) : bool :=
  match engine with
  | CarryOver => (d <=? 31)%Z
  | Reject => (d <=? daysInMonth y m)%Z
  end.

(** [new Date(s + "T00:00:00").getTime()] for a string [s] of the shape
    [dateRegex_test] accepts; [None] is NaN.  The date-time form without
    offset is local time: the value is the local midnight of the day, and
    two such values compare as their days do. *)
Definition parseMidnight (engine : Engine) (s : JS.jsstring) : option Z :=
  match s with
  | [y1; y2; y3; y4; _; m1; m2; _; d1; d2] =>
    if dateRegex_test s then
      let y := num4 y1 y2 y3 y4 in
      let m := num2 m1 m2 in
      let d := num2 d1 d2 in
      if ((1 <=? m) && (m <=? 12) && (1 <=? d))%Z && dayAccepted engine y m d
      then Some (MakeDay y m d * msPerDay)%Z
      else None
    else None
  | _ => None
  end.

(** A string [toISOString().split("T")[0]] can produce for a year in
    [0..9999]: the [YYYY-MM-DD] form of a day of the calendar. *)
Definition isCalendarDate (s : JS.jsstring) : bool :=
  match s with
  | [y1; y2; y3; y4; _; m1; m2; _; d1; d2] =>
    dateRegex_test s
    && (let y := num4 y1 y2 y3 y4 in
        let m := num2 m1 m2 in
        let d := num2 d1 d2 in
        ((1 <=? m) && (m <=? 12) && (1 <=? d) && (d <=? daysInMonth y m))%Z)
  | _ => false
  end.

(** [/^([01]?[0-9]|2[0-3]):[0-5][0-9]$/.test(s)] *)
Definition is01 (c : JS.unit16) : bool := ((c =? 48) || (c =? 49))%N.
Definition is0to3 (c : JS.unit16) : bool := ((48 <=? c) && (c <=? 51))%N.
Definition is0to5 (c : JS.unit16) : bool := ((48 <=? c) && (c <=? 53))%N.

Definition timeRegex_test (s : JS.jsstring) : bool :=
  match s with
  | [h; c; m1; m2] =>
    isDigit h && JS.unit_eqb c colon && is0to5 m1 && isDigit m2
  | [h1; h2; c; m1; m2] =>
    (is01 h1 && isDigit h2 || JS.unit_eqb h1 50%N && is0to3 h2)
    && JS.unit_eqb c colon && is0to5 m1 && isDigit m2
  | _ => false
  end.

(** The format the schema, the prompt and the comments of the route name:
    [HH:mm], two digits for the hour [00..23], two for the minute. *)
Definition isHHmm (s : JS.jsstring) : bool :=
  match s with
  | [h1; h2; c; m1; m2] =>
    (is01 h1 && isDigit h2 || JS.unit_eqb h1 50%N && is0to3 h2)
    && JS.unit_eqb c colon && is0to5 m1 && isDigit m2
  | _ => false
  end.

End JSDate.


(* ================================================================= *)
(** ** Route handlers as interaction terms *)

(** A handler answers ([Ret]), throws ([Throw]) or awaits one call of the
    completion service with request [q] and continues with the reply. *)
Inductive Handler (Req Rep A : Type) : Type :=
| Ret (a : A)
| Throw (e : JSError)
| Await (q : Req) (k : Rep -> Handler Req Rep A).

Arguments Ret {Req Rep A} a.
Arguments Throw {Req Rep A} e.
Arguments Await {Req Rep A} q k.

Fixpoint bind {Req Rep A B} (h : Handler Req Rep A)
    (f : A -> Handler Req Rep B) : Handler Req Rep B :=
  match h with
  | Ret a => f a
  | Throw e => Throw e
  | Await q k => Await q (fun r => bind (k r) f)
  end.

Notation "x <- c ;; k" := (bind c (fun x => k))
  (at level 61, c at next level, right associativity).

(** [try { h } catch (error) { return c error }] *)
Fixpoint tryCatch {Req Rep A} (h : Handler Req Rep A) (c : JSError -> A)
    : Handler Req Rep A :=
  match h with
  | Ret a => Ret a
  | Throw e => Ret (c e)
  | Await q k => Await q (fun r => tryCatch (k r) c)
  end.

(** Running a handler against a completion service: the outcome and the
    requests the service received, in order. *)
Fixpoint run {Req Rep A} (service : Req -> Rep) (h : Handler Req Rep A)
    : (A + JSError) * list Req :=
  match h with
  | Ret a => (inl a, [])
  | Throw e => (inr e, [])
  | Await q k =>
    let '(out, log) := run service (k (service q)) in (out, q :: log)
  end.

Definition outcome {Req Rep A} (service : Req -> Rep)
    (h : Handler Req Rep A) : A + JSError := fst (run service h).

Definition calls {Req Rep A} (service : Req -> Rep)
    (h : Handler Req Rep A) : list Req := snd (run service h).

(** What [Response.json(body, { status })] carries. *)
Inductive Body (D : Type) : Type :=
| Data (data : D)
    (* { success: true, data } *)
| Failure (success : option bool) (error : option JS.jsstring)
          (details : option JS.jsstring).
    (* { success?, error, details? } *)

Arguments Data {D} data.
Arguments Failure {D} success error details.

Record Response (D : Type) : Type := mkResponse {
  status : Z;
  body : Body D
}.

Arguments mkResponse {D} status body.
Arguments status {D} r.
Arguments body {D} r.

Record Env := mkEnv {
  GOOGLE_GENERATIVE_AI_API_KEY : option JS.jsstring;
  NODE_ENV : option JS.jsstring
}.

Definition isDevelopment (env : Env) : bool :=
  match NODE_ENV env with
  | Some s => JS.str_eqb s (JS.js "development")
  | None => false
  end.

(** [!apiKey] is [negb (apiKeySet env)] *)
Definition apiKeySet (env : Env) : bool :=
  truthyStr (GOOGLE_GENERATIVE_AI_API_KEY env).

(** [error.message?.includes(k)] *)
Definition messageIncludes (k : string) (e : JSError) : bool :=
  match message e with
  | Some m => JS.includes (JS.js k) m
  | None => false
  end.

Definition statusIs (n : Z) (e : JSError) : bool :=
  match errStatus e with
  | Some s => (s =? n)%Z
  | None => false
  end.

(** The error [generateObject] throws when the reply of the model is JSON
    that does not validate against the schema. *)
Definition noObjectGenerated : JSError :=
  mkError
    (Some (JS.js "No object generated: response did not match schema."))
    None.

(** The error [generateObject] throws when the reply of the model is text
    that is no JSON. *)
Definition noObjectParsed : JSError :=
  mkError
    (Some (JS.js "No object generated: could not parse the response."))
    None.

(** A [TypeError] with its message. *)
Definition typeError (msg : string) : JSError :=
  mkError (Some (JS.js msg)) None.

(* ================================================================= *)
(** ** The natural-language task normalizer
       (the route [/api/ai/generate-todo], [unnamed/part_004]) *)

Module GenerateTodo.

Inductive Priority := high | medium | low.

(** The object [generateObject] hands to the handler ([result.object]),
    which the repair pass then updates in place.  A field the code tests
    for absence is optional here; [None] is [undefined]. *)
Record TodoData := mkTodo {
  title : option JS.jsstring;
  description : option JS.jsstring;
  due_date : option JS.jsstring;
  due_time : option JS.jsstring;
  priority : option Priority;
  category : option (list JS.jsstring)
}.

(** *** [todoSchema] *)

(** The JSON object the model replied with, before validation: each key
    of the schema with its value, [JUndefined] when the key is absent. *)
Definition RawField := JSValue (JSValue Opaque).

Record RawTodo := mkRaw {
  raw_title : RawField;
  raw_description : RawField;
  raw_due_date : RawField;
  raw_due_time : RawField;
  raw_priority : RawField;
  raw_category : RawField
}.

(** [z.string()] *)
Definition z_string (v : RawField) : option JS.jsstring :=
  match v with
  | JString s => Some s
  | _ => None
  end.

(** [z.string().optional()] *)
Definition z_string_optional (v : RawField) : option (option JS.jsstring) :=
  match v with
  | JUndefined => Some None
  | JString s => Some (Some s)
  | _ => None
  end.

(** [z.enum(["high", "medium", "low"])] *)
Definition z_enum_priority (v : RawField) : option Priority :=
  match v with
  | JString s =>
    if JS.str_eqb s (JS.js "high") then Some high
    else if JS.str_eqb s (JS.js "medium") then Some medium
    else if JS.str_eqb s (JS.js "low") then Some low
    else None
  | _ => None
  end.

Fixpoint all_strings (l : list (JSValue Opaque)) : option (list JS.jsstring) :=
  match l with
  | [] => Some []
  | JString s :: l' =>
    match all_strings l' with
    | Some r => Some (s :: r)
    | None => None
    end
  | _ :: _ => None
  end.

(** [z.array(z.string()).default([])]: an absent key parses to the
    default. *)
Definition z_string_array_default_empty (v : RawField)
    : option (list JS.jsstring) :=
  match v with
  | JUndefined => Some []
  | JArray l => all_strings l
  | _ => None
  end.

(** Validation of a reply against [todoSchema]; [None] is a validation
    error. *)
Definition todoSchema_parse (o : RawTodo) : option TodoData :=
  match z_string (raw_title o),
        z_string_optional (raw_description o),
        z_string (raw_due_date o),
        z_string_optional (raw_due_time o),
        z_enum_priority (raw_priority o),
        z_string_array_default_empty (raw_category o) with
  | Some t, Some desc, Some dd, Some dt, Some p, Some c =>
    Some (mkTodo (Some t) desc (Some dd) dt (Some p) (Some c))
  | _, _, _, _, _, _ => None
  end.

(** What the language model answers to one request. *)
Inductive ModelReply :=
| ReplyObject (o : RawTodo)      (* a JSON object *)
| ReplyOther                     (* JSON that is no object *)
| ReplyNoJSON                    (* text that is no JSON *)
| ReplyFailure (e : JSError).    (* the call threw [e] *)

(** The request to the completion service.  Of the prompt, the parts that
    vary are kept: the reference date and the processed input (the other
    dates of the prompt are functions of the clock). *)
Record GenRequest := mkRequest {
  prompt_today : JS.jsstring;
  prompt_input : JS.jsstring
}.

(** [generateObject({ model, schema: todoSchema, prompt, temperature })] *)
Definition generateObject (q : GenRequest)
    : Handler GenRequest ModelReply TodoData :=
  Await q (fun reply =>
    match reply with
    | ReplyFailure e => Throw e
    | ReplyNoJSON => Throw noObjectParsed
    | ReplyOther => Throw noObjectGenerated
    | ReplyObject o =>
      match todoSchema_parse o with
      | Some d => Ret d
      | None => Throw noObjectGenerated
      end
    end).

(** *** [preprocessInput] *)
Definition preprocessInput (input : JS.jsstring) : JS.jsstring :=
  let processed := JS.trim input in
  JS.collapseSpaces processed.

(** *** [validateInput] *)
Record Validation := mkValidation {
  valid : bool;
  error : option JS.jsstring;
  vstatus : option Z
}.

Definition invalid (msg : string) : Validation :=
  mkValidation false (Some (JS.js msg)) (Some 400%Z).

Definition validateInput (input : JSValue Opaque) : Validation :=
  match input with
  | JString s =>
    if negb (truthy input) then invalid "자연어 입력이 필요합니다."
    else
      let trimmed := JS.trim s in
      if (JS.length trimmed =? 0)%Z then invalid "입력 내용이 비어있습니다."
      else if (JS.length trimmed <? 2)%Z
      then invalid "입력은 최소 2자 이상이어야 합니다."
      else if (500 <? JS.length trimmed)%Z
      then invalid "입력은 최대 500자까지 가능합니다."
      else mkValidation true None None
  | _ => (* typeof input !== "string" *)
    invalid "자연어 입력이 필요합니다."
  end.

(** *** The repair pass of [POST] *)

Definition placeholderTitle : JS.jsstring := JS.js "할 일".
Definition defaultTime : JS.jsstring := JS.js "09:00".
Definition defaultCategory : list JS.jsstring := [JS.js "개인"].
Definition ellipsis : JS.jsstring := JS.js "...".

Definition titleMinLength : Z := 1.
Definition titleMaxLength : Z := 200.

(** [if (!todoData.title || todoData.title.trim().length === 0)] *)
Definition defaultTitle (t : option JS.jsstring) : JS.jsstring :=
  match t with
  | Some (c :: s) =>
    if (JS.length (JS.trim (c :: s)) =? 0)%Z then placeholderTitle
    else c :: s
  | _ => placeholderTitle
  end.

Definition processTitle (t : JS.jsstring) : JS.jsstring :=
  let processedTitle := JS.trim t in
  if (JS.length processedTitle <? titleMinLength)%Z then placeholderTitle
  else if (titleMaxLength <? JS.length processedTitle)%Z
  then JS.substring0 200 processedTitle ++ ellipsis
  else processedTitle.

Definition repairTitle (t : option JS.jsstring) : JS.jsstring :=
  processTitle (defaultTitle t).

(** [if (!todoData.due_date) todoData.due_date = today], then the block
    "날짜 검증 및 정규화".  [parsedDate < todayDate] is false when either
    side is NaN. *)
Definition repairDueDate (engine : JSDate.Engine) (today : JS.jsstring)
    (d : option JS.jsstring) : JS.jsstring :=
  let d1 := match d with
            | Some (c :: s) => c :: s
            | _ => today
            end in
  if negb (JSDate.dateRegex_test d1) then today
  else
    match JSDate.parseMidnight engine d1 with
    | None => today
    | Some parsedDate =>
      match JSDate.parseMidnight engine today with
      | Some todayDate => if (parsedDate <? todayDate)%Z then today else d1
      | None => d1
      end
    end.

(** [if (!todoData.priority) todoData.priority = "medium"] *)
Definition repairPriority (p : option Priority) : Priority :=
  match p with
  | Some p => p
  | None => medium
  end.

(** [if (!todoData.category || !Array.isArray(todoData.category))]: a
    value of the list type is an array, an empty one included. *)
Definition repairCategory (c : option (list JS.jsstring))
    : list JS.jsstring :=
  match c with
  | Some l => l
  | None => defaultCategory
  end.

(** The block "시간 형식 검증 (HH:mm) 및 기본값 설정" *)
Definition repairDueTime (t : option JS.jsstring) : JS.jsstring :=
  match t with
  | Some (c :: s) =>
    if negb (JSDate.timeRegex_test (c :: s)) then defaultTime else c :: s
  | _ => defaultTime
  end.

(** [if (todoData.description) { ... }] *)
Definition repairDescription (d : option JS.jsstring)
    : option JS.jsstring :=
  match d with
  | Some (c :: s) =>
    let t := JS.trim (c :: s) in
    if (1000 <? JS.length t)%Z
    then Some (JS.substring0 1000 t ++ ellipsis)
    else Some t
  | _ => d
  end.

Definition repair (engine : JSDate.Engine) (today : JS.jsstring)
    (todoData : TodoData) : TodoData :=
  {| title := Some (repairTitle (title todoData));
     description := repairDescription (description todoData);
     due_date := Some (repairDueDate engine today (due_date todoData));
     due_time := Some (repairDueTime (due_time todoData));
     priority := Some (repairPriority (priority todoData));
     category := Some (repairCategory (category todoData)) |}.

(** *** [POST] *)

(** The catch block. *)
Definition onError (env : Env) (e : JSError) : Response TodoData :=
  let '(errorMessage, statusCode) :=
    if messageIncludes "API key" e || messageIncludes "authentication" e
    then (JS.js "AI 서비스 인증 오류가 발생했습니다.", 500%Z)
    else if messageIncludes "quota" e || messageIncludes "limit" e
            || messageIncludes "rate limit" e || statusIs 429 e
    then (JS.js "AI 서비스 사용량 제한에 도달했습니다. 잠시 후 다시 시도해주세요.",
          429%Z)
    else if messageIncludes "network" e || messageIncludes "fetch" e
            || messageIncludes "timeout" e
    then (JS.js "네트워크 오류가 발생했습니다. 인터넷 연결을 확인하고 다시 시도해주세요.",
          500%Z)
    else if messageIncludes "bad request" e || statusIs 400 e
    then (JS.js "잘못된 요청 형식입니다. 입력을 확인해주세요.", 400%Z)
    else (JS.js "할 일 생성 중 오류가 발생했습니다. 잠시 후 다시 시도해주세요.", 500%Z) in
  mkResponse statusCode
    (Failure (Some false) (Some errorMessage)
       (if isDevelopment env then message e else None)).

(** [validation.status || 400] *)
Definition statusOr400 (s : option Z) : Z :=
  match s with
  | Some n => if (n =? 0)%Z then 400 else n
  | None => 400
  end.

(** The handler.  The body of the request is a JSON object and
    [naturalLanguageInput] is the value of that key in it, [JUndefined]
    when the key is absent (a body without keys to read, [null] or no
    JSON at all, is not a request of this model); [today] is
    [new Date().toISOString().split("T")[0]]; [engine] is the engine the
    handler runs on. *)
Definition POST (engine : JSDate.Engine) (env : Env) (today : JS.jsstring)
    (naturalLanguageInput : JSValue Opaque)
    : Handler GenRequest ModelReply (Response TodoData) :=
  tryCatch
    (let validation := validateInput naturalLanguageInput in
     if negb (valid validation)
     then Ret (mkResponse (statusOr400 (vstatus validation))
                 (Failure (Some false) (error validation) None))
     else
       processedInput <-
         match naturalLanguageInput with
         | JString s => Ret (preprocessInput s)
         | _ => Throw (typeError "input.trim is not a function")
         end ;;
       if negb (truthyStr (GOOGLE_GENERATIVE_AI_API_KEY env))
       then Ret (mkResponse 500
                   (Failure None
                      (Some (JS.js "AI 서비스 설정 오류가 발생했습니다.")) None))
       else
         todoData <- generateObject (mkRequest today processedInput) ;;
         Ret (mkResponse 200 (Data (repair engine today todoData))))
    (onError env).

(** *** Vocabulary of the statements *)

(** [out] has the form [YYYY-MM-DD], the engine parses it, and the day it
    parses to is not before the day [today] parses to. *)
Definition acceptableDate (engine : JSDate.Engine)
    (today out : JS.jsstring) : Prop :=
  JSDate.dateRegex_test out = true
  /\ exists t0 t,
       JSDate.parseMidnight engine today = Some t0
       /\ JSDate.parseMidnight engine out = Some t
       /\ (t0 <= t)%Z.

(** [t] is what the repair pass makes of the title [raw] of a draft
    ([None] is a draft without title): the placeholder for a missing or
    blank title, the trimmed title when that has at most 200 code units,
    and otherwise the first 200 code units of the trimmed title followed
    by three dots. *)
Definition titleRepaired (raw : option JS.jsstring) (t : JS.jsstring)
    : Prop :=
  (raw = None -> t = placeholderTitle)
  /\ forall s, raw = Some s ->
       (JS.trim s = [] -> t = placeholderTitle)
       /\ (JS.trim s <> [] -> (JS.length (JS.trim s) <= 200)%Z ->
           t = JS.trim s)
       /\ ((200 < JS.length (JS.trim s))%Z ->
           t = JS.substring0 200 (JS.trim s) ++ ellipsis).

(** *** The dates of the prompt *)

(** [(8 - currentDayOfWeek) % 7 || 7], with [currentDayOfWeek] the result
    of [getDay()], 0 for Sunday to 6 for Saturday. *)
Definition daysUntilNextMonday (currentDayOfWeek : Z) : Z :=
  let r := Z.rem (8 - currentDayOfWeek) 7 in
  if (r =? 0)%Z then 7 else r.

(** [(5 - currentDayOfWeek + 7) % 7 || 7] *)
Definition daysUntilFriday (currentDayOfWeek : Z) : Z :=
  let r := Z.rem (5 - currentDayOfWeek + 7) 7 in
  if (r =? 0)%Z then 7 else r.

End GenerateTodo.


(* ================================================================= *)
(** ** The productivity summarizer
       (the route [/api/ai/analyze-todos], [unnamed/part_003]) *)

(** [Array.prototype.sort(compare)]: the sort is stable, and [a] stays
    before [b] unless [compare(a, b) > 0]. *)
Section Sort.

Variable A : Type.
Variable compare : A -> A -> Q.

Definition positive (q : Q) : bool := negb (Qle_bool q 0).

Fixpoint insertSorted (x : A) (l : list A) : list A :=
  match l with
  | [] => [x]
  | y :: l' =>
    if positive (compare x y) then y :: insertSorted x l'
    else x :: y :: l'
  end.

Fixpoint sort (l : list A) : list A :=
  match l with
  | [] => []
  | x :: l' => insertSorted x (sort l')
  end.

End Sort.

Arguments insertSorted {A} compare x l.
Arguments sort {A} compare l.

Module AnalyzeTodos.

Inductive Priority := high | medium | low.

(** [type Todo] *)
Record Todo := mkTodo {
  id : JS.jsstring;
  title : JS.jsstring;
  description : option JS.jsstring;
  due_date : option JS.jsstring;     (* [None] is null or undefined *)
  priority : Priority;
  category : list JS.jsstring;
  completed : bool
}.

(** [analysisSchema] *)
Record Analysis := mkAnalysis {
  summary : JS.jsstring;
  urgentTasks : list JS.jsstring;
  insights : list JS.jsstring;
  recommendations : list JS.jsstring
}.

(** A counter object [{ total, completed }]. *)
Module Count.
Record t := mk { total : Z; completed : Z }.
Definition zero : t := mk 0 0.
End Count.

Inductive Slot := morning | afternoon | evening.

(** The object [timeSlotCount], its keys in the order of the literal. *)
Record TimeSlotCount := mkSlots {
  at_morning : Count.t;
  at_afternoon : Count.t;
  at_evening : Count.t
}.

Definition slotCount (c : TimeSlotCount) (s : Slot) : Count.t :=
  match s with
  | morning => at_morning c
  | afternoon => at_afternoon c
  | evening => at_evening c
  end.

Definition updateSlot (c : TimeSlotCount) (s : Slot)
    (f : Count.t -> Count.t) : TimeSlotCount :=
  match s with
  | morning => mkSlots (f (at_morning c)) (at_afternoon c) (at_evening c)
  | afternoon => mkSlots (at_morning c) (f (at_afternoon c)) (at_evening c)
  | evening => mkSlots (at_morning c) (at_afternoon c) (f (at_evening c))
  end.

(** [Object.entries(timeSlotCount)] *)
Definition entries (c : TimeSlotCount) : list (Slot * Count.t) :=
  [(morning, at_morning c); (afternoon, at_afternoon c);
   (evening, at_evening c)].

(** *** Basic statistics *)

Definition totalTasks (todos : list Todo) : Z :=
  Z.of_nat (List.length todos).

Definition completedTasks (todos : list Todo) : Z :=
  Z.of_nat (List.length (filter completed todos)).

Definition incompleteTasks (todos : list Todo) : Z :=
  totalTasks todos - completedTasks todos.

(** [n > 0 ? (c / n) * 100 : 0].  The code divides and multiplies in
    doubles; both operations round to nearest, which is monotone, so a
    greater exact rate never becomes a smaller double, and two different
    exact rates only round to the same double for counts far beyond any
    task list (above 2^25). *)
Definition percentage (c n : Z) : Q :=
  if (0 <? n)%Z then inject_Z c / inject_Z n * 100 else 0.

Definition completionRate (todos : list Todo) : Q :=
  percentage (completedTasks todos) (totalTasks todos).

(** *** Statistics by time slot *)

Section Host.

(** [new Date(s).getHours()] on the server; [None] is NaN, the hour of an
    invalid date. *)
Variable getHours : JS.jsstring -> option Z.

(** [if (hour < 12) ... else if (hour < 18) ... else ...]: a comparison
    with NaN is false. *)
Definition slotOfHour (hour : option Z) : Slot :=
  match hour with
  | Some h =>
    if (h <? 12)%Z then morning
    else if (h <? 18)%Z then afternoon
    else evening
  | None => evening
  end.

Definition bumpTotal (c : Count.t) : Count.t :=
  Count.mk (Count.total c + 1) (Count.completed c).

Definition bumpCompleted (c : Count.t) : Count.t :=
  Count.mk (Count.total c) (Count.completed c + 1).

(** The body of the [forEach] over the tasks. *)
Definition countTodo (acc : TimeSlotCount) (todo : Todo) : TimeSlotCount :=
  match due_date todo with
  | Some (c :: s) =>
    let hour := getHours (c :: s) in
    let slot := slotOfHour hour in
    let acc1 := updateSlot acc slot bumpTotal in
    if completed todo then updateSlot acc1 slot bumpCompleted else acc1
  | _ => acc
  end.

Definition timeSlotCount (todos : list Todo) : TimeSlotCount :=
  fold_left countTodo todos
    (mkSlots Count.zero Count.zero Count.zero).

(** *** The most productive time slot *)

Definition slotRate (e : Slot * Count.t) : Slot * Q :=
  let '(slot, stats) := e in
  (slot, percentage (Count.completed stats) (Count.total stats)).

(** [Object.entries(timeSlotCount).map(...).sort((a, b) => b.rate -
    a.rate)[0]]; [None] is undefined. *)
Definition mostProductiveTimeSlot (c : TimeSlotCount) : option (Slot * Q) :=
  hd_error (sort (fun a b => snd b - snd a) (map slotRate (entries c))).

(** *** Vocabulary of the statements *)

(** The completion rate of a slot, as [slotRate] computes it. *)
Definition rateOf (c : TimeSlotCount) (s : Slot) : Q :=
  percentage (Count.completed (slotCount c s)) (Count.total (slotCount c s)).

(** The position of a slot in the order morning, afternoon, evening. *)
Definition slotIndex (s : Slot) : nat :=
  match s with
  | morning => 0
  | afternoon => 1
  | evening => 2
  end.

Definition slot_eqb (a b : Slot) : bool :=
  match a, b with
  | morning, morning | afternoon, afternoon | evening, evening => true
  | _, _ => false
  end.

(** The task has a due timestamp: [todo.due_date] is truthy. *)
Definition hasDue (todo : Todo) : bool := truthyStr (due_date todo).

(** The slot of the due hour of a task. *)
Definition slotOf (todo : Todo) : Slot :=
  match due_date todo with
  | Some d => slotOfHour (getHours d)
  | None => evening
  end.

Definition inSlot (s : Slot) (todo : Todo) : bool :=
  hasDue todo && slot_eqb (slotOf todo) s.

Definition one_if (b : bool) : Z := if b then 1 else 0.

(** *** [POST] *)

Inductive ModelReply :=
| ReplyObject (a : Analysis)     (* JSON that validates *)
| ReplyOther                     (* JSON that does not *)
| ReplyNoJSON                    (* text that is no JSON *)
| ReplyFailure (e : JSError).    (* the call threw [e] *)

(** The request to the completion service: of the prompt, the period and
    the statistics modelled above. *)
Record GenRequest := mkRequest {
  prompt_period : JS.jsstring;
  prompt_totalTasks : Z;
  prompt_completedTasks : Z;
  prompt_incompleteTasks : Z;
  prompt_completionRate : Q;
  prompt_timeSlotCount : TimeSlotCount;
  prompt_mostProductive : Slot * Q
}.

Definition generateObject (q : GenRequest)
    : Handler GenRequest ModelReply Analysis :=
  Await q (fun reply =>
    match reply with
    | ReplyFailure e => Throw e
    | ReplyNoJSON => Throw noObjectParsed
    | ReplyOther => Throw noObjectGenerated
    | ReplyObject a => Ret a
    end).

(** The catch block. *)
Definition onError (env : Env) (e : JSError) : Response Analysis :=
  let '(errorMessage, statusCode) :=
    if messageIncludes "API key" e || messageIncludes "authentication" e
    then (JS.js "AI 서비스 인증 오류가 발생했습니다.", 500%Z)
    else if messageIncludes "quota" e || messageIncludes "limit" e
            || messageIncludes "rate limit" e || statusIs 429 e
    then (JS.js "AI 서비스 사용량 제한에 도달했습니다. 잠시 후 다시 시도해주세요.",
          429%Z)
    else if messageIncludes "network" e || messageIncludes "fetch" e
            || messageIncludes "timeout" e
    then (JS.js "네트워크 오류가 발생했습니다. 인터넷 연결을 확인하고 다시 시도해주세요.",
          500%Z)
    else (JS.js "할 일 분석 중 오류가 발생했습니다.", 500%Z) in
  mkResponse statusCode
    (Failure (Some false) (Some errorMessage)
       (if isDevelopment env then message e else None)).

(** [period !== "today" && period !== "week"] *)
Definition periodUnknown (period : JSValue Opaque) : bool :=
  match period with
  | JString s =>
    negb (JS.str_eqb s (JS.js "today")) && negb (JS.str_eqb s (JS.js "week"))
  | _ => true
  end.

Definition badRequest (msg : string) : Response Analysis :=
  mkResponse 400 (Failure (Some false) (Some (JS.js msg)) None).

(** The handler.  The body of the request is a JSON object; [todos] and
    [period] are the values of these keys in it, [JUndefined] when the key
    is absent (a body without keys to read, [null] or no JSON at all, is
    not a request of this model), and the elements of [todos] are read at
    type [Todo], the type the route declares for them; on tasks of that
    type no statement below throws.  [Wire.POST] further down is the same
    route on elements of any JSON. *)
Definition POST (env : Env) (todos : JSValue Todo) (period : JSValue Opaque)
    : Handler GenRequest ModelReply (Response Analysis) :=
  tryCatch
    (if negb (truthy todos) || negb (isArray todos)
     then Ret (badRequest "할 일 목록이 필요합니다.")
     else if negb (truthy period) || periodUnknown period
     then Ret (badRequest "분석 기간이 필요합니다 (today/week).")
     else if negb (truthyStr (GOOGLE_GENERATIVE_AI_API_KEY env))
     then Ret (mkResponse 500
                 (Failure (Some false)
                    (Some (JS.js "AI 서비스 설정 오류가 발생했습니다.")) None))
     else
       match todos, period with
       | JArray l, JString p =>
         let slots := timeSlotCount l in
         match mostProductiveTimeSlot slots with
         | Some best =>
           result <- generateObject
                       (mkRequest p (totalTasks l) (completedTasks l)
                          (incompleteTasks l) (completionRate l) slots best) ;;
           Ret (mkResponse 200 (Data result))
         | None =>
           Throw (typeError "Cannot read properties of undefined")
         end
       | _, _ => Throw (typeError "todos.filter is not a function")
       end)
    (onError env).

(** *** The caller: [handleAnalyzeTodos] of [app/page.tsx] *)

(** [new Date(s).getTime()] in the browser; [None] is NaN. *)
Variable getTime : JS.jsstring -> option Z.

(** The bounds the caller derives from its clock: the local midnights
    that open and close today and this week (Monday to Sunday). *)
Record Clock := mkClock {
  todayStart : Z;
  todayEnd : Z;
  weekStart : Z;
  weekEnd : Z
}.

Inductive Period := today | week.

Definition periodName (p : Period) : JS.jsstring :=
  match p with
  | today => JS.js "today"
  | week => JS.js "week"
  end.

(** [dueDate >= start && dueDate < end], false for a task without due
    date and for an invalid date. *)
Definition dueWithin (start stop : Z) (todo : Todo) : bool :=
  match due_date todo with
  | Some (c :: s) =>
    match getTime (c :: s) with
    | Some dueDate => ((start <=? dueDate) && (dueDate <? stop))%Z
    | None => false
    end
  | _ => false
  end.

Definition filterForPeriod (clock : Clock) (period : Period)
    (todos : list Todo) : list Todo :=
  match period with
  | today => filter (dueWithin (todayStart clock) (todayEnd clock)) todos
  | week => filter (dueWithin (weekStart clock) (weekEnd clock)) todos
  end.

(** The analysis state of the page after the handler has run (the
    statistics it stores for display aside). *)
Record AnalysisState := mkState {
  isAnalyzing : bool;
  analysisError : option JS.jsstring;
  analysisResult : option Analysis
}.

Definition nothingToAnalyze : JS.jsstring := JS.js "분석할 할 일이 없습니다.".

Definition failed (msg : JS.jsstring) : AnalysisState :=
  mkState false (Some msg) None.

(** [result.error || "할 일 분석에 실패했습니다."] *)
Definition errorOr (e : option JS.jsstring) (d : string) : JS.jsstring :=
  match e with
  | Some (c :: s) => c :: s
  | _ => JS.js d
  end.

(** [!result.success] is [negb (truthyFlag success)] *)
Definition truthyFlag (b : option bool) : bool :=
  match b with
  | Some true => true
  | _ => false
  end.

(** [response.ok] *)
Definition ok (r : Response Analysis) : bool :=
  ((200 <=? status r) && (status r <=? 299))%Z.

Definition handleAnalyzeTodos (env : Env) (clock : Clock) (period : Period)
    (todos : list Todo) : Handler GenRequest ModelReply AnalysisState :=
  let filteredTodos := filterForPeriod clock period todos in
  if (Z.of_nat (List.length filteredTodos) =? 0)%Z
  then Ret (failed nothingToAnalyze)
  else
    response <- POST env (JArray filteredTodos) (JString (periodName period)) ;;
    match body response with
    | Data result =>
      if ok response then Ret (mkState false None (Some result))
      else Ret (failed (JS.js "할 일 분석에 실패했습니다."))
    | Failure success e _ =>
      if negb (ok response) || negb (truthyFlag success)
      then Ret (failed (errorOr e "할 일 분석에 실패했습니다."))
      else Ret (mkState false None None)
    end.

End Host.

(** *** The other statistics of [POST] *)

(** A counter object [{ total, completed, incomplete }]. *)
Module Bucket.
Record t := mk { total : Z; completed : Z; incomplete : Z }.
Definition zero : t := mk 0 0 0.
End Bucket.

(** The object [priorityStats]. *)
Record PriorityStats := mkPriorityStats {
  at_high : Bucket.t;
  at_medium : Bucket.t;
  at_low : Bucket.t
}.

Definition bucket (p : PriorityStats) (k : Priority) : Bucket.t :=
  match k with
  | high => at_high p
  | medium => at_medium p
  | low => at_low p
  end.

Definition updateBucket (p : PriorityStats) (k : Priority)
    (f : Bucket.t -> Bucket.t) : PriorityStats :=
  match k with
  | high => mkPriorityStats (f (at_high p)) (at_medium p) (at_low p)
  | medium => mkPriorityStats (at_high p) (f (at_medium p)) (at_low p)
  | low => mkPriorityStats (at_high p) (at_medium p) (f (at_low p))
  end.

Definition incTotal (b : Bucket.t) : Bucket.t :=
  Bucket.mk (Bucket.total b + 1) (Bucket.completed b) (Bucket.incomplete b).

Definition incCompleted (b : Bucket.t) : Bucket.t :=
  Bucket.mk (Bucket.total b) (Bucket.completed b + 1) (Bucket.incomplete b).

Definition incIncomplete (b : Bucket.t) : Bucket.t :=
  Bucket.mk (Bucket.total b) (Bucket.completed b) (Bucket.incomplete b + 1).

(** The body of the [forEach] that fills [priorityStats]. *)
Definition countPriority (acc : PriorityStats) (todo : Todo)
    : PriorityStats :=
  let acc1 := updateBucket acc (priority todo) incTotal in
  if completed todo
  then updateBucket acc1 (priority todo) incCompleted
  else updateBucket acc1 (priority todo) incIncomplete.

Definition priorityStats (todos : list Todo) : PriorityStats :=
  fold_left countPriority todos
    (mkPriorityStats Bucket.zero Bucket.zero Bucket.zero).

(** [highCompletionRate], [mediumCompletionRate], [lowCompletionRate] *)
Definition priorityCompletionRate (todos : list Todo) (k : Priority) : Q :=
  let b := bucket (priorityStats todos) k in
  percentage (Bucket.completed b) (Bucket.total b).

Definition priority_eqb (a b : Priority) : bool :=
  match a, b with
  | high, high | medium, medium | low, low => true
  | _, _ => false
  end.

(** [todos.filter((todo) => todo.priority === "high")] *)
Definition highPriorityTasks (todos : list Todo) : list Todo :=
  filter (fun todo => priority_eqb (priority todo) high) todos.

(** [(incompleteTasks || 1)] *)
Definition orOne (n : Z) : Z := if (n =? 0)%Z then 1 else n.

(** [highPriorityTasks.filter((t) => !t.completed).length /
    (incompleteTasks || 1)] *)
Definition postponedHighPriority (todos : list Todo) : Q :=
  inject_Z
    (Z.of_nat
       (List.length
          (filter (fun t => negb (completed t)) (highPriorityTasks todos))))
  / inject_Z (orOne (incompleteTasks todos)).

Section Deadlines.

(** [new Date(s).getTime()] on the server; [None] is NaN. *)
Variable getTime : JS.jsstring -> option Z.

(** The time value of [const now = new Date()]. *)
Variable now : Z.

(** [todos.filter(...)] of "마감일 관련 통계": a comparison with an invalid
    date is false. *)
Definition isOverdue (todo : Todo) : bool :=
  match due_date todo with
  | Some (c :: s) =>
    if completed todo then false
    else
      match getTime (c :: s) with
      | Some dueDate => (dueDate <? now)%Z
      | None => false
      end
  | _ => false
  end.

Definition overdueTasks (todos : list Todo) : list Todo :=
  filter isOverdue todos.

End Deadlines.

(** *** The Monday of the week: [getWeekRange] and the week filter of
        [handleAnalyzeTodos] *)

(** [now.getDate() - dayOfWeek + (dayOfWeek === 0 ? -6 : 1)], the day of
    the month handed to [setDate], resp. to the [Date] constructor. *)
Definition mondayDiff (date dayOfWeek : Z) : Z :=
  date - dayOfWeek + (if (dayOfWeek =? 0)%Z then -6 else 1).

(** *** The route on any JSON body *)

(** [POST] above reads the tasks at type [Todo], the type the route
    declares for them.  The body comes from [request.json()], though, and
    nothing checks that type: the definitions below follow the same
    statements on whatever JSON the array holds, with the coercions and
    the [TypeError]s of the language.  On an array of tasks of type
    [Todo] the two routes are the same handler. *)
Module Wire.

(** A JSON value as [request.json()] returns it.  A number is kept as the
    string [String(n)] gives for it (["0"] for both zeros); an object as
    the list of its own properties, each key once. *)
#[warnings="-register-all"] Inductive Json :=
| JsNull
| JsBool (b : bool)
| JsNumber (repr : JS.jsstring)
| JsString (s : JS.jsstring)
| JsArray (elems : list Json)
| JsObject (props : list (JS.jsstring * Json)).

(** The own property [k] of an object; [None] is undefined. *)
Fixpoint own (k : JS.jsstring) (props : list (JS.jsstring * Json))
    : option Json :=
  match props with
  | [] => None
  | (k', v) :: rest => if JS.str_eqb k' k then Some v else own k rest
  end.

(** [todo.k] for an element that is not [null], [k] one of [completed],
    [priority], [due_date], [category] and [title]: the own property of
    an object; undefined on a boolean, a number, a string or an array,
    whose prototypes have no property of these names, as the prototype of
    an object has none. *)
Definition get (todo : Json) (k : string) : option Json :=
  match todo with
  | JsObject props => own (JS.js k) props
  | _ => None
  end.

(** Truthiness; [None] is undefined. *)
Definition truthyJ (v : option Json) : bool :=
  match v with
  | None | Some JsNull => false
  | Some (JsBool b) => b
  | Some (JsNumber r) => negb (JS.str_eqb r (JS.js "0"))
  | Some (JsString s) => negb (JS.str_eqb s [])
  | Some (JsArray _) | Some (JsObject _) => true
  end.

(** [ToString(v)], which is also the primitive [ToPrimitive(v)] comes to
    for an array or an object; [None] is a [TypeError].  An array is
    joined with commas, [null] elements giving the empty string.  An
    object without own [toString] is ["[object Object]"]; one with an own
    [toString], which in JSON is no function, cannot be converted: for
    [valueOf] is then either an own property, no function either, or the
    inherited one, which returns the object. *)
Fixpoint toStr (v : Json) : option JS.jsstring :=
  match v with
  | JsNull => Some (JS.js "null")
  | JsBool true => Some (JS.js "true")
  | JsBool false => Some (JS.js "false")
  | JsNumber r => Some r
  | JsString s => Some s
  | JsArray elems =>
    (fix join (l : list Json) (first : bool) : option JS.jsstring :=
       match l with
       | [] => Some []
       | x :: rest =>
         match match x with JsNull => Some [] | _ => toStr x end,
               join rest false with
         | Some a, Some b =>
           Some ((if first then [] else JS.js ",") ++ a ++ b)
         | _, _ => None
         end
       end) elems true
  | JsObject props =>
    match own (JS.js "toString") props with
    | Some _ => None
    | None => Some (JS.js "[object Object]")
    end
  end.

Definition throws (v : Json) : bool :=
  match toStr v with Some _ => false | None => true end.

(** The names of the properties every object inherits from
    [Object.prototype]. *)
Definition objectPrototypeNames : list JS.jsstring :=
  map JS.js
    ["constructor"; "__defineGetter__"; "__defineSetter__";
     "hasOwnProperty"; "__lookupGetter__"; "__lookupSetter__";
     "isPrototypeOf"; "propertyIsEnumerable"; "toString"; "valueOf";
     "__proto__"; "toLocaleString"]%string.

(** [priorityStats[key]] is not undefined: [key] names one of the three
    counters or a property the literal inherits ([Object.prototype] as
    the engine provides it). *)
Definition inPriorityStats (key : JS.jsstring) : bool :=
  existsb (JS.str_eqb key)
    (map JS.js ["high"; "medium"; "low"]%string ++ objectPrototypeNames).

(** [priorityStats[todo.priority].total++] throws: the priority cannot be
    made a property key, or the key names nothing. *)
Definition priorityThrows (todo : Json) : bool :=
  match get todo "priority" with
  | None => negb (inPriorityStats (JS.js "undefined"))
  | Some v =>
    match toStr v with
    | Some key => negb (inPriorityStats key)
    | None => true
    end
  end.

(** [new Date(todo.due_date)], evaluated where [todo.due_date] is truthy,
    throws. *)
Definition dueDateThrows (todo : Json) : bool :=
  match get todo "due_date" with
  | Some v => truthyJ (Some v) && throws v
  | None => false
  end.

(** [todo.category?.forEach((cat) => ... categoryCount[cat] ...)] throws:
    the category is neither null, undefined nor an array, so it has no
    function [forEach]; or an element cannot be made a property key. *)
Definition categoryThrows (todo : Json) : bool :=
  match get todo "category" with
  | None | Some JsNull => false
  | Some (JsArray cats) => existsb throws cats
  | Some _ => true
  end.

(** The template literal with [todo.title] throws. *)
Definition titleThrows (todo : Json) : bool :=
  match get todo "title" with
  | Some v => throws v
  | None => false
  end.

(** Some statement of the route throws on the element: reading
    [todo.completed] of [null], or one of the above. *)
Definition faulty (todo : Json) : bool :=
  match todo with
  | JsNull => true
  | _ =>
    priorityThrows todo || dueDateThrows todo || categoryThrows todo
    || titleThrows todo
  end.


(** **** The statistics of the request, on elements that are not faulty *)

Definition isCompleted (todo : Json) : bool := truthyJ (get todo "completed").

Definition totalTasks (todos : list Json) : Z :=
  Z.of_nat (List.length todos).

Definition completedTasks (todos : list Json) : Z :=
  Z.of_nat (List.length (filter isCompleted todos)).

Definition incompleteTasks (todos : list Json) : Z :=
  totalTasks todos - completedTasks todos.

Definition completionRate (todos : list Json) : Q :=
  percentage (completedTasks todos) (totalTasks todos).

Section Host.

(** [new Date(v).getHours()] on the server, for a value the constructor
    does not throw on; [None] is NaN. *)
Variable hoursOf : Json -> option Z.

(** The [TypeError] of the first statement that throws on the list; its
    message is the wording of the engine. *)
Variable typeErrorOn : list Json -> JSError.

Definition countTodo (acc : TimeSlotCount) (todo : Json) : TimeSlotCount :=
  match get todo "due_date" with
  | Some v =>
    if truthyJ (Some v)
    then
      let hour := hoursOf v in
      let slot := slotOfHour hour in
      let acc1 := updateSlot acc slot bumpTotal in
      if isCompleted todo then updateSlot acc1 slot bumpCompleted else acc1
    else acc
  | None => acc
  end.

Definition timeSlotCount (todos : list Json) : TimeSlotCount :=
  fold_left countTodo todos
    (mkSlots Count.zero Count.zero Count.zero).

(** The handler; [todos] and [period] as for [POST] above, the elements
    of [todos] now any JSON. *)
Definition POST (env : Env) (todos : JSValue Json)
    (period : JSValue Opaque)
    : Handler GenRequest ModelReply (Response Analysis) :=
  tryCatch
    (if negb (truthy todos) || negb (isArray todos)
     then Ret (badRequest "할 일 목록이 필요합니다.")
     else if negb (truthy period) || periodUnknown period
     then Ret (badRequest "분석 기간이 필요합니다 (today/week).")
     else if negb (truthyStr (GOOGLE_GENERATIVE_AI_API_KEY env))
     then Ret (mkResponse 500
                 (Failure (Some false)
                    (Some (JS.js "AI 서비스 설정 오류가 발생했습니다.")) None))
     else
       match todos, period with
       | JArray l, JString p =>
         if existsb faulty l then Throw (typeErrorOn l)
         else
           let slots := timeSlotCount l in
           match mostProductiveTimeSlot slots with
           | Some best =>
             result <- generateObject
                         (mkRequest p (totalTasks l) (completedTasks l)
                            (incompleteTasks l) (completionRate l) slots
                            best) ;;
             Ret (mkResponse 200 (Data result))
           | None =>
             Throw (typeError "Cannot read properties of undefined")
           end
       | _, _ => Throw (typeError "todos.filter is not a function")
       end)
    (onError env).

End Host.

(** **** Tasks of type [Todo] as JSON *)





End Wire.

End AnalyzeTodos.

(* ================================================================= *)
(** ** The task form ([TodoForm] of [unnamed/part_003]) *)

Module TodoForm.

(** [TodoFormValues] *)
Record TodoFormValues := mkValues {
  title : JS.jsstring;
  description : option JS.jsstring;
  due_date : option JS.jsstring;
  due_time : option JS.jsstring;
  priority : GenerateTodo.Priority;
  category : list JS.jsstring
}.

(** *** [handleCategoryToggle] *)

(** [current.includes(category)] *)
Definition includesCategory (current : list JS.jsstring)
    (category : JS.jsstring) : bool :=
  existsb (fun c => JS.str_eqb c category) current.

Definition handleCategoryToggle (current : list JS.jsstring)
    (category : JS.jsstring) : list JS.jsstring :=
  if includesCategory current category
  then filter (fun c => negb (JS.str_eqb c category)) current
  else current ++ [category].

(** *** [handleSubmit] *)

(** The due date handed to [onSubmit]; [None] is undefined. *)
Definition combinedDueDate (data : TodoFormValues) : option JS.jsstring :=
  match due_date data with
  | Some (c :: d) =>
    match due_time data with
    | Some (u :: t) => Some ((c :: d) ++ JS.js "T" ++ (u :: t) ++ JS.js ":00")
    | _ => Some ((c :: d) ++ JS.js "T00:00:00")
    end
  | _ => None
  end.

Definition handleSubmit (data : TodoFormValues) : TodoFormValues :=
  mkValues (title data) (description data) (combinedDueDate data)
    (due_time data) (priority data) (category data).

(** *** [handleAiGenerate] *)

(** The state the handler reads and writes: the text of the AI input, the
    error shown under it, and the values of the form. *)
Record AiState := mkAiState {
  aiInput : JS.jsstring;
  aiError : option JS.jsstring;
  values : TodoFormValues
}.

(** [response.ok] *)
Definition ok {D} (r : Response D) : bool :=
  ((200 <=? status r) && (status r <=? 299))%Z.

(** [result.error || d] and [error.message || d] *)
Definition textOr (e : option JS.jsstring) (d : string) : JS.jsstring :=
  match e with
  | Some (c :: s) => c :: s
  | _ => JS.js d
  end.

(** The block "폼 필드에 자동으로 채우기". *)
Definition fillForm (originalInput : JS.jsstring)
    (todoData : GenerateTodo.TodoData) (v : TodoFormValues)
    : TodoFormValues :=
  let title1 :=
    match GenerateTodo.title todoData with
    | Some (c :: s) => c :: s
    | _ => []
    end in
  let description1 :=
    match GenerateTodo.description todoData with
    | Some (c :: s) =>
      Some ((c :: s) ++ JS.js (String "010" (String "010" "원본 입력: "))
            ++ originalInput)
    | _ => Some originalInput
    end in
  let due_date1 :=
    match GenerateTodo.due_date todoData with
    | Some (c :: s) => Some (c :: s)
    | _ => due_date v
    end in
  let due_time1 :=
    match GenerateTodo.due_time todoData with
    | Some (c :: s) => Some (c :: s)
    | _ => Some (JS.js "09:00")
    end in
  let priority1 :=
    match GenerateTodo.priority todoData with
    | Some p => p
    | None => priority v
    end in
  let category1 :=
    match GenerateTodo.category todoData with
    | Some l => l
    | None => category v
    end in
  mkValues title1 description1 due_date1 due_time1 priority1 category1.

(** The handler, with the route it fetches run in its place. *)
Definition handleAiGenerate (engine : JSDate.Engine) (env : Env)
    (today : JS.jsstring) (st : AiState)
    : Handler GenerateTodo.GenRequest GenerateTodo.ModelReply AiState :=
  match JS.trim (aiInput st) with
  | [] =>
    Ret (mkAiState (aiInput st) (Some (JS.js "자연어 입력이 필요합니다."))
           (values st))
  | originalInput =>
    response <- GenerateTodo.POST engine env today (JString originalInput) ;;
    match body response with
    | Data todoData =>
      if ok response
      then Ret (mkAiState [] None (fillForm originalInput todoData (values st)))
      else Ret (mkAiState (aiInput st)
                  (Some (JS.js "할 일 생성에 실패했습니다.")) (values st))
    | Failure success e _ =>
      if negb (ok response) || negb (AnalyzeTodos.truthyFlag success)
      then Ret (mkAiState (aiInput st)
                  (Some (textOr e "할 일 생성에 실패했습니다.")) (values st))
      else (* [result.data] is undefined and reading its title throws *)
        Ret (mkAiState (aiInput st)
               (Some (JS.js "Cannot read properties of undefined (reading 'title')"))
               (values st))
    end
  end.

(** The state [handleAiGenerate] leaves once the route has answered: the
    statements after [await response.json()], with the catch block. *)
Definition settle (st : AiState) (originalInput : JS.jsstring)
    (response : Response GenerateTodo.TodoData) : AiState :=
  match body response with
  | Data todoData =>
    if ok response
    then mkAiState [] None (fillForm originalInput todoData (values st))
    else mkAiState (aiInput st)
           (Some (JS.js "할 일 생성에 실패했습니다.")) (values st)
  | Failure success e _ =>
    if negb (ok response) || negb (AnalyzeTodos.truthyFlag success)
    then mkAiState (aiInput st)
           (Some (textOr e "할 일 생성에 실패했습니다.")) (values st)
    else mkAiState (aiInput st)
           (Some (JS.js "Cannot read properties of undefined (reading 'title')"))
           (values st)
  end.

End TodoForm.

(* ================================================================= *)
(** * Properties *)

(** ** Handlers *)

Lemma calls_tryCatch {Req Rep A} (service : Req -> Rep)
    (h : Handler Req Rep A) (c : JSError -> A) :
  calls service (tryCatch h c) = calls service h.
Proof.
  unfold calls.
  induction h as [a | e | q k IH]; simpl; try reflexivity.
  specialize (IH (service q)).
  destruct (run service (tryCatch (k (service q)) c)) as [o1 l1].
  destruct (run service (k (service q))) as [o2 l2].
  simpl in *. now rewrite IH.
Qed.

(** A handler guarded by [tryCatch] never lets an error escape. *)
Lemma outcome_tryCatch {Req Rep A} (service : Req -> Rep)
    (h : Handler Req Rep A) (c : JSError -> A) :
  outcome service (tryCatch h c) =
  match outcome service h with
  | inl a => inl a
  | inr e => inl (c e)
  end.
Proof.
  unfold outcome.
  induction h as [a | e | q k IH]; simpl; try reflexivity.
  specialize (IH (service q)).
  destruct (run service (tryCatch (k (service q)) c)) as [o1 l1].
  destruct (run service (k (service q))) as [o2 l2].
  simpl in *. exact IH.
Qed.

(** ** Strings *)

(** The literals of the routes, in code units. *)
Lemma literal_placeholder :
  JS.js "할 일" = [54624; 32; 51068]%N /\ JS.js "개인" = [44060; 51064]%N
  /\ JS.js "09:00" = [48; 57; 58; 48; 48]%N.
Proof. repeat split. Qed.

Lemma str_eqb_eq (s t : JS.jsstring) : JS.str_eqb s t = true <-> s = t.
Proof.
  revert t. induction s as [| a s IH]; intros [| b t]; simpl;
    split; intros H; try congruence.
  - apply andb_prop in H as [Hab Hst].
    apply N.eqb_eq in Hab. apply IH in Hst. congruence.
  - injection H as -> ->. apply andb_true_intro. split.
    + apply N.eqb_refl.
    + now apply IH.
Qed.

Lemma trimStart_length (s : JS.jsstring) :
  (List.length (JS.trimStart s) <= List.length s)%nat.
Proof.
  induction s as [| c s IH]; simpl; [lia |].
  destruct (JS.isWhiteSpace c); simpl; lia.
Qed.

Lemma trimStart_idem (s : JS.jsstring) :
  JS.trimStart (JS.trimStart s) = JS.trimStart s.
Proof.
  induction s as [| c s IH]; simpl; [reflexivity |].
  destruct (JS.isWhiteSpace c) eqn:E; [exact IH |].
  simpl. now rewrite E.
Qed.

Lemma trimStart_fixed_head (c : JS.unit16) (r : JS.jsstring) :
  JS.trimStart (c :: r) = c :: r <-> JS.isWhiteSpace c = false.
Proof.
  simpl. destruct (JS.isWhiteSpace c) eqn:E; split; intros H;
    try reflexivity; try discriminate.
  pose proof (trimStart_length r) as Hlen. rewrite H in Hlen.
  simpl in Hlen. lia.
Qed.

(** What [trimStart] returns is what follows a prefix of the string. *)
Lemma trimStart_suffix (s : JS.jsstring) :
  exists p, s = p ++ JS.trimStart s.
Proof.
  induction s as [| c s [p IH]]; simpl.
  - now exists [].
  - destruct (JS.isWhiteSpace c).
    + exists (c :: p). simpl. now rewrite <- IH.
    + now exists [].
Qed.

Lemma trimmed_trim (s : JS.jsstring) : JS.Trimmed s -> JS.trim s = s.
Proof.
  intros [H1 H2]. unfold JS.trim, JS.trimEnd.
  rewrite H1, H2. apply rev_involutive.
Qed.

Lemma trim_trimmed (s : JS.jsstring) : JS.Trimmed (JS.trim s).
Proof.
  unfold JS.trim, JS.trimEnd.
  set (u := JS.trimStart s). set (w := JS.trimStart (rev u)).
  assert (Hw : JS.trimStart w = w) by apply trimStart_idem.
  split.
  - destruct (trimStart_suffix (rev u)) as [p Hp]. fold w in Hp.
    assert (Hu : u = rev w ++ rev p).
    { rewrite <- rev_app_distr, <- Hp. symmetry. apply rev_involutive. }
    destruct (rev w) as [| c r] eqn:Er; [reflexivity |].
    apply trimStart_fixed_head.
    assert (Hfix : JS.trimStart u = u) by apply trimStart_idem.
    rewrite Hu in Hfix. simpl app in Hfix.
    now apply trimStart_fixed_head in Hfix.
  - rewrite rev_involutive. exact Hw.
Qed.

Lemma trim_idem (s : JS.jsstring) : JS.trim (JS.trim s) = JS.trim s.
Proof. apply trimmed_trim, trim_trimmed. Qed.

(** Cutting a trimmed string and appending the ellipsis leaves a trimmed
    string. *)
Lemma trimmed_truncated (n : nat) (s : JS.jsstring) :
  JS.Trimmed s -> (0 < n)%nat -> s <> [] ->
  JS.Trimmed (JS.substring0 n s ++ JS.js "...").
Proof.
  intros [H1 _] Hn Hs. unfold JS.substring0.
  destruct s as [| c r]; [contradiction |].
  destruct n as [| n]; [lia |].
  split.
  - simpl firstn. simpl app. apply trimStart_fixed_head.
    now apply trimStart_fixed_head in H1.
  - rewrite rev_app_distr. reflexivity.
Qed.

Lemma truncate_again (n : nat) (s e : JS.jsstring) :
  (n < List.length s)%nat ->
  JS.substring0 n (JS.substring0 n s ++ e) = JS.substring0 n s.
Proof.
  intros H. unfold JS.substring0.
  rewrite firstn_app, firstn_firstn, Nat.min_id.
  rewrite firstn_length_le by lia.
  rewrite Nat.sub_diag. simpl. apply app_nil_r.
Qed.

(* ================================================================= *)
(** ** The normalizer *)

Module GenerateTodoFacts.

Import GenerateTodo.

(** *** Input validation *)

Lemma validateInput_rejects (v : JSValue Opaque) :
  (forall s, v = JString s ->
     s = [] \/ (JS.length (JS.trim s) < 2)%Z
     \/ (500 < JS.length (JS.trim s))%Z) ->
  exists msg, validateInput v = mkValidation false (Some msg) (Some 400%Z).
Proof.
  intros H.
  destruct v as [ | | b | q | s | l | ]; try (eexists; reflexivity).
  unfold validateInput.
  destruct (H s eq_refl) as [-> | Hlen]; [eexists; reflexivity |].
  destruct (negb (truthy (JString s))); [eexists; reflexivity |].
  cbv zeta.
  destruct (Z.eqb_spec (JS.length (JS.trim s)) 0); [eexists; reflexivity |].
  destruct (Z.ltb_spec (JS.length (JS.trim s)) 2); [eexists; reflexivity |].
  destruct (Z.ltb_spec 500 (JS.length (JS.trim s))); [eexists; reflexivity |].
  lia.
Qed.

Lemma validateInput_accepts (v : JSValue Opaque) :
  valid (validateInput v) = true ->
  exists s, v = JString s /\ s <> []
            /\ (2 <= JS.length (JS.trim s) <= 500)%Z.
Proof.
  destruct v as [ | | b | q | s | l | ]; simpl; try discriminate.
  destruct s as [| c s]; simpl; [discriminate |].
  destruct (Z.eqb_spec (JS.length (JS.trim (c :: s))) 0); [discriminate |].
  destruct (Z.ltb_spec (JS.length (JS.trim (c :: s))) 2); [discriminate |].
  destruct (Z.ltb_spec 500 (JS.length (JS.trim (c :: s)))); [discriminate |].
  intros _. exists (c :: s). repeat split; try lia. discriminate.
Qed.

(** C2.  A request whose input is not a string, is the empty string, or
    has fewer than 2 or more than 500 code units once trimmed, is answered
    with status 400 and [success: false]; the handler is a bare answer, so
    whatever the completion service is, it receives no call. *)
Theorem invalid_input_rejected (engine : JSDate.Engine) (env : Env)
    (today : JS.jsstring) (v : JSValue Opaque) :
  (forall s, v = JString s ->
     s = [] \/ (JS.length (JS.trim s) < 2)%Z
     \/ (500 < JS.length (JS.trim s))%Z) ->
  (exists msg,
     POST engine env today v
     = Ret (mkResponse 400 (Failure (Some false) (Some msg) None)))
  /\ (forall service, calls service (POST engine env today v) = []).
Proof.
  intros H.
  destruct (validateInput_rejects v H) as [msg Hv].
  assert (E : POST engine env today v
              = Ret (mkResponse 400 (Failure (Some false) (Some msg) None))).
  { unfold POST. rewrite Hv. reflexivity. }
  split.
  - exists msg. exact E.
  - intros service. rewrite E. reflexivity.
Qed.

Lemma invalid_input_rejected_witness :
  let engine := JSDate.CarryOver in
  let env := mkEnv (Some (JS.js "k")) None in
  let today := JS.js "2025-06-01" in
  let v : JSValue Opaque := JString (JS.js "  a  ") in
  (forall s, v = JString s ->
     s = [] \/ (JS.length (JS.trim s) < 2)%Z
     \/ (500 < JS.length (JS.trim s))%Z)
  /\ ((exists msg,
         POST engine env today v
         = Ret (mkResponse 400 (Failure (Some false) (Some msg) None)))
      /\ (forall service, calls service (POST engine env today v) = [])).
Proof.
  intros engine env today v.
  assert (H : forall s, v = JString s ->
     s = [] \/ (JS.length (JS.trim s) < 2)%Z
     \/ (500 < JS.length (JS.trim s))%Z).
  { intros s E. injection E as <-. right. left. vm_compute. reflexivity. }
  split; [exact H | exact (invalid_input_rejected engine env today v H)].
Defined.

(** *** Dates *)

Lemma daysInMonth_le_31 (y m : Z) : (JSDate.daysInMonth y m <= 31)%Z.
Proof.
  unfold JSDate.daysInMonth.
  destruct (m =? 2)%Z; [destruct (JSDate.isLeapYear y); lia |].
  destruct ((m =? 4) || (m =? 6) || (m =? 9) || (m =? 11))%Z; lia.
Qed.

Lemma calendarDate_regex (s : JS.jsstring) :
  JSDate.isCalendarDate s = true -> JSDate.dateRegex_test s = true.
Proof.
  unfold JSDate.isCalendarDate.
  destruct s as [|y1 [|y2 [|y3 [|y4 [|h1 [|m1 [|m2 [|h2 [|d1 [|d2 [|x r]]]]]]]]]]];
    try discriminate.
  intros H. apply andb_prop in H. exact (proj1 H).
Qed.

Lemma calendarDate_parses (engine : JSDate.Engine) (s : JS.jsstring) :
  JSDate.isCalendarDate s = true ->
  exists t, JSDate.parseMidnight engine s = Some t.
Proof.
  intros H. pose proof (calendarDate_regex s H) as Hre. revert H Hre.
  unfold JSDate.isCalendarDate, JSDate.parseMidnight.
  destruct s as [|y1 [|y2 [|y3 [|y4 [|h1 [|m1 [|m2 [|h2 [|d1 [|d2 [|x r]]]]]]]]]]];
    try discriminate.
  intros H Hre. rewrite Hre in *. cbv zeta in *.
  rewrite andb_true_l in H.
  repeat (apply andb_prop in H; destruct H as [H ?]).
  pose proof (daysInMonth_le_31 (JSDate.num4 y1 y2 y3 y4) (JSDate.num2 m1 m2)).
  replace (JSDate.dayAccepted engine (JSDate.num4 y1 y2 y3 y4)
             (JSDate.num2 m1 m2) (JSDate.num2 d1 d2)) with true
    by (symmetry; destruct engine; simpl; [apply Z.leb_le;
        apply Z.leb_le in H0; lia | exact H0]).
  rewrite H, H1, H2. simpl. eexists. reflexivity.
Qed.

(** The date block either falls back on [today] or keeps a date that
    passed every test. *)
Lemma repairDueDate_cases (engine : JSDate.Engine) (today : JS.jsstring)
    (d : option JS.jsstring) (t0 : Z) :
  JSDate.dateRegex_test today = true ->
  JSDate.parseMidnight engine today = Some t0 ->
  repairDueDate engine today d = today
  \/ exists s t,
       d = Some s /\ s <> [] /\ repairDueDate engine today d = s
       /\ JSDate.dateRegex_test s = true
       /\ JSDate.parseMidnight engine s = Some t /\ (t0 <= t)%Z.
Proof.
  intros Hre Hp. unfold repairDueDate.
  destruct d as [[| c s] |]; cbv zeta.
  - left. rewrite Hre, Hp. simpl. now destruct (t0 <? t0)%Z.
  - destruct (JSDate.dateRegex_test (c :: s)) eqn:Hs; cbn [negb];
      [| now left].
    destruct (JSDate.parseMidnight engine (c :: s)) as [t |] eqn:Ht;
      [| now left].
    rewrite Hp. destruct (Z.ltb_spec t t0); [now left |].
    right. exists (c :: s), t. repeat split; auto. discriminate.
  - left. rewrite Hre, Hp. simpl. now destruct (t0 <? t0)%Z.
Qed.

Lemma repairDueDate_acceptable (engine : JSDate.Engine)
    (today : JS.jsstring) (d : option JS.jsstring) :
  JSDate.isCalendarDate today = true ->
  acceptableDate engine today (repairDueDate engine today d).
Proof.
  intros H.
  pose proof (calendarDate_regex today H) as Hre.
  destruct (calendarDate_parses engine today H) as [t0 Hp].
  destruct (repairDueDate_cases engine today d t0 Hre Hp)
    as [-> | (s & t & _ & _ & -> & Hs & Ht & Hle)].
  - split; [exact Hre |]. exists t0, t0. repeat split; auto. lia.
  - split; [exact Hs |]. exists t0, t. auto.
Qed.

(** *** What a successful answer carries *)

Lemma POST_data_repaired (engine : JSDate.Engine) (env : Env)
    (today : JS.jsstring) (v : JSValue Opaque) service r data :
  outcome service (POST engine env today v) = inl r ->
  body r = Data data ->
  exists d, data = repair engine today d.
Proof.
  unfold POST. rewrite outcome_tryCatch. cbv zeta.
  destruct (valid (validateInput v)) eqn:Hv; simpl.
  - destruct v as [ | | b | q | s | l | ]; simpl;
      try (intros [= <-]; discriminate).
    destruct (truthyStr (GOOGLE_GENERATIVE_AI_API_KEY env)); simpl;
      [| intros [= <-]; discriminate].
    unfold outcome. simpl.
    destruct (service (mkRequest today (preprocessInput s)))
      as [o | | | e]; simpl; try (intros [= <-]; simpl; discriminate).
    + destruct (todoSchema_parse o) as [d |]; simpl;
        intros [= <-]; simpl; [| discriminate].
      intros [= <-]. now exists d.
    + unfold onError. destruct (_ || _); [intros [= <-]; discriminate |].
      destruct (_ || _); [intros [= <-]; discriminate |].
      destruct (_ || _); [intros [= <-]; discriminate |].
      destruct (_ || _); intros [= <-]; discriminate.
  - intros [= <-]. discriminate.
Qed.

(** The handler always answers: no error escapes the [try] block. *)
Lemma POST_always_answers (engine : JSDate.Engine) (env : Env)
    (today : JS.jsstring) (v : JSValue Opaque) service :
  exists r, outcome service (POST engine env today v) = inl r.
Proof.
  unfold POST. rewrite outcome_tryCatch.
  destruct (outcome service _); eexists; reflexivity.
Qed.

(** What the repair pass does establish of the due date.  With [today]
    the [YYYY-MM-DD] form of a calendar day, and on either kind of engine:
    whatever draft the completion service hands over, the due date after
    the repair pass has the form [YYYY-MM-DD], is parsed by the engine,
    and parses to a day that is not before the one [today] parses to; a
    missing or empty, malformed, unparseable or past date has become
    [today].  The same holds of the date in every successful answer of
    the handler. *)
Theorem due_date_normalized (engine : JSDate.Engine) (today : JS.jsstring) :
  JSDate.isCalendarDate today = true ->
  (forall d : TodoData,
     exists out,
       due_date (repair engine today d) = Some out
       /\ acceptableDate engine today out
       /\ (truthyStr (due_date d) = false -> out = today)
       /\ (forall s, due_date d = Some s ->
             JSDate.dateRegex_test s = false -> out = today)
       /\ (forall s, due_date d = Some s ->
             JSDate.parseMidnight engine s = None -> out = today)
       /\ (forall s t t0, due_date d = Some s ->
             JSDate.parseMidnight engine s = Some t ->
             JSDate.parseMidnight engine today = Some t0 ->
             (t < t0)%Z -> out = today))
  /\ (forall env v service r data,
        outcome service (POST engine env today v) = inl r ->
        body r = Data data ->
        exists out,
          due_date data = Some out /\ acceptableDate engine today out).
Proof.
  intros H.
  pose proof (calendarDate_regex today H) as Hre.
  destruct (calendarDate_parses engine today H) as [t0 Hp].
  split.
  - intros d. exists (repairDueDate engine today (due_date d)).
    split; [reflexivity |].
    split; [now apply repairDueDate_acceptable |].
    destruct (repairDueDate_cases engine today (due_date d) t0 Hre Hp)
      as [E | (s & t & Ed & Hne & E & Hs & Ht & Hle)].
    + rewrite E. repeat split; intros; reflexivity.
    + rewrite E, Ed. repeat split.
      * destruct s; simpl; [contradiction | discriminate].
      * intros s' [= <-] Hbad. congruence.
      * intros s' [= <-] Hbad. congruence.
      * intros s' t' t0' [= <-] Ht' Hp' Hlt.
        assert (t' = t) by congruence. assert (t0' = t0) by congruence. lia.
  - intros env v service r data Hout Hbody.
    destruct (POST_data_repaired engine env today v service r data Hout
                Hbody)
      as [d ->].
    exists (repairDueDate engine today (due_date d)).
    split; [reflexivity | now apply repairDueDate_acceptable].
Qed.

Lemma due_date_normalized_witness :
  let engine := JSDate.CarryOver in
  let today := JS.js "2025-06-01" in
  JSDate.isCalendarDate today = true
  /\ exists out,
       due_date (repair engine today
                   (mkTodo (Some (JS.js "a")) None (Some (JS.js "2025-05-31"))
                      None None None)) = Some out
       /\ acceptableDate engine today out.
Proof.
  intros engine today.
  assert (H : JSDate.isCalendarDate today = true) by (vm_compute; reflexivity).
  split; [exact H |].
  destruct (proj1 (due_date_normalized engine today H)
              (mkTodo (Some (JS.js "a")) None (Some (JS.js "2025-05-31"))
                 None None None)) as (out & E & Hok & _).
  exists out. split; [exact E | exact Hok].
Defined.

(** The title of a draft is trimmed by the pass, so an untrimmed title,
    valid as it may be once trimmed, does change. *)
Lemma untrimmed_title_changes :
  repairTitle (Some (JS.js " a ")) = JS.js "a".
Proof. vm_compute. reflexivity. Qed.

(** C1, at the input where the code departs from it.  The model answers
    with the 31st of February.  The pattern of the route accepts the
    string, and the engine of the server, which carries a day number past
    the end of the month over, parses it, to the 3rd of March; so the
    check "날짜 유효성 검증" lets it pass, and the answer of the handler
    carries the date as it came, although it is no day of the calendar. *)
Theorem impossible_day_kept :
  let engine := JSDate.CarryOver in
  let env := mkEnv (Some (JS.js "k")) None in
  let today := JS.js "2025-02-01" in
  let reply :=
    ReplyObject
      (mkRaw (JString (JS.js "팀 회의")) JUndefined
         (JString (JS.js "2025-02-31")) (JString (JS.js "10:00"))
         (JString (JS.js "medium")) (JArray [JString (JS.js "업무")])) in
  exists data,
    outcome (fun _ => reply)
      (POST engine env today (JString (JS.js "2월 31일 10시에 팀 회의")))
    = inl (mkResponse 200 (Data data))
    /\ due_date data = Some (JS.js "2025-02-31")
    /\ JSDate.isCalendarDate (JS.js "2025-02-31") = false
    /\ JSDate.parseMidnight engine (JS.js "2025-02-31")
       = JSDate.parseMidnight engine (JS.js "2025-03-03")
    /\ JSDate.parseMidnight engine (JS.js "2025-02-31") <> None.
Proof.
  eexists. split; [vm_compute; reflexivity |].
  split; [reflexivity |]. split; [reflexivity |].
  split; [vm_compute; reflexivity | vm_compute; discriminate].
Qed.

(** The test on the date is the one of the engine.  Where the engine
    carries a day number past the end of the month over, as V8 does, such
    a date parses and is kept as written; where the engine rejects it, it
    is replaced. *)
Lemma day_past_month_end :
  repairDueDate JSDate.CarryOver (JS.js "2025-06-01")
    (Some (JS.js "2099-02-31")) = JS.js "2099-02-31"
  /\ JSDate.parseMidnight JSDate.CarryOver (JS.js "2099-02-31")
     = JSDate.parseMidnight JSDate.CarryOver (JS.js "2099-03-03")
  /\ repairDueDate JSDate.Reject (JS.js "2025-06-01")
       (Some (JS.js "2099-02-31")) = JS.js "2025-06-01".
Proof. repeat split; vm_compute; reflexivity. Qed.

(** *** Times *)

Lemma isHHmm_timeRegex (s : JS.jsstring) :
  JSDate.isHHmm s = true -> JSDate.timeRegex_test s = true.
Proof.
  destruct s as [|h1 [|h2 [|c [|m1 [|m2 [|x r]]]]]];
    unfold JSDate.timeRegex_test, JSDate.isHHmm; try discriminate.
  auto.
Qed.

(** What the pattern of the route accepts: the two-digit form, or a lone
    digit for the hour. *)
Lemma timeRegex_forms (s : JS.jsstring) :
  JSDate.timeRegex_test s = true ->
  JSDate.isHHmm s = true
  \/ exists h c m1 m2,
       s = [h; c; m1; m2] /\ JSDate.isDigit h = true
       /\ c = JSDate.colon /\ JSDate.is0to5 m1 = true
       /\ JSDate.isDigit m2 = true.
Proof.
  destruct s as [|h1 [|h2 [|c [|m1 [|m2 [|x r]]]]]];
    unfold JSDate.timeRegex_test, JSDate.isHHmm; try discriminate.
  - intros H. right. exists h1, h2, c, m1.
    apply andb_prop in H as [H Hm2].
    apply andb_prop in H as [H Hm1].
    apply andb_prop in H as [Hh Hc].
    repeat split; auto. now apply N.eqb_eq.
  - auto.
Qed.

Lemma repairDueTime_timeRegex (t : option JS.jsstring) :
  JSDate.timeRegex_test (repairDueTime t) = true.
Proof.
  unfold repairDueTime.
  destruct t as [[| c s] |]; try reflexivity.
  destruct (JSDate.timeRegex_test (c :: s)) eqn:E; simpl; auto.
Qed.

Lemma repairDueTime_default (t : option JS.jsstring) :
  truthyStr t = false
  \/ (exists s, t = Some s /\ JSDate.timeRegex_test s = false) ->
  repairDueTime t = defaultTime.
Proof.
  unfold repairDueTime.
  intros [H | (s & -> & H)].
  - destruct t as [[| c s] |]; simpl in H; try reflexivity. discriminate.
  - destruct s as [| c s]; [reflexivity |]. now rewrite H.
Qed.

Lemma repairDueTime_kept (s : JS.jsstring) :
  JSDate.timeRegex_test s = true -> repairDueTime (Some s) = s.
Proof.
  intros H. unfold repairDueTime.
  destruct s as [| c s]; [discriminate |]. now rewrite H.
Qed.

(** C3, at the input where the code departs from it.  The model answers
    with the time 9:30 written with one digit for the hour; the pattern of
    the route accepts it, and the answer of the handler carries it as it
    came, although it is neither of the form [HH:mm] nor the default. *)
Theorem single_digit_hour_kept :
  let engine := JSDate.CarryOver in
  let env := mkEnv (Some (JS.js "k")) None in
  let today := JS.js "2025-06-01" in
  let reply :=
    ReplyObject
      (mkRaw (JString (JS.js "팀 회의 준비")) JUndefined
         (JString (JS.js "2025-06-02")) (JString (JS.js "9:30"))
         (JString (JS.js "medium")) (JArray [JString (JS.js "업무")])) in
  exists data,
    outcome (fun _ => reply)
      (POST engine env today (JString (JS.js "내일 오전 9시 반에 팀 회의 준비")))
    = inl (mkResponse 200 (Data data))
    /\ due_time data = Some (JS.js "9:30")
    /\ JSDate.isHHmm (JS.js "9:30") = false
    /\ JS.js "9:30" <> defaultTime.
Proof.
  eexists. split; [vm_compute; reflexivity |].
  split; [reflexivity |]. split; [reflexivity |].
  vm_compute. discriminate.
Qed.

(** *** Drafts the repair pass leaves alone *)

Lemma repairTitle_kept (t : JS.jsstring) :
  JS.trim t = t -> (1 <= JS.length t <= 200)%Z ->
  repairTitle (Some t) = t.
Proof.
  intros Htrim Hlen. unfold repairTitle, defaultTitle.
  destruct t as [| c s]; [unfold JS.length in Hlen; simpl in Hlen; lia |].
  rewrite Htrim.
  destruct (Z.eqb_spec (JS.length (c :: s)) 0); [lia |].
  unfold processTitle, titleMinLength, titleMaxLength. cbv zeta.
  rewrite Htrim.
  destruct (Z.ltb_spec (JS.length (c :: s)) 1); [lia |].
  destruct (Z.ltb_spec 200 (JS.length (c :: s))); [lia | reflexivity].
Qed.

Lemma repairDueDate_kept (engine : JSDate.Engine) (today d : JS.jsstring)
    (tv : Z) :
  JSDate.dateRegex_test d = true ->
  JSDate.parseMidnight engine d = Some tv ->
  (forall t0, JSDate.parseMidnight engine today = Some t0 ->
     (t0 <= tv)%Z) ->
  repairDueDate engine today (Some d) = d.
Proof.
  intros Hre Hp Hle. unfold repairDueDate.
  destruct d as [| c s]; [discriminate |]. cbv zeta.
  rewrite Hre, Hp. cbn [negb].
  destruct (JSDate.parseMidnight engine today) as [t0 |]; [| reflexivity].
  specialize (Hle t0 eq_refl).
  destruct (Z.ltb_spec tv t0); [lia | reflexivity].
Qed.

Lemma repairDescription_kept (dsc : option JS.jsstring) :
  (forall s, dsc = Some s -> JS.trim s = s /\ (JS.length s <= 1000)%Z) ->
  repairDescription dsc = dsc.
Proof.
  intros H. unfold repairDescription.
  destruct dsc as [[| c s] |]; try reflexivity.
  destruct (H (c :: s) eq_refl) as [Htrim Hlen]. cbv zeta.
  rewrite Htrim.
  destruct (Z.ltb_spec 1000 (JS.length (c :: s))); [lia | reflexivity].
Qed.

(** C4.  A draft that is already valid -- a trimmed title of 1 to 200
    code units, a due date of the form [YYYY-MM-DD] that parses to a day
    not before the reference day, a due time of the form [HH:mm], a
    priority, a category list, and no description or a trimmed one of at
    most 1000 code units -- comes out of the repair pass as it went in. *)
Theorem valid_draft_unchanged (engine : JSDate.Engine)
    (today t d tm : JS.jsstring) (dsc : option JS.jsstring) (p : Priority)
    (c : list JS.jsstring) (tv : Z) :
  JS.trim t = t ->
  (1 <= JS.length t <= 200)%Z ->
  (forall s, dsc = Some s -> JS.trim s = s /\ (JS.length s <= 1000)%Z) ->
  JSDate.dateRegex_test d = true ->
  JSDate.parseMidnight engine d = Some tv ->
  (forall t0, JSDate.parseMidnight engine today = Some t0 ->
     (t0 <= tv)%Z) ->
  JSDate.isHHmm tm = true ->
  repair engine today
    (mkTodo (Some t) dsc (Some d) (Some tm) (Some p) (Some c))
  = mkTodo (Some t) dsc (Some d) (Some tm) (Some p) (Some c).
Proof.
  intros Htrim Hlen Hdsc Hre Hp Hle Htm.
  unfold repair. cbn [title description due_date due_time priority category].
  rewrite (repairTitle_kept t Htrim Hlen).
  rewrite (repairDescription_kept dsc Hdsc).
  rewrite (repairDueDate_kept engine today d tv Hre Hp Hle).
  rewrite (repairDueTime_kept tm (isHHmm_timeRegex tm Htm)).
  reflexivity.
Qed.

Lemma valid_draft_unchanged_witness :
  let engine := JSDate.CarryOver in
  let today := JS.js "2025-06-01" in
  let t := JS.js "팀 회의 준비" in
  let d := JS.js "2025-06-02" in
  let tm := JS.js "10:00" in
  let dsc := Some (JS.js "자료 작성하기") in
  let c := [JS.js "업무"] in
  (JS.trim t = t
   /\ (1 <= JS.length t <= 200)%Z
   /\ (forall s, dsc = Some s -> JS.trim s = s /\ (JS.length s <= 1000)%Z)
   /\ JSDate.dateRegex_test d = true
   /\ JSDate.parseMidnight engine d = Some 1748822400000%Z
   /\ (forall t0, JSDate.parseMidnight engine today = Some t0 ->
         (t0 <= 1748822400000)%Z)
   /\ JSDate.isHHmm tm = true)
  /\ repair engine today (mkTodo (Some t) dsc (Some d) (Some tm) (Some medium)
                     (Some c))
     = mkTodo (Some t) dsc (Some d) (Some tm) (Some medium) (Some c).
Proof.
  intros engine today t d tm dsc c.
  assert (H1 : JS.trim t = t) by (vm_compute; reflexivity).
  assert (H2 : (1 <= JS.length t <= 200)%Z) by (vm_compute; split; discriminate).
  assert (H3 : forall s, dsc = Some s ->
                 JS.trim s = s /\ (JS.length s <= 1000)%Z).
  { intros s E. injection E as <-. vm_compute. split; [reflexivity | discriminate]. }
  assert (H4 : JSDate.dateRegex_test d = true) by (vm_compute; reflexivity).
  assert (H5 : JSDate.parseMidnight engine d = Some 1748822400000%Z)
    by (vm_compute; reflexivity).
  assert (H6 : forall t0, JSDate.parseMidnight engine today = Some t0 ->
                 (t0 <= 1748822400000)%Z).
  { intros t0 E. vm_compute in E. injection E as <-. discriminate. }
  assert (H7 : JSDate.isHHmm tm = true) by (vm_compute; reflexivity).
  split;
    [exact (conj H1 (conj H2 (conj H3 (conj H4 (conj H5 (conj H6 H7)))))) |].
  exact (valid_draft_unchanged engine today t d tm dsc medium c
           1748822400000 H1 H2 H3 H4 H5 H6 H7).
Defined.

(** *** The repair pass applied twice *)

Lemma defaultTitle_kept (r : JS.jsstring) :
  JS.trim r = r -> (1 <= JS.length r)%Z -> defaultTitle (Some r) = r.
Proof.
  intros Htrim Hlen. unfold defaultTitle.
  destruct r as [| c s]; [unfold JS.length in Hlen; simpl in Hlen; lia |].
  rewrite Htrim.
  destruct (Z.eqb_spec (JS.length (c :: s)) 0); [lia | reflexivity].
Qed.

Lemma truncated_length (n : nat) (u : JS.jsstring) :
  (Z.of_nat n < JS.length u)%Z ->
  JS.length (JS.substring0 n u ++ ellipsis) = (Z.of_nat n + 3)%Z.
Proof.
  unfold JS.length, JS.substring0. intros H.
  rewrite length_app, firstn_length_le by lia.
  change (List.length ellipsis) with 3%nat. lia.
Qed.

Lemma repairTitle_idem (t : option JS.jsstring) :
  repairTitle (Some (repairTitle t)) = repairTitle t.
Proof.
  unfold repairTitle at 2 3.
  generalize (defaultTitle t). intros x.
  unfold processTitle, titleMinLength, titleMaxLength. cbv zeta.
  pose proof (trim_trimmed x) as Htr. set (u := JS.trim x) in *.
  destruct (Z.ltb_spec (JS.length u) 1) as [H1 | H1];
    [vm_compute; reflexivity |].
  destruct (Z.ltb_spec 200 (JS.length u)) as [H2 | H2].
  - assert (Hu : u <> []).
    { intros E. rewrite E in H1. unfold JS.length in H1. simpl in H1. lia. }
    pose proof (trimmed_truncated 200 u Htr ltac:(lia) Hu) as Htr'.
    fold ellipsis in Htr'.
    pose proof (truncated_length 200 u H2) as Hlen.
    set (r := JS.substring0 200 u ++ ellipsis) in *.
    unfold repairTitle.
    rewrite (defaultTitle_kept r (trimmed_trim r Htr') ltac:(lia)).
    unfold processTitle, titleMinLength, titleMaxLength. cbv zeta.
    rewrite (trimmed_trim r Htr').
    destruct (Z.ltb_spec (JS.length r) 1); [lia |].
    destruct (Z.ltb_spec 200 (JS.length r)); [| lia].
    unfold r. rewrite truncate_again; [reflexivity |].
    unfold JS.length in H2. lia.
  - apply repairTitle_kept; [now apply trimmed_trim | lia].
Qed.

Lemma repairDescription_idem (d : option JS.jsstring) :
  repairDescription (repairDescription d) = repairDescription d.
Proof.
  unfold repairDescription at 2 3.
  destruct d as [[| c s] |]; try reflexivity. cbv zeta.
  pose proof (trim_trimmed (c :: s)) as Htr.
  set (u := JS.trim (c :: s)) in *.
  destruct (Z.ltb_spec 1000 (JS.length u)) as [H | H].
  - assert (Hu : u <> []).
    { intros E. rewrite E in H. unfold JS.length in H. simpl in H. lia. }
    pose proof (trimmed_truncated 1000 u Htr ltac:(lia) Hu) as Htr'.
    fold ellipsis in Htr'.
    pose proof (truncated_length 1000 u H) as Hlen.
    set (r := JS.substring0 1000 u ++ ellipsis) in *.
    unfold repairDescription.
    destruct r as [| c' s'] eqn:Er;
      [unfold JS.length in Hlen; simpl in Hlen; lia |].
    rewrite <- Er in *. cbv zeta. rewrite (trimmed_trim r Htr').
    destruct (Z.ltb_spec 1000 (JS.length r)); [| lia].
    unfold r. rewrite truncate_again; [reflexivity |].
    unfold JS.length in H. lia.
  - apply repairDescription_kept.
    intros s' [= <-]. split; [now apply trimmed_trim | lia].
Qed.

Lemma repairDueDate_idem (engine : JSDate.Engine) (today : JS.jsstring)
    (d : option JS.jsstring) :
  JSDate.isCalendarDate today = true ->
  repairDueDate engine today (Some (repairDueDate engine today d))
  = repairDueDate engine today d.
Proof.
  intros H.
  destruct (repairDueDate_acceptable engine today d H)
    as (Hre & t0 & t & Hp0 & Hp & Hle).
  apply (repairDueDate_kept engine today _ t Hre Hp).
  intros t0' E. assert (t0' = t0) by congruence. lia.
Qed.

Lemma repairDueTime_idem (t : option JS.jsstring) :
  repairDueTime (Some (repairDueTime t)) = repairDueTime t.
Proof. apply repairDueTime_kept, repairDueTime_timeRegex. Qed.

(** Whatever the draft, a second run of the repair pass changes nothing:
    what the pass produces is a draft it leaves alone. *)
Lemma repair_idempotent (engine : JSDate.Engine) (today : JS.jsstring)
    (d : TodoData) :
  JSDate.isCalendarDate today = true ->
  repair engine today (repair engine today d) = repair engine today d.
Proof.
  intros H. unfold repair.
  cbn [title description due_date due_time priority category].
  rewrite repairTitle_idem, repairDescription_idem, repairDueTime_idem.
  rewrite (repairDueDate_idem engine today _ H).
  reflexivity.
Qed.

(** *** The category *)

(** A reply that validates always comes with a category list, so the
    default of the repair pass is out of reach of any reply. *)
Lemma todoSchema_category_present (o : RawTodo) (d : TodoData) :
  todoSchema_parse o = Some d -> exists l, category d = Some l.
Proof.
  unfold todoSchema_parse.
  destruct (z_string (raw_title o)); [| discriminate].
  destruct (z_string_optional (raw_description o)); [| discriminate].
  destruct (z_string (raw_due_date o)); [| discriminate].
  destruct (z_string_optional (raw_due_time o)); [| discriminate].
  destruct (z_enum_priority (raw_priority o)); [| discriminate].
  destruct (z_string_array_default_empty (raw_category o)) as [l |];
    [| discriminate].
  intros [= <-]. now exists l.
Qed.

Lemma omitted_category_parsed_empty (engine : JSDate.Engine) (o : RawTodo)
    (d : TodoData) (today : JS.jsstring) :
  raw_category o = JUndefined ->
  todoSchema_parse o = Some d ->
  category (repair engine today d) = Some [].
Proof.
  unfold todoSchema_parse. intros ->.
  destruct (z_string (raw_title o)); [| discriminate].
  destruct (z_string_optional (raw_description o)); [| discriminate].
  destruct (z_string (raw_due_date o)); [| discriminate].
  destruct (z_string_optional (raw_due_time o)); [| discriminate].
  destruct (z_enum_priority (raw_priority o)); [| discriminate].
  simpl. intros [= <-]. reflexivity.
Qed.

(** The default itself, on a draft without category. *)
Lemma repairCategory_default (engine : JSDate.Engine) (today : JS.jsstring)
    (d : TodoData) :
  category d = None ->
  category (repair engine today d) = Some defaultCategory.
Proof. intros H. simpl. now rewrite H. Qed.

(** C5, at the input where the code departs from it.  The model leaves
    the category out of an otherwise well-formed reply; the schema fills
    in its own default, the empty list, the repair pass sees a list and
    keeps it, and the answer carries no category at all instead of the
    one label "개인". *)
Theorem omitted_category_left_empty :
  let engine := JSDate.CarryOver in
  let env := mkEnv (Some (JS.js "k")) None in
  let today := JS.js "2025-06-01" in
  let reply :=
    ReplyObject
      (mkRaw (JString (JS.js "산책하기")) JUndefined
         (JString (JS.js "2025-06-02")) (JString (JS.js "10:00"))
         (JString (JS.js "medium")) JUndefined) in
  exists data,
    outcome (fun _ => reply)
      (POST engine env today (JString (JS.js "내일 오전 10시에 산책하기")))
    = inl (mkResponse 200 (Data data))
    /\ category data = Some []
    /\ category data <> Some defaultCategory.
Proof.
  eexists. split; [vm_compute; reflexivity |].
  split; [reflexivity | discriminate].
Qed.

(** A category that is not a list of strings does not reach the repair
    pass either: the reply fails validation and the answer is an error. *)
Lemma ill_typed_category_fails :
  let engine := JSDate.CarryOver in
  let env := mkEnv (Some (JS.js "k")) None in
  let today := JS.js "2025-06-01" in
  let reply :=
    ReplyObject
      (mkRaw (JString (JS.js "산책하기")) JUndefined
         (JString (JS.js "2025-06-02")) (JString (JS.js "10:00"))
         (JString (JS.js "medium")) (JString (JS.js "개인"))) in
  exists msg,
    outcome (fun _ => reply)
      (POST engine env today (JString (JS.js "내일 오전 10시에 산책하기")))
    = inl (mkResponse 500 (Failure (Some false) (Some msg) None)).
Proof. eexists. vm_compute. reflexivity. Qed.

End GenerateTodoFacts.

(* ================================================================= *)
(** ** The summarizer *)

Module AnalyzeTodosFacts.

Import AnalyzeTodos.

(** *** Basic statistics *)

Lemma filter_length_le {A} (f : A -> bool) (l : list A) :
  (List.length (filter f l) <= List.length l)%nat.
Proof.
  induction l as [| a l IH]; simpl; [lia |].
  destruct (f a); simpl; lia.
Qed.

Lemma filter_length_split {A} (f : A -> bool) (l : list A) :
  (List.length (filter f l) + List.length (filter (fun a => negb (f a)) l)
   = List.length l)%nat.
Proof.
  induction l as [| a l IH]; simpl; [reflexivity |].
  destruct (f a); simpl; lia.
Qed.

Lemma completedTasks_bounds (todos : list Todo) :
  (0 <= completedTasks todos <= totalTasks todos)%Z.
Proof.
  unfold completedTasks, totalTasks.
  pose proof (filter_length_le completed todos). lia.
Qed.

Lemma percentage_bounds (c n : Z) :
  (0 <= c <= n)%Z -> 0 <= percentage c n /\ percentage c n <= 100.
Proof.
  intros [Hc Hn]. unfold percentage.
  destruct (Z.ltb_spec 0 n) as [Hpos | Hle].
  - destruct n as [| p | p]; try lia.
    unfold Qle, Qdiv, Qmult, Qinv, inject_Z. simpl.
    split; nia.
  - split; [apply Qle_refl | discriminate].
Qed.

Lemma percentage_zero_total (c : Z) : percentage c 0 = 0.
Proof. reflexivity. Qed.

(** C6.  For every task list: completed and incomplete tasks add up to
    the total, the incomplete ones being those that are not completed;
    the completion rate lies between 0 and 100; and it is 0 when there is
    no task. *)
Theorem basic_statistics (todos : list Todo) :
  (completedTasks todos + incompleteTasks todos = totalTasks todos)%Z
  /\ incompleteTasks todos
     = Z.of_nat (List.length (filter (fun t => negb (completed t)) todos))
  /\ 0 <= completionRate todos
  /\ completionRate todos <= 100
  /\ (totalTasks todos = 0%Z -> completionRate todos = 0).
Proof.
  split; [unfold incompleteTasks; lia |].
  split.
  { unfold incompleteTasks, totalTasks, completedTasks.
    pose proof (filter_length_split completed todos). lia. }
  pose proof (percentage_bounds (completedTasks todos) (totalTasks todos)
                (completedTasks_bounds todos)) as [Hlo Hhi].
  split; [exact Hlo |]. split; [exact Hhi |].
  intros H. unfold completionRate. rewrite H. reflexivity.
Qed.

Lemma basic_statistics_witness :
  totalTasks [] = 0%Z /\ completionRate [] = 0.
Proof.
  split; [reflexivity |].
  exact (proj2 (proj2 (proj2 (proj2 (basic_statistics [])))) eq_refl).
Defined.

(** *** The most productive time slot *)

Lemma positive_true (q : Q) : positive q = true <-> 0 < q.
Proof.
  unfold positive. rewrite negb_true_iff.
  split; intros H.
  - apply Qnot_le_lt. intros Hle. apply Qle_bool_iff in Hle. congruence.
  - destruct (Qle_bool q 0) eqn:E; [| reflexivity].
    apply Qle_bool_iff in E. apply Qle_not_lt in E. contradiction.
Qed.

Lemma positive_false (q : Q) : positive q = false <-> q <= 0.
Proof.
  unfold positive. rewrite negb_false_iff. apply Qle_bool_iff.
Qed.

(** The selection, spelled out: of the three rates the greatest wins, and
    among equal ones the slot that comes first. *)
Lemma mostProductive_first_max (c : TimeSlotCount) :
  exists s,
    mostProductiveTimeSlot c = Some (s, rateOf c s)
    /\ (forall s', rateOf c s' <= rateOf c s)
    /\ (forall s', rateOf c s' == rateOf c s ->
          (slotIndex s <= slotIndex s')%nat).
Proof.
  unfold mostProductiveTimeSlot, entries.
  cbn [map slotRate sort insertSorted snd].
  change (percentage (Count.completed (at_morning c))
            (Count.total (at_morning c))) with (rateOf c morning).
  change (percentage (Count.completed (at_afternoon c))
            (Count.total (at_afternoon c))) with (rateOf c afternoon).
  change (percentage (Count.completed (at_evening c))
            (Count.total (at_evening c))) with (rateOf c evening).
  set (r1 := rateOf c morning). set (r2 := rateOf c afternoon).
  set (r3 := rateOf c evening).
  destruct (positive (r3 - r2)) eqn:E23;
    cbn [insertSorted snd];
    [ apply positive_true in E23 | apply positive_false in E23 ].
  - destruct (positive (r3 - r1)) eqn:E13;
      [ apply positive_true in E13 | apply positive_false in E13 ].
    + exists evening. cbn [hd_error]. fold r3. split; [reflexivity |].
      split; intros [| |]; fold r1 r2 r3; cbn [slotIndex]; intros; try lia; lra.
    + exists morning. cbn [hd_error]. fold r1. split; [reflexivity |].
      split; intros [| |]; fold r1 r2 r3; cbn [slotIndex]; intros; try lia; lra.
  - destruct (positive (r2 - r1)) eqn:E12;
      [ apply positive_true in E12 | apply positive_false in E12 ].
    + exists afternoon. cbn [hd_error]. fold r2. split; [reflexivity |].
      split; intros [| |]; fold r1 r2 r3; cbn [slotIndex]; intros; try lia; lra.
    + exists morning. cbn [hd_error]. fold r1. split; [reflexivity |].
      split; intros [| |]; fold r1 r2 r3; cbn [slotIndex]; intros; try lia; lra.
Qed.

(** C7.  For every task list the selection is a function of the three
    slot counters: it returns the slot of the greatest completion rate,
    and when several slots share that rate, the one that comes first in
    the order morning, afternoon, evening. *)
Theorem most_productive_slot_is_first_best
    (getHours : JS.jsstring -> option Z) (todos : list Todo) :
  let c := timeSlotCount getHours todos in
  exists s,
    mostProductiveTimeSlot c = Some (s, rateOf c s)
    /\ (forall s', rateOf c s' <= rateOf c s)
    /\ (forall s', rateOf c s' == rateOf c s ->
          (slotIndex s <= slotIndex s')%nat).
Proof. intros c. apply mostProductive_first_max. Qed.

(** When all three rates are equal (as they are for a list without due
    dates, or without completed tasks), the morning is selected. *)
Lemma all_equal_selects_morning (c : TimeSlotCount) :
  rateOf c afternoon == rateOf c morning ->
  rateOf c evening == rateOf c morning ->
  mostProductiveTimeSlot c = Some (morning, rateOf c morning).
Proof.
  intros H2 H3.
  destruct (mostProductive_first_max c) as (s & E & _ & Hfirst).
  assert (Hm : rateOf c morning == rateOf c s).
  { destruct s; [reflexivity | symmetry; exact H2 | symmetry; exact H3]. }
  specialize (Hfirst morning Hm).
  destruct s; cbn [slotIndex] in Hfirst; try lia. exact E.
Qed.

(** *** Statistics by time slot *)

Section Slots.

Variable getHours : JS.jsstring -> option Z.

Local Abbreviation countTodo := (countTodo getHours).
Local Abbreviation inSlot := (inSlot getHours).
Local Abbreviation slotOf := (slotOf getHours).
Local Abbreviation timeSlotCount := (timeSlotCount getHours).

Lemma countTodo_total (acc : TimeSlotCount) (a : Todo) (s : Slot) :
  Count.total (slotCount (countTodo acc a) s)
  = (Count.total (slotCount acc s) + one_if (inSlot s a))%Z.
Proof.
  unfold AnalyzeTodos.countTodo, AnalyzeTodos.inSlot, hasDue,
    AnalyzeTodos.slotOf.
  destruct (due_date a) as [[| u d] |]; cbn [truthyStr andb one_if];
    try lia.
  destruct (slotOfHour (getHours (u :: d))), (completed a), s;
    cbn; lia.
Qed.

Lemma countTodo_completed (acc : TimeSlotCount) (a : Todo) (s : Slot) :
  Count.completed (slotCount (countTodo acc a) s)
  = (Count.completed (slotCount acc s)
     + one_if (inSlot s a && completed a))%Z.
Proof.
  unfold AnalyzeTodos.countTodo, AnalyzeTodos.inSlot, hasDue,
    AnalyzeTodos.slotOf.
  destruct (due_date a) as [[| u d] |]; cbn [truthyStr andb one_if];
    try lia.
  destruct (slotOfHour (getHours (u :: d))), (completed a), s;
    cbn; lia.
Qed.

Lemma fold_total (todos : list Todo) (acc : TimeSlotCount) (s : Slot) :
  Count.total (slotCount (fold_left countTodo todos acc) s)
  = (Count.total (slotCount acc s)
     + Z.of_nat (List.length (filter (inSlot s) todos)))%Z.
Proof.
  revert acc. induction todos as [| a todos IH]; intros acc; simpl.
  - lia.
  - rewrite IH, countTodo_total.
    destruct (inSlot s a); cbn [one_if List.length]; lia.
Qed.

Lemma fold_completed (todos : list Todo) (acc : TimeSlotCount) (s : Slot) :
  Count.completed (slotCount (fold_left countTodo todos acc) s)
  = (Count.completed (slotCount acc s)
     + Z.of_nat
         (List.length (filter (fun t => inSlot s t && completed t) todos)))%Z.
Proof.
  revert acc. induction todos as [| a todos IH]; intros acc; simpl.
  - lia.
  - rewrite IH, countTodo_completed.
    destruct (inSlot s a && completed a); cbn [one_if List.length]; lia.
Qed.

Lemma slot_total_counts (todos : list Todo) (s : Slot) :
  Count.total (slotCount (timeSlotCount todos) s)
  = Z.of_nat (List.length (filter (inSlot s) todos)).
Proof.
  unfold AnalyzeTodos.timeSlotCount. rewrite fold_total.
  destruct s; reflexivity.
Qed.

Lemma slot_completed_counts (todos : list Todo) (s : Slot) :
  Count.completed (slotCount (timeSlotCount todos) s)
  = Z.of_nat
      (List.length (filter (fun t => inSlot s t && completed t) todos)).
Proof.
  unfold AnalyzeTodos.timeSlotCount. rewrite fold_completed.
  destruct s; reflexivity.
Qed.

(** A task with a due timestamp is in its slot and in no other; a task
    without one is in none. *)
Lemma inSlot_own (todo : Todo) :
  hasDue todo = true -> inSlot (slotOf todo) todo = true.
Proof.
  intros H. unfold AnalyzeTodos.inSlot. rewrite H.
  now destruct (slotOf todo).
Qed.

Lemma inSlot_unique (todo : Todo) (s : Slot) :
  inSlot s todo = true -> s = slotOf todo.
Proof.
  unfold AnalyzeTodos.inSlot. intros H. apply andb_prop in H as [_ H].
  destruct (slotOf todo), s; simpl in H; congruence.
Qed.

Lemma inSlot_no_due (todo : Todo) (s : Slot) :
  hasDue todo = false -> inSlot s todo = false.
Proof. intros H. unfold AnalyzeTodos.inSlot. now rewrite H. Qed.

Lemma slots_partition_due (todos : list Todo) :
  (List.length (filter (inSlot morning) todos)
   + List.length (filter (inSlot afternoon) todos)
   + List.length (filter (inSlot evening) todos)
   = List.length (filter hasDue todos))%nat.
Proof.
  induction todos as [| a todos IH]; simpl; [reflexivity |].
  destruct (hasDue a) eqn:E.
  - destruct (inSlot morning a) eqn:E1, (inSlot afternoon a) eqn:E2,
             (inSlot evening a) eqn:E3;
      repeat match goal with
             | H : inSlot _ a = true |- _ => apply inSlot_unique in H
             end;
      try congruence; simpl; try lia.
    pose proof (inSlot_own a E) as Hown.
    destruct (slotOf a); congruence.
  - rewrite !(inSlot_no_due a _ E). exact IH.
Qed.

(** The slot follows the due hour. *)
Lemma slotOfHour_by_hour (h : Z) :
  ((h < 12)%Z -> slotOfHour (Some h) = morning)
  /\ ((12 <= h < 18)%Z -> slotOfHour (Some h) = afternoon)
  /\ ((18 <= h)%Z -> slotOfHour (Some h) = evening).
Proof.
  unfold slotOfHour.
  destruct (Z.ltb_spec h 12), (Z.ltb_spec h 18);
    repeat split; intros; try reflexivity; lia.
Qed.

Lemma no_due_not_counted (todos : list Todo) :
  timeSlotCount (filter (fun t => negb (hasDue t)) todos)
  = mkSlots Count.zero Count.zero Count.zero.
Proof.
  unfold AnalyzeTodos.timeSlotCount.
  generalize (mkSlots Count.zero Count.zero Count.zero).
  induction todos as [| a todos IH]; intros acc; simpl; [reflexivity |].
  destruct (hasDue a) eqn:E; cbn [negb]; [apply IH |].
  simpl. rewrite <- (IH acc) at 2. f_equal.
  unfold AnalyzeTodos.countTodo. unfold hasDue in E.
  destruct (due_date a) as [[| u d] |]; try reflexivity. discriminate.
Qed.

End Slots.

(** C10.  For every task list, each slot counts the tasks with a due
    timestamp whose due hour falls in it -- before 12 the morning, from 12
    to before 18 the afternoon, the evening otherwise; such a task is in
    exactly one slot and a task without due timestamp in none, so the
    three totals add up to the number of tasks with a due timestamp, which
    is at most, and can be less than, the number of tasks. *)
Theorem time_slots_count_due_tasks :
  (forall (getHours : JS.jsstring -> option Z) (todos : list Todo),
     let c := timeSlotCount getHours todos in
     (forall s,
        Count.total (slotCount c s)
        = Z.of_nat (List.length (filter (inSlot getHours s) todos)))
     /\ (Count.total (at_morning c) + Count.total (at_afternoon c)
         + Count.total (at_evening c)
         = Z.of_nat (List.length (filter hasDue todos)))%Z
     /\ (Z.of_nat (List.length (filter hasDue todos)) <= totalTasks todos)%Z
     /\ (forall todo, hasDue todo = true ->
           inSlot getHours (slotOf getHours todo) todo = true
           /\ forall s, inSlot getHours s todo = true ->
                        s = slotOf getHours todo)
     /\ (forall todo d h, due_date todo = Some d -> getHours d = Some h ->
           ((h < 12)%Z -> slotOf getHours todo = morning)
           /\ ((12 <= h < 18)%Z -> slotOf getHours todo = afternoon)
           /\ ((18 <= h)%Z -> slotOf getHours todo = evening))
     /\ (forall todo s, hasDue todo = false ->
           inSlot getHours s todo = false)
     /\ timeSlotCount getHours (filter (fun t => negb (hasDue t)) todos)
        = mkSlots Count.zero Count.zero Count.zero)
  /\ (exists getHours todos,
        let c := timeSlotCount getHours todos in
        (Count.total (at_morning c) + Count.total (at_afternoon c)
         + Count.total (at_evening c) < totalTasks todos)%Z).
Proof.
  split.
  - intros getHours todos c.
    split; [intros s; apply slot_total_counts |].
    split.
    { pose proof (slot_total_counts getHours todos morning) as H1.
      pose proof (slot_total_counts getHours todos afternoon) as H2.
      pose proof (slot_total_counts getHours todos evening) as H3.
      cbn [slotCount] in H1, H2, H3. fold c in H1, H2, H3.
      rewrite H1, H2, H3.
      pose proof (slots_partition_due getHours todos). lia. }
    split.
    { unfold totalTasks. pose proof (filter_length_le hasDue todos). lia. }
    split.
    { intros todo H. split; [now apply inSlot_own |].
      intros s. apply inSlot_unique. }
    split.
    { intros todo d h Hd Hh. unfold slotOf. rewrite Hd, Hh.
      apply slotOfHour_by_hour. }
    split; [intros todo s; apply inSlot_no_due |].
    apply no_due_not_counted.
  - exists (fun _ => None), [mkTodo [] (JS.js "a") None None medium [] false].
    vm_compute. reflexivity.
Qed.

(** The counters do not depend on the order of the tasks. *)
Lemma timeSlotCount_perm (getHours : JS.jsstring -> option Z)
    (l l' : list Todo) :
  Permutation l l' -> timeSlotCount getHours l = timeSlotCount getHours l'.
Proof.
  intros HP.
  assert (Hlen : forall f : Todo -> bool,
            List.length (filter f l) = List.length (filter f l')).
  { intros f. apply Permutation_length.
    clear -HP. induction HP; simpl.
    - constructor.
    - destruct (f x); [now constructor | assumption].
    - destruct (f x), (f y); try apply Permutation_refl.
      + apply perm_swap.
    - eapply Permutation_trans; eassumption. }
  pose proof (fun s => slot_total_counts getHours l s) as T.
  pose proof (fun s => slot_total_counts getHours l' s) as T'.
  pose proof (fun s => slot_completed_counts getHours l s) as C.
  pose proof (fun s => slot_completed_counts getHours l' s) as C'.
  destruct (timeSlotCount getHours l) as [[t1 c1] [t2 c2] [t3 c3]].
  destruct (timeSlotCount getHours l') as [[t1' c1'] [t2' c2'] [t3' c3']].
  pose proof (T morning) as A1. pose proof (T afternoon) as A2.
  pose proof (T evening) as A3. pose proof (T' morning) as B1.
  pose proof (T' afternoon) as B2. pose proof (T' evening) as B3.
  pose proof (C morning) as D1. pose proof (C afternoon) as D2.
  pose proof (C evening) as D3. pose proof (C' morning) as F1.
  pose proof (C' afternoon) as F2. pose proof (C' evening) as F3.
  cbn in A1, A2, A3, B1, B2, B3, D1, D2, D3, F1, F2, F3.
  rewrite Hlen in A1, A2, A3, D1, D2, D3.
  congruence.
Qed.

(** *** Request validation *)

Lemma unknown_period_refused (period : JSValue Opaque) :
  period <> JString (JS.js "today") ->
  period <> JString (JS.js "week") ->
  negb (truthy period) || periodUnknown period = true.
Proof.
  intros H1 H2.
  destruct period as [ | | b | q | s | l | ];
    try (apply orb_true_r).
  apply orb_true_iff. right. unfold periodUnknown.
  destruct (JS.str_eqb s (JS.js "today")) eqn:E1.
  { apply str_eqb_eq in E1. congruence. }
  destruct (JS.str_eqb s (JS.js "week")) eqn:E2.
  { apply str_eqb_eq in E2. congruence. }
  reflexivity.
Qed.

(** C8.  A request whose task list is absent or not a list, or whose
    period is anything but "today" or "week", is answered with status 400
    and [success: false]; the handler is a bare answer, so whatever the
    completion service is, it receives no call. *)
Theorem bad_request_rejected (getHours : JS.jsstring -> option Z)
    (env : Env) (todos : JSValue Todo) (period : JSValue Opaque) :
  isArray todos = false
  \/ (period <> JString (JS.js "today")
      /\ period <> JString (JS.js "week")) ->
  (exists msg,
     POST getHours env todos period
     = Ret (mkResponse 400 (Failure (Some false) (Some msg) None)))
  /\ (forall service, calls service (POST getHours env todos period) = []).
Proof.
  intros H.
  assert (E : exists msg,
     POST getHours env todos period
     = Ret (mkResponse 400 (Failure (Some false) (Some msg) None))).
  { unfold POST. destruct (isArray todos) eqn:Ha.
    - destruct H as [H | [H1 H2]]; [discriminate |].
      destruct todos; try discriminate. cbn [truthy negb orb].
      rewrite (unknown_period_refused period H1 H2).
      eexists. reflexivity.
    - cbn [negb]. rewrite orb_true_r. eexists. reflexivity. }
  destruct E as [msg E]. split.
  - now exists msg.
  - intros service. rewrite E. reflexivity.
Qed.

Lemma bad_request_rejected_witness :
  let env := mkEnv (Some (JS.js "k")) None in
  let todos : JSValue Todo := JArray [] in
  let period : JSValue Opaque := JString (JS.js "tomorrow") in
  (isArray todos = false
   \/ (period <> JString (JS.js "today")
       /\ period <> JString (JS.js "week")))
  /\ ((exists msg,
         POST (fun _ => None) env todos period
         = Ret (mkResponse 400 (Failure (Some false) (Some msg) None)))
      /\ (forall service,
            calls service (POST (fun _ => None) env todos period) = [])).
Proof.
  intros env todos period.
  assert (H : isArray todos = false
              \/ (period <> JString (JS.js "today")
                  /\ period <> JString (JS.js "week"))).
  { right. split; intros E; vm_compute in E; discriminate. }
  split; [exact H |].
  exact (bad_request_rejected (fun _ => None) env todos period H).
Defined.

(** *** The empty task list *)

(** The route does not stop at an empty list: given the empty list and
    the period "today", the handler passes both checks, calls the
    completion service and answers with what the service returned. *)
Lemma empty_list_reaches_service :
  let env := mkEnv (Some (JS.js "k")) None in
  let a := mkAnalysis (JS.js "할 일이 없습니다.") [] [] [] in
  let service := fun _ : GenRequest => ReplyObject a in
  let h := POST (fun _ => None) env (JArray []) (JString (JS.js "today")) in
  calls service h <> []
  /\ outcome service h = inl (mkResponse 200 (Data a)).
Proof.
  split; [vm_compute; discriminate | vm_compute; reflexivity].
Qed.

(** C9, amended.  The caller is where the empty list stops: when no task
    of the list falls in the period, [handleAnalyzeTodos] reports that
    there is nothing to analyze and sends no request, so the completion
    service receives no call. *)
Theorem nothing_to_analyze (getHours getTime : JS.jsstring -> option Z)
    (env : Env) (clock : Clock) (period : Period) (todos : list Todo) :
  filterForPeriod getTime clock period todos = [] ->
  handleAnalyzeTodos getHours getTime env clock period todos
  = Ret (failed nothingToAnalyze)
  /\ (forall service,
        calls service
          (handleAnalyzeTodos getHours getTime env clock period todos) = []).
Proof.
  intros H.
  assert (E : handleAnalyzeTodos getHours getTime env clock period todos
              = Ret (failed nothingToAnalyze)).
  { unfold handleAnalyzeTodos. rewrite H. reflexivity. }
  split; [exact E |]. intros service. rewrite E. reflexivity.
Qed.

Lemma nothing_to_analyze_witness :
  let env := mkEnv (Some (JS.js "k")) None in
  let clock := mkClock 0 86400000 0 604800000 in
  let none := fun _ : JS.jsstring => @None Z in
  let todos := [mkTodo (JS.js "1") (JS.js "산책하기") None None low [] false] in
  filterForPeriod none clock today todos = []
  /\ (handleAnalyzeTodos none none env clock today todos
      = Ret (failed nothingToAnalyze)
      /\ (forall service,
            calls service (handleAnalyzeTodos none none env clock today todos)
            = [])).
Proof.
  intros env clock none todos.
  split; [reflexivity |].
  exact (nothing_to_analyze none none env clock today todos eq_refl).
Defined.

End AnalyzeTodosFacts.

(* ================================================================= *)
(** ** The preprocessing of the input *)

Module PreprocessFacts.

Import GenerateTodo.

Lemma collapseRuns_single (b : bool) (s : JS.jsstring) :
  JS.singleSpaced b (JS.collapseRuns b s) = true.
Proof.
  revert b. induction s as [| c s IH]; intros b; simpl; [reflexivity |].
  destruct (JS.isWhiteSpace c) eqn:E.
  - destruct b; [apply IH |].
    simpl. apply IH.
  - simpl. rewrite E. apply IH.
Qed.

Lemma collapseRuns_fixed (b : bool) (s : JS.jsstring) :
  JS.singleSpaced b s = true -> JS.collapseRuns b s = s.
Proof.
  revert b. induction s as [| c s IH]; intros b; simpl; [reflexivity |].
  destruct (JS.isWhiteSpace c) eqn:E; intros H.
  - apply andb_prop in H as [H Hs]. apply andb_prop in H as [Hc Hb].
    apply N.eqb_eq in Hc. destruct b; [discriminate |].
    rewrite (IH true Hs). now rewrite Hc.
  - now rewrite (IH false H).
Qed.

Lemma collapseRuns_ink (b : bool) (s : JS.jsstring) :
  JS.inkOf (JS.collapseRuns b s) = JS.inkOf s.
Proof.
  unfold JS.inkOf.
  revert b. induction s as [| c s IH]; intros b; simpl; [reflexivity |].
  destruct (JS.isWhiteSpace c) eqn:E; simpl.
  - destruct b; simpl; apply IH.
  - rewrite E. simpl. now rewrite IH.
Qed.

Lemma collapseRuns_length (b : bool) (s : JS.jsstring) :
  (List.length (JS.collapseRuns b s) <= List.length s)%nat.
Proof.
  revert b. induction s as [| c s IH]; intros b; simpl; [lia |].
  destruct (JS.isWhiteSpace c).
  - destruct b; simpl.
    + specialize (IH true). lia.
    + specialize (IH true). lia.
  - simpl. specialize (IH false). lia.
Qed.

Lemma collapseRuns_snoc (b : bool) (x : JS.jsstring) (c : JS.unit16) :
  JS.isWhiteSpace c = false ->
  JS.collapseRuns b (x ++ [c]) = JS.collapseRuns b x ++ [c].
Proof.
  intros Hc. revert b. induction x as [| a x IH]; intros b; simpl.
  - now rewrite Hc.
  - destruct (JS.isWhiteSpace a).
    + destruct b; simpl; now rewrite IH.
    + simpl. now rewrite IH.
Qed.

Lemma trimStart_ink (s : JS.jsstring) :
  JS.inkOf (JS.trimStart s) = JS.inkOf s.
Proof.
  unfold JS.inkOf.
  induction s as [| c s IH]; simpl; [reflexivity |].
  destruct (JS.isWhiteSpace c) eqn:E; simpl; [exact IH |].
  now rewrite E.
Qed.

Lemma inkOf_rev (s : JS.jsstring) : JS.inkOf (rev s) = rev (JS.inkOf s).
Proof.
  unfold JS.inkOf.
  induction s as [| c s IH]; simpl; [reflexivity |].
  rewrite filter_app, IH. simpl.
  destruct (JS.isWhiteSpace c); simpl; [apply app_nil_r | reflexivity].
Qed.

Lemma trim_ink (s : JS.jsstring) : JS.inkOf (JS.trim s) = JS.inkOf s.
Proof.
  unfold JS.trim, JS.trimEnd.
  rewrite inkOf_rev, trimStart_ink, inkOf_rev, rev_involutive.
  apply trimStart_ink.
Qed.

Lemma trim_length (s : JS.jsstring) :
  (List.length (JS.trim s) <= List.length s)%nat.
Proof.
  unfold JS.trim, JS.trimEnd. rewrite length_rev.
  pose proof (trimStart_length (rev (JS.trimStart s))) as H1.
  rewrite length_rev in H1.
  pose proof (trimStart_length s). lia.
Qed.

(** A trimmed string that is not empty begins and ends with a unit that
    is not white space. *)
Lemma trimmed_ends (u : JS.jsstring) :
  JS.Trimmed u -> u <> [] ->
  (exists c r, u = c :: r /\ JS.isWhiteSpace c = false)
  /\ (exists x d, u = x ++ [d] /\ JS.isWhiteSpace d = false).
Proof.
  intros [H1 H2] Hu. split.
  - destruct u as [| c r]; [contradiction |].
    exists c, r. split; [reflexivity |].
    exact (proj1 (trimStart_fixed_head c r) H1).
  - destruct (rev u) as [| d y] eqn:E.
    + apply (f_equal (@rev _)) in E. rewrite rev_involutive in E.
      contradiction.
    + exists (rev y), d. split.
      * apply (f_equal (@rev _)) in E. rewrite rev_involutive in E.
        exact E.
      * exact (proj1 (trimStart_fixed_head d y) H2).
Qed.

Lemma collapse_trimmed (u : JS.jsstring) :
  JS.Trimmed u -> JS.Trimmed (JS.collapseSpaces u).
Proof.
  intros Hu. unfold JS.collapseSpaces.
  destruct u as [| c0 r0] eqn:Eu; [exact Hu |].
  rewrite <- Eu in *.
  assert (Hne : u <> []) by (rewrite Eu; discriminate).
  destruct (trimmed_ends u Hu Hne) as [(c & r & E1 & Hc) (x & d & E2 & Hd)].
  split.
  - rewrite E1. simpl. rewrite Hc.
    exact (proj2 (trimStart_fixed_head c _) Hc).
  - rewrite E2, collapseRuns_snoc by exact Hd.
    rewrite rev_app_distr. simpl. now rewrite Hd.
Qed.

(** X1.  The text [preprocessInput] returns has no white space at either
    end, and inside it every white-space unit is a plain space with no
    white space next to it. *)
Theorem preprocessInput_normal_form (input : JS.jsstring) :
  JS.Trimmed (preprocessInput input)
  /\ JS.singleSpaced false (preprocessInput input) = true.
Proof.
  unfold preprocessInput. cbv zeta. split.
  - apply collapse_trimmed, trim_trimmed.
  - apply collapseRuns_single.
Qed.

(** X2.  Preprocessing a preprocessed text changes nothing. *)
Theorem preprocessInput_idempotent (input : JS.jsstring) :
  preprocessInput (preprocessInput input) = preprocessInput input.
Proof.
  unfold preprocessInput at 1. cbv zeta.
  assert (HT : JS.Trimmed (preprocessInput input)).
  { unfold preprocessInput. cbv zeta.
    apply collapse_trimmed, trim_trimmed. }
  rewrite (trimmed_trim _ HT).
  apply collapseRuns_fixed.
  unfold preprocessInput. cbv zeta. apply collapseRuns_single.
Qed.

(** X3.  Preprocessing only touches white space: the units that are not
    white space come out as they went in, in the same order, and the text
    never grows. *)
Theorem preprocessInput_keeps_ink (input : JS.jsstring) :
  JS.inkOf (preprocessInput input) = JS.inkOf input
  /\ (JS.length (preprocessInput input) <= JS.length input)%Z.
Proof.
  unfold preprocessInput. cbv zeta. split.
  - unfold JS.collapseSpaces. rewrite collapseRuns_ink. apply trim_ink.
  - unfold JS.length, JS.collapseSpaces.
    pose proof (collapseRuns_length false (JS.trim input)).
    pose proof (trim_length input). lia.
Qed.

Lemma preprocessInput_length (s : JS.jsstring) :
  (2 <= JS.length (JS.trim s))%Z ->
  (2 <= JS.length (preprocessInput s) <= JS.length (JS.trim s))%Z.
Proof.
  intros H. unfold preprocessInput. cbv zeta.
  pose proof (trim_trimmed s) as HT. set (u := JS.trim s) in *.
  split.
  - assert (Hne : u <> []).
    { intros E. rewrite E in H. unfold JS.length in H. simpl in H. lia. }
    destruct (trimmed_ends u HT Hne) as [(c & r & E1 & Hc) _].
    assert (Hr : r <> []).
    { intros E. rewrite E1, E in H. unfold JS.length in H. simpl in H. lia. }
    assert (HTr : JS.trimStart (rev u) = rev u) by apply HT.
    destruct (rev r) as [| d y] eqn:Er.
    { apply (f_equal (@rev _)) in Er. rewrite rev_involutive in Er.
      contradiction. }
    assert (Er' : r = rev y ++ [d]).
    { apply (f_equal (@rev _)) in Er. rewrite rev_involutive in Er.
      exact Er. }
    assert (Hd : JS.isWhiteSpace d = false).
    { rewrite E1 in HTr. simpl rev in HTr. rewrite Er in HTr.
      simpl app in HTr.
      exact (proj1 (trimStart_fixed_head d _) HTr). }
    unfold JS.collapseSpaces. rewrite E1. simpl. rewrite Hc.
    rewrite Er', collapseRuns_snoc by exact Hd.
    unfold JS.length. simpl. rewrite length_app. simpl. lia.
  - unfold JS.length, JS.collapseSpaces.
    pose proof (collapseRuns_length false u). lia.
Qed.

(** X4.  The text of an accepted request that goes into the prompt has
    between 2 and 500 code units. *)
Theorem accepted_input_prompt_length (v : JSValue Opaque) :
  valid (validateInput v) = true ->
  exists s, v = JString s
            /\ (2 <= JS.length (preprocessInput s) <= 500)%Z.
Proof.
  intros H.
  destruct (GenerateTodoFacts.validateInput_accepts v H)
    as (s & -> & _ & Hlo & Hhi).
  exists s. split; [reflexivity |].
  pose proof (preprocessInput_length s Hlo). lia.
Qed.

Lemma accepted_input_prompt_length_witness :
  let v : JSValue Opaque := JString (JS.js "  buy    milk  ") in
  valid (validateInput v) = true
  /\ exists s, v = JString s
               /\ (2 <= JS.length (preprocessInput s) <= 500)%Z.
Proof.
  intros v.
  assert (H : valid (validateInput v) = true) by (vm_compute; reflexivity).
  split; [exact H | exact (accepted_input_prompt_length v H)].
Defined.

End PreprocessFacts.

(* ================================================================= *)
(** ** The normalizer, beyond the repair of dates and times *)

Module NormalizerFacts.

Import GenerateTodo.

(** The answer to a request the validation refuses. *)
Lemma POST_refused (engine : JSDate.Engine) (env : Env)
    (today : JS.jsstring) (v : JSValue Opaque) :
  valid (validateInput v) = false ->
  POST engine env today v
  = Ret (mkResponse (statusOr400 (vstatus (validateInput v)))
           (Failure (Some false) (error (validateInput v)) None)).
Proof. intros H. unfold POST. cbv zeta. rewrite H. reflexivity. Qed.

Lemma validateInput_refusal (v : JSValue Opaque) :
  valid (validateInput v) = false ->
  exists msg, validateInput v = mkValidation false (Some msg) (Some 400%Z).
Proof.
  destruct v as [ | | b | q | s | l | ]; try (intros _; eexists; reflexivity).
  unfold validateInput.
  destruct (negb (truthy (JString s))); [intros _; eexists; reflexivity |].
  cbv zeta.
  destruct (JS.length (JS.trim s) =? 0)%Z;
    [intros _; eexists; reflexivity |].
  destruct (JS.length (JS.trim s) <? 2)%Z;
    [intros _; eexists; reflexivity |].
  destruct (500 <? JS.length (JS.trim s))%Z;
    [intros _; eexists; reflexivity |].
  discriminate.
Qed.

(** The answer to an accepted request when no API key is configured. *)
Lemma POST_without_key (engine : JSDate.Engine) (env : Env)
    (today s : JS.jsstring) :
  valid (validateInput (JString s)) = true ->
  apiKeySet env = false ->
  POST engine env today (JString s)
  = Ret (mkResponse 500
           (Failure None (Some (JS.js "AI 서비스 설정 오류가 발생했습니다."))
              None)).
Proof.
  unfold apiKeySet. intros H Hk. unfold POST. cbv zeta.
  rewrite H. cbn [negb bind]. rewrite Hk. reflexivity.
Qed.

(** The answer to an accepted request once the key is there: one call,
    and what follows from the reply. *)
Lemma POST_with_key (engine : JSDate.Engine) (env : Env)
    (today s : JS.jsstring) service :
  valid (validateInput (JString s)) = true ->
  apiKeySet env = true ->
  run service (POST engine env today (JString s))
  = (inl match service (mkRequest today (preprocessInput s)) with
         | ReplyObject o =>
           match todoSchema_parse o with
           | Some d => mkResponse 200 (Data (repair engine today d))
           | None => onError env noObjectGenerated
           end
         | ReplyOther => onError env noObjectGenerated
         | ReplyNoJSON => onError env noObjectParsed
         | ReplyFailure e => onError env e
         end,
     [mkRequest today (preprocessInput s)]).
Proof.
  unfold apiKeySet. intros H Hk. unfold POST. cbv zeta.
  rewrite H. cbn [negb bind]. rewrite Hk. cbn [negb].
  unfold generateObject. cbn [bind tryCatch run].
  destruct (service (mkRequest today (preprocessInput s))) as [o | | | e];
    try reflexivity.
  destruct (todoSchema_parse o); reflexivity.
Qed.

(** What the catch block answers. *)
Lemma onError_shape (env : Env) (e : JSError) :
  exists st msg,
    onError env e
    = mkResponse st
        (Failure (Some false) (Some msg)
           (if isDevelopment env then message e else None))
    /\ (st = 400 \/ st = 429 \/ st = 500)%Z.
Proof.
  unfold onError.
  destruct (_ || _); [eexists _, _; split; [reflexivity | lia] |].
  destruct (_ || _); [eexists _, _; split; [reflexivity | lia] |].
  destruct (_ || _); [eexists _, _; split; [reflexivity | lia] |].
  destruct (_ || _); eexists _, _; split; try reflexivity; lia.
Qed.

(** X5.  The handler calls the completion service exactly when the input
    passes validation and an API key is configured, then once, with the
    reference date and the preprocessed input; otherwise not at all. *)
Theorem one_call_iff_accepted (engine : JSDate.Engine) (env : Env)
    (today : JS.jsstring) (v : JSValue Opaque) service :
  calls service (POST engine env today v)
  = match v with
    | JString s =>
      if valid (validateInput v) && apiKeySet env
      then [mkRequest today (preprocessInput s)]
      else []
    | _ => []
    end.
Proof.
  destruct v as [ | | b | q | s | l | ]; try reflexivity.
  destruct (valid (validateInput (JString s))) eqn:H.
  - destruct (apiKeySet env) eqn:Hk; cbn [andb].
    + unfold calls. now rewrite (POST_with_key engine env today s service H Hk).
    + now rewrite (POST_without_key engine env today s H Hk).
  - cbn [andb]. now rewrite (POST_refused engine env today _ H).
Qed.

(** The three ways a request ends. *)
Lemma POST_outcome_cases (engine : JSDate.Engine) (env : Env)
    (today : JS.jsstring) (v : JSValue Opaque) service :
  (exists msg,
     outcome service (POST engine env today v)
     = inl (mkResponse 400 (Failure (Some false) (Some msg) None)))
  \/ outcome service (POST engine env today v)
     = inl (mkResponse 500
              (Failure None (Some (JS.js "AI 서비스 설정 오류가 발생했습니다."))
                 None))
  \/ (exists d,
        outcome service (POST engine env today v)
        = inl (mkResponse 200 (Data (repair engine today d))))
  \/ (exists e, outcome service (POST engine env today v)
                = inl (onError env e)).
Proof.
  destruct (valid (validateInput v)) eqn:H.
  - destruct (GenerateTodoFacts.validateInput_accepts v H) as (s & -> & _).
    destruct (apiKeySet env) eqn:Hk.
    + right. right. unfold outcome.
      rewrite (POST_with_key engine env today s service H Hk). cbn [fst].
      destruct (service (mkRequest today (preprocessInput s))) as [o | | | e].
      * destruct (todoSchema_parse o) as [d |].
        -- left. now exists d.
        -- right. now exists noObjectGenerated.
      * right. now exists noObjectGenerated.
      * right. now exists noObjectParsed.
      * right. now exists e.
    + right. left. now rewrite (POST_without_key engine env today s H Hk).
  - left. rewrite (POST_refused engine env today v H).
    destruct (validateInput_refusal v H) as [msg ->].
    now exists msg.
Qed.

(** X6.  Every request is answered, and in one of two shapes: status 200
    with a repaired draft, or one of the statuses 400, 429 and 500 with
    an error message and never [success: true]. *)
Theorem every_request_answered (engine : JSDate.Engine) (env : Env)
    (today : JS.jsstring) (v : JSValue Opaque) service :
  exists r,
    outcome service (POST engine env today v) = inl r
    /\ ((status r = 200%Z
         /\ exists d, body r = Data (repair engine today d))
        \/ ((status r = 400 \/ status r = 429 \/ status r = 500)%Z
            /\ exists success msg details,
                 body r = Failure success (Some msg) details
                 /\ success <> Some true)).
Proof.
  destruct (POST_outcome_cases engine env today v service)
    as [[msg E] | [E | [[d E] | [e E]]]]; rewrite E; eexists;
    (split; [reflexivity |]).
  - right. cbn. split; [lia |]. eexists _, _, _. split; [reflexivity |].
    discriminate.
  - right. cbn. split; [lia |]. eexists _, _, _. split; [reflexivity |].
    discriminate.
  - left. cbn. split; [reflexivity |]. now exists d.
  - right. destruct (onError_shape env e) as (st & msg & -> & Hst).
    cbn. split; [exact Hst |]. eexists _, _, _. split; [reflexivity |].
    discriminate.
Qed.

(** X7.  Outside development mode no answer carries the [details] of an
    error. *)
Theorem no_details_outside_development (engine : JSDate.Engine) (env : Env)
    (today : JS.jsstring) (v : JSValue Opaque) service r success msg
    details :
  isDevelopment env = false ->
  outcome service (POST engine env today v) = inl r ->
  body r = Failure success msg details ->
  details = None.
Proof.
  intros Hdev.
  destruct (POST_outcome_cases engine env today v service)
    as [[m E] | [E | [[d E] | [e E]]]]; rewrite E; intros [= <-]; cbn.
  - now intros [= _ _ <-].
  - now intros [= _ _ <-].
  - discriminate.
  - destruct (onError_shape env e) as (st & m & -> & _).
    rewrite Hdev. cbn. now intros [= _ _ <-].
Qed.

Lemma no_details_outside_development_witness :
  let env := mkEnv (Some (JS.js "k")) (Some (JS.js "production")) in
  let today := JS.js "2025-06-01" in
  let v : JSValue Opaque := JString (JS.js "buy milk") in
  let e := mkError (Some (JS.js "fetch failed: secret.internal")) None in
  let service := fun _ : GenRequest => ReplyFailure e in
  let r :=
    mkResponse 500
      (Failure (Some false)
         (Some (JS.js "네트워크 오류가 발생했습니다. 인터넷 연결을 확인하고 다시 시도해주세요."))
         (@None JS.jsstring)) in
  (isDevelopment env = false
   /\ outcome service (POST JSDate.CarryOver env today v)
      = inl (r : Response TodoData))
  /\ @None JS.jsstring = None.
Proof.
  intros env today v e service r.
  assert (H1 : isDevelopment env = false) by (vm_compute; reflexivity).
  assert (H2 : outcome service (POST JSDate.CarryOver env today v)
               = inl (r : Response TodoData)) by (vm_compute; reflexivity).
  split; [exact (conj H1 H2) |].
  exact (no_details_outside_development JSDate.CarryOver env today v service
           r _ _ None H1 H2 eq_refl).
Defined.



(** What the catch block makes of the two errors of a reply. *)
Lemma onError_no_object (env : Env) (e : JSError) :
  e = noObjectGenerated \/ e = noObjectParsed ->
  onError env e
  = mkResponse 500
      (Failure (Some false)
         (Some (JS.js "할 일 생성 중 오류가 발생했습니다. 잠시 후 다시 시도해주세요."))
         (if isDevelopment env then message e else None)).
Proof.
  intros [-> | ->]; unfold onError;
    repeat match goal with
           | |- context [messageIncludes ?k ?x] =>
             replace (messageIncludes k x) with false
               by (vm_compute; reflexivity)
           end; reflexivity.
Qed.


(** X9.  A reply of the model that is no draft never yields one, and an
    accepted request is then answered with status 500 and the general
    error message.  That holds of text that is no JSON, where the details
    shown in development mode are the message "could not parse the
    response", and of JSON that is no object or fails the schema (a
    required field missing, a field of the wrong type, a priority outside
    the three values), where they are the message "response did not match
    schema". *)
Theorem invalid_reply_is_an_error (engine : JSDate.Engine) (env : Env)
    (today s : JS.jsstring) service :
  valid (validateInput (JString s)) = true ->
  apiKeySet env = true ->
  (service (mkRequest today (preprocessInput s)) = ReplyNoJSON ->
   outcome service (POST engine env today (JString s))
   = inl (mkResponse 500
            (Failure (Some false)
               (Some (JS.js "할 일 생성 중 오류가 발생했습니다. 잠시 후 다시 시도해주세요."))
               (if isDevelopment env
                then Some (JS.js "No object generated: could not parse the response.")
                else None))))
  /\ (service (mkRequest today (preprocessInput s)) = ReplyOther
      \/ (exists o,
            service (mkRequest today (preprocessInput s)) = ReplyObject o
            /\ todoSchema_parse o = None) ->
      outcome service (POST engine env today (JString s))
      = inl (mkResponse 500
               (Failure (Some false)
                  (Some (JS.js "할 일 생성 중 오류가 발생했습니다. 잠시 후 다시 시도해주세요."))
                  (if isDevelopment env
                   then Some (JS.js "No object generated: response did not match schema.")
                   else None)))).
Proof.
  intros H Hk. unfold outcome.
  rewrite (POST_with_key engine env today s service H Hk). cbn [fst].
  split.
  - intros ->. now rewrite (onError_no_object env _ (or_intror eq_refl)).
  - intros [-> | (o & -> & ->)];
      now rewrite (onError_no_object env _ (or_introl eq_refl)).
Qed.

Lemma invalid_reply_is_an_error_witness :
  let env := mkEnv (Some (JS.js "k")) (Some (JS.js "development")) in
  let today := JS.js "2025-06-01" in
  let s := JS.js "buy milk" in
  let service := fun _ : GenRequest => ReplyNoJSON in
  (valid (validateInput (JString s)) = true
   /\ apiKeySet env = true
   /\ service (mkRequest today (preprocessInput s)) = ReplyNoJSON)
  /\ outcome service (POST JSDate.CarryOver env today (JString s))
     = inl (mkResponse 500
              (Failure (Some false)
                 (Some (JS.js "할 일 생성 중 오류가 발생했습니다. 잠시 후 다시 시도해주세요."))
                 (if isDevelopment env
                  then Some (JS.js "No object generated: could not parse the response.")
                  else None))).
Proof.
  intros env today s service.
  assert (H1 : valid (validateInput (JString s)) = true)
    by (vm_compute; reflexivity).
  assert (H2 : apiKeySet env = true) by reflexivity.
  assert (H3 : service (mkRequest today (preprocessInput s)) = ReplyNoJSON)
    by reflexivity.
  split; [exact (conj H1 (conj H2 H3)) |].
  exact (proj1 (invalid_reply_is_an_error JSDate.CarryOver env today s
                  service H1 H2) H3).
Defined.

(** *** Title and description *)

Lemma repairTitle_bounds (t : option JS.jsstring) :
  JS.Trimmed (repairTitle t)
  /\ (1 <= JS.length (repairTitle t) <= 203)%Z
  /\ ((200 < JS.length (repairTitle t))%Z ->
      exists x, repairTitle t = x ++ ellipsis /\ JS.length x = 200%Z).
Proof.
  unfold repairTitle. generalize (defaultTitle t). intros x.
  unfold processTitle, titleMinLength, titleMaxLength. cbv zeta.
  pose proof (trim_trimmed x) as Htr. set (u := JS.trim x) in *.
  destruct (Z.ltb_spec (JS.length u) 1) as [H1 | H1].
  - split; [split; reflexivity |]. split; [vm_compute; split; discriminate |].
    vm_compute. discriminate.
  - destruct (Z.ltb_spec 200 (JS.length u)) as [H2 | H2].
    + assert (Hu : u <> []).
      { intros E. rewrite E in H1. unfold JS.length in H1. simpl in H1. lia. }
      pose proof (trimmed_truncated 200 u Htr ltac:(lia) Hu) as Htr'.
      pose proof (GenerateTodoFacts.truncated_length 200 u H2) as Hlen.
      split; [exact Htr' |]. split; [lia |].
      intros _. exists (JS.substring0 200 u). split; [reflexivity |].
      unfold JS.length, JS.substring0 in *.
      rewrite firstn_length_le by lia. reflexivity.
    + split; [exact Htr |]. split; [lia |]. lia.
Qed.

(** The repair of the title, case by case. *)
Lemma repairTitle_repaired (raw : option JS.jsstring) :
  titleRepaired raw (repairTitle raw).
Proof.
  split; [intros ->; reflexivity |].
  intros s ->. destruct s as [| c r].
  - split; [reflexivity |]. split; [intros H; now destruct H |].
    intros H. vm_compute in H. discriminate.
  - unfold repairTitle, defaultTitle.
    assert (H0 : (0 <= JS.length (JS.trim (c :: r)))%Z)
      by (unfold JS.length; lia).
    destruct (Z.eqb_spec (JS.length (JS.trim (c :: r))) 0) as [E | E].
    + assert (Hnil : JS.trim (c :: r) = []).
      { unfold JS.length in E. destruct (JS.trim (c :: r));
          [reflexivity | simpl in E; lia]. }
      split; [reflexivity |]. split; [intros H; contradiction |].
      intros H. lia.
    + unfold processTitle, titleMinLength, titleMaxLength. cbv zeta.
      set (u := JS.trim (c :: r)) in *.
      destruct (Z.ltb_spec (JS.length u) 1) as [H1 | H1]; [lia |].
      split.
      { intros Hnil. rewrite Hnil in E. now destruct E. }
      destruct (Z.ltb_spec 200 (JS.length u)) as [H2 | H2].
      * split; [intros _ Hle; lia | reflexivity].
      * split; [reflexivity | intros Hgt; lia].
Qed.

(** A successful answer carries the repaired draft of the reply. *)
Lemma POST_data_from_reply (engine : JSDate.Engine) (env : Env)
    (today : JS.jsstring) (v : JSValue Opaque) service r data :
  outcome service (POST engine env today v) = inl r ->
  body r = Data data ->
  exists s o d,
    v = JString s
    /\ service (mkRequest today (preprocessInput s)) = ReplyObject o
    /\ todoSchema_parse o = Some d
    /\ data = repair engine today d.
Proof.
  destruct (valid (validateInput v)) eqn:H.
  - destruct (GenerateTodoFacts.validateInput_accepts v H) as (s & -> & _).
    destruct (apiKeySet env) eqn:Hk.
    + unfold outcome.
      rewrite (POST_with_key engine env today s service H Hk). cbn [fst].
      destruct (service (mkRequest today (preprocessInput s)))
        as [o | | | e] eqn:Hs.
      * destruct (todoSchema_parse o) as [d |] eqn:Hp.
        -- intros [= <-] [= <-]. now exists s, o, d.
        -- destruct (onError_shape env noObjectGenerated)
             as (st & msg & -> & _).
           intros [= <-]. discriminate.
      * destruct (onError_shape env noObjectGenerated) as (st & msg & -> & _).
        intros [= <-]. discriminate.
      * destruct (onError_shape env noObjectParsed) as (st & msg & -> & _).
        intros [= <-]. discriminate.
      * destruct (onError_shape env e) as (st & msg & -> & _).
        intros [= <-]. discriminate.
    + rewrite (POST_without_key engine env today s H Hk).
      intros [= <-]. discriminate.
  - rewrite (POST_refused engine env today v H).
    intros [= <-]. discriminate.
Qed.

(** X10.  The title of a repaired draft is never blank: it is trimmed and
    has between 1 and 203 code units.  It is the placeholder when the
    draft has no title or a blank one, the trimmed title when that has at
    most 200 code units, and otherwise the first 200 code units of the
    trimmed title followed by three dots.  So is the title in every
    successful answer of the handler, of the draft the completion service
    replied with. *)
Theorem title_never_blank (engine : JSDate.Engine) (today : JS.jsstring) :
  (forall d : TodoData,
     exists t,
       title (repair engine today d) = Some t
       /\ JS.Trimmed t
       /\ (1 <= JS.length t <= 203)%Z
       /\ titleRepaired (title d) t)
  /\ (forall env v service r data,
        outcome service (POST engine env today v) = inl r ->
        body r = Data data ->
        exists s o d t,
          v = JString s
          /\ service (mkRequest today (preprocessInput s)) = ReplyObject o
          /\ todoSchema_parse o = Some d
          /\ title data = Some t
          /\ JS.Trimmed t
          /\ (1 <= JS.length t <= 203)%Z
          /\ titleRepaired (title d) t).
Proof.
  split.
  - intros d. exists (repairTitle (title d)).
    pose proof (repairTitle_bounds (title d)) as (H1 & H2 & _).
    split; [reflexivity |]. split; [exact H1 |]. split; [exact H2 |].
    apply repairTitle_repaired.
  - intros env v service r data Hout Hbody.
    destruct (POST_data_from_reply engine env today v service r data
                Hout Hbody) as (s & o & d & Hv & Hs & Hp & ->).
    exists s, o, d, (repairTitle (title d)).
    pose proof (repairTitle_bounds (title d)) as (H1 & H2 & _).
    repeat (split; [assumption || reflexivity |]).
    apply repairTitle_repaired.
Qed.




(** X12.  The due time in every successful answer is accepted by the
    pattern of the route, an hour 0 to 23 written with one or two digits,
    a colon and a minute 00 to 59; a draft without time, with an empty one
    or with one the pattern refuses comes out with "09:00". *)
Theorem due_time_matches_route_pattern (engine : JSDate.Engine)
    (today : JS.jsstring) :
  (forall d : TodoData,
     exists t,
       due_time (repair engine today d) = Some t
       /\ JSDate.timeRegex_test t = true
       /\ (truthyStr (due_time d) = false -> t = defaultTime)
       /\ (forall s, due_time d = Some s ->
             JSDate.timeRegex_test s = false -> t = defaultTime)
       /\ (forall s, due_time d = Some s ->
             JSDate.timeRegex_test s = true -> t = s))
  /\ (forall env v service r data,
        outcome service (POST engine env today v) = inl r ->
        body r = Data data ->
        exists t, due_time data = Some t
                  /\ JSDate.timeRegex_test t = true).
Proof.
  split.
  - intros d. exists (repairDueTime (due_time d)).
    split; [reflexivity |].
    split; [apply GenerateTodoFacts.repairDueTime_timeRegex |].
    split; [| split].
    + intros H. apply GenerateTodoFacts.repairDueTime_default. now left.
    + intros s E H. apply GenerateTodoFacts.repairDueTime_default.
      right. now exists s.
    + intros s E H. rewrite E.
      now apply GenerateTodoFacts.repairDueTime_kept.
  - intros env v service r data Hout Hbody.
    destruct (GenerateTodoFacts.POST_data_repaired engine env today v
                service r data Hout Hbody) as [d ->].
    exists (repairDueTime (due_time d)).
    split; [reflexivity | apply GenerateTodoFacts.repairDueTime_timeRegex].
Qed.

(** X13.  With [today] the [YYYY-MM-DD] form of a calendar day, running
    the repair pass on its own result changes nothing, whatever the draft
    it started from. *)
Theorem repair_twice_is_repair_once (engine : JSDate.Engine)
    (today : JS.jsstring) (d : TodoData) :
  JSDate.isCalendarDate today = true ->
  repair engine today (repair engine today d) = repair engine today d.
Proof.
  intros H. unfold repair.
  cbn [title description due_date due_time priority category].
  rewrite GenerateTodoFacts.repairTitle_idem,
    GenerateTodoFacts.repairDescription_idem,
    GenerateTodoFacts.repairDueTime_idem.
  rewrite (GenerateTodoFacts.repairDueDate_idem engine today _ H).
  reflexivity.
Qed.

Lemma repair_twice_is_repair_once_witness :
  let today := JS.js "2025-06-01" in
  let d := mkTodo (Some (JS.js "  ")) (Some (JS.js " x ")) (Some (JS.js "1999-01-01"))
             (Some (JS.js "25:00")) None None in
  JSDate.isCalendarDate today = true
  /\ repair JSDate.CarryOver today (repair JSDate.CarryOver today d)
     = repair JSDate.CarryOver today d.
Proof.
  intros today d.
  assert (H : JSDate.isCalendarDate today = true) by (vm_compute; reflexivity).
  split; [exact H |].
  exact (repair_twice_is_repair_once JSDate.CarryOver today d H).
Defined.

(** *** The dates of the prompt *)

(** X14.  For every day of the week, the offsets the prompt's "next
    Monday" and "this Friday" are computed with lie between 1 and 7 days
    ahead and land on a Monday, resp. a Friday: never on the current day
    itself. *)
Theorem prompt_weekdays_lie_ahead (currentDayOfWeek : Z) :
  (0 <= currentDayOfWeek <= 6)%Z ->
  (1 <= daysUntilNextMonday currentDayOfWeek <= 7)%Z
  /\ ((currentDayOfWeek + daysUntilNextMonday currentDayOfWeek) mod 7 = 1)%Z
  /\ (1 <= daysUntilFriday currentDayOfWeek <= 7)%Z
  /\ ((currentDayOfWeek + daysUntilFriday currentDayOfWeek) mod 7 = 5)%Z.
Proof.
  intros H.
  assert (E : (currentDayOfWeek = 0 \/ currentDayOfWeek = 1
               \/ currentDayOfWeek = 2 \/ currentDayOfWeek = 3
               \/ currentDayOfWeek = 4 \/ currentDayOfWeek = 5
               \/ currentDayOfWeek = 6)%Z) by lia.
  destruct E as [-> | [-> | [-> | [-> | [-> | [-> | ->]]]]]];
    vm_compute; repeat split; discriminate.
Qed.

Lemma prompt_weekdays_lie_ahead_witness :
  (0 <= 5 <= 6)%Z
  /\ ((1 <= daysUntilNextMonday 5 <= 7)%Z
      /\ ((5 + daysUntilNextMonday 5) mod 7 = 1)%Z
      /\ (1 <= daysUntilFriday 5 <= 7)%Z
      /\ ((5 + daysUntilFriday 5) mod 7 = 5)%Z).
Proof.
  assert (H : (0 <= 5 <= 6)%Z) by lia.
  split; [exact H | exact (prompt_weekdays_lie_ahead 5 H)].
Defined.

End NormalizerFacts.

(* ================================================================= *)
(** ** The summarizer, beyond the basic and the slot statistics *)

Module SummarizerFacts.

Import AnalyzeTodos.

(** *** Statistics by priority *)

Lemma countPriority_total (acc : PriorityStats) (a : Todo) (k : Priority) :
  Bucket.total (bucket (countPriority acc a) k)
  = (Bucket.total (bucket acc k) + one_if (priority_eqb (priority a) k))%Z.
Proof.
  unfold countPriority.
  destruct (priority a), (completed a), k; cbn; lia.
Qed.

Lemma countPriority_completed (acc : PriorityStats) (a : Todo)
    (k : Priority) :
  Bucket.completed (bucket (countPriority acc a) k)
  = (Bucket.completed (bucket acc k)
     + one_if (priority_eqb (priority a) k && completed a))%Z.
Proof.
  unfold countPriority.
  destruct (priority a), (completed a), k; cbn; lia.
Qed.

Lemma countPriority_incomplete (acc : PriorityStats) (a : Todo)
    (k : Priority) :
  Bucket.incomplete (bucket (countPriority acc a) k)
  = (Bucket.incomplete (bucket acc k)
     + one_if (priority_eqb (priority a) k && negb (completed a)))%Z.
Proof.
  unfold countPriority.
  destruct (priority a), (completed a), k; cbn; lia.
Qed.

Lemma fold_priority (todos : list Todo) (acc : PriorityStats)
    (k : Priority) :
  let r := bucket (fold_left countPriority todos acc) k in
  Bucket.total r
  = (Bucket.total (bucket acc k)
     + Z.of_nat
         (List.length
            (filter (fun t => priority_eqb (priority t) k) todos)))%Z
  /\ Bucket.completed r
     = (Bucket.completed (bucket acc k)
        + Z.of_nat
            (List.length
               (filter (fun t => priority_eqb (priority t) k && completed t)
                  todos)))%Z
  /\ Bucket.incomplete r
     = (Bucket.incomplete (bucket acc k)
        + Z.of_nat
            (List.length
               (filter
                  (fun t => priority_eqb (priority t) k
                            && negb (completed t)) todos)))%Z.
Proof.
  revert acc. induction todos as [| a todos IH]; intros acc; simpl.
  - repeat split; lia.
  - destruct (IH (countPriority acc a)) as (H1 & H2 & H3).
    rewrite H1, H2, H3, countPriority_total, countPriority_completed,
      countPriority_incomplete.
    destruct (priority_eqb (priority a) k), (completed a);
      cbn [andb negb one_if List.length]; repeat split; lia.
Qed.

Lemma priority_partition (f : Todo -> bool) (todos : list Todo) :
  (List.length (filter (fun t => priority_eqb (priority t) high && f t) todos)
   + List.length
       (filter (fun t => priority_eqb (priority t) medium && f t) todos)
   + List.length (filter (fun t => priority_eqb (priority t) low && f t) todos)
   = List.length (filter f todos))%nat.
Proof.
  induction todos as [| a todos IH]; simpl; [reflexivity |].
  destruct (priority a), (f a); simpl; lia.
Qed.

Lemma priority_split (k : Priority) (todos : list Todo) :
  (List.length (filter (fun t => priority_eqb (priority t) k) todos)
   = List.length
       (filter (fun t => priority_eqb (priority t) k && completed t) todos)
     + List.length
         (filter (fun t => priority_eqb (priority t) k
                           && negb (completed t)) todos))%nat.
Proof.
  induction todos as [| a l IH]; simpl; [reflexivity |].
  destruct (priority_eqb (priority a) k), (completed a); simpl; lia.
Qed.

Lemma priority_partition_all (todos : list Todo) :
  (List.length (filter (fun t => priority_eqb (priority t) high) todos)
   + List.length (filter (fun t => priority_eqb (priority t) medium) todos)
   + List.length (filter (fun t => priority_eqb (priority t) low) todos)
   = List.length todos)%nat.
Proof.
  induction todos as [| a todos IH]; simpl; [reflexivity |].
  destruct (priority a); simpl; lia.
Qed.

(** X16.  For every task list and each of the three priorities, the
    counter [priorityStats] keeps has as total the number of tasks of that
    priority, split into its completed and its incomplete ones; over the
    three priorities the totals add up to the number of tasks, the
    completed to the completed tasks and the incomplete to the incomplete
    tasks. *)
Theorem priority_statistics (todos : list Todo) :
  let p := priorityStats todos in
  (forall k,
     Bucket.total (bucket p k)
     = Z.of_nat
         (List.length (filter (fun t => priority_eqb (priority t) k) todos))
     /\ Bucket.total (bucket p k)
        = (Bucket.completed (bucket p k) + Bucket.incomplete (bucket p k))%Z
     /\ (0 <= Bucket.completed (bucket p k))%Z
     /\ (0 <= Bucket.incomplete (bucket p k))%Z)
  /\ (Bucket.total (at_high p) + Bucket.total (at_medium p)
      + Bucket.total (at_low p) = totalTasks todos)%Z
  /\ (Bucket.completed (at_high p) + Bucket.completed (at_medium p)
      + Bucket.completed (at_low p) = completedTasks todos)%Z
  /\ (Bucket.incomplete (at_high p) + Bucket.incomplete (at_medium p)
      + Bucket.incomplete (at_low p) = incompleteTasks todos)%Z
  /\ Z.of_nat (List.length (highPriorityTasks todos))
     = Bucket.total (at_high p).
Proof.
  intros p.
  assert (F : forall k,
    Bucket.total (bucket p k)
    = Z.of_nat
        (List.length (filter (fun t => priority_eqb (priority t) k) todos))
    /\ Bucket.completed (bucket p k)
       = Z.of_nat
           (List.length
              (filter (fun t => priority_eqb (priority t) k && completed t)
                 todos))
    /\ Bucket.incomplete (bucket p k)
       = Z.of_nat
           (List.length
              (filter
                 (fun t => priority_eqb (priority t) k && negb (completed t))
                 todos))).
  { intros k. unfold p, priorityStats.
    destruct (fold_priority todos
                (mkPriorityStats Bucket.zero Bucket.zero Bucket.zero) k)
      as (H1 & H2 & H3).
    rewrite H1, H2, H3. destruct k; cbn; repeat split; lia. }
  pose proof (fun k => priority_split k todos) as S.
  pose proof (priority_partition_all todos) as Pt.
  pose proof (priority_partition completed todos) as Pc.
  pose proof (priority_partition (fun t => negb (completed t)) todos) as Pi.
  pose proof (AnalyzeTodosFacts.filter_length_split completed todos) as Hsplit.
  destruct (F high) as (Th & Ch & Ih).
  destruct (F medium) as (Tm & Cm & Im).
  destruct (F low) as (Tl & Cl & Il).
  cbn [bucket] in Th, Ch, Ih, Tm, Cm, Im, Tl, Cl, Il.
  split.
  { intros k. destruct (F k) as (T & C & I).
    split; [exact T |]. rewrite T, C, I. specialize (S k). lia. }
  unfold totalTasks, incompleteTasks, completedTasks, totalTasks,
    highPriorityTasks.
  rewrite Th, Tm, Tl, Ch, Cm, Cl, Ih, Im, Il.
  repeat split; lia.
Qed.

(** *** Overdue tasks and the deferral ratio *)

Lemma filter_and_length_le {A} (f g : A -> bool) (l : list A) :
  (List.length (filter (fun a => f a && g a) l)
   <= List.length (filter g l))%nat.
Proof.
  induction l as [| a l IH]; simpl; [lia |].
  destruct (f a), (g a); simpl; lia.
Qed.

Lemma postponed_count (todos : list Todo) :
  (Z.of_nat
     (List.length
        (filter (fun t => negb (completed t)) (highPriorityTasks todos)))
   <= incompleteTasks todos)%Z.
Proof.
  unfold highPriorityTasks, incompleteTasks, totalTasks, completedTasks.
  pose proof (AnalyzeTodosFacts.filter_length_split completed todos) as Hs.
  assert (E : List.length
                (filter (fun t => negb (completed t))
                   (filter (fun todo => priority_eqb (priority todo) high)
                      todos))
              = List.length
                  (filter (fun t => priority_eqb (priority t) high
                                    && negb (completed t)) todos)).
  { clear. induction todos as [| a l IH]; simpl; [reflexivity |].
    destruct (priority_eqb (priority a) high); simpl; [| exact IH].
    destruct (negb (completed a)); simpl; congruence. }
  rewrite E.
  pose proof (filter_and_length_le
                (fun t => priority_eqb (priority t) high)
                (fun t => negb (completed t)) todos).
  lia.
Qed.

Lemma ratio_bounds (h m : Z) :
  (0 <= h <= m)%Z ->
  0 <= inject_Z h / inject_Z (orOne m) /\ inject_Z h / inject_Z (orOne m) <= 1.
Proof.
  intros [H0 Hm]. unfold orOne.
  destruct (Z.eqb_spec m 0) as [E | E].
  - assert (h = 0%Z) by lia. subst h. split; [apply Qle_refl | discriminate].
  - destruct m as [| p | p]; try lia.
    unfold Qle, Qdiv, Qmult, Qinv, inject_Z. simpl. split; nia.
Qed.

Lemma overdue_incomplete (getTime : JS.jsstring -> option Z) (now : Z)
    (t : Todo) :
  isOverdue getTime now t = true ->
  completed t = false /\ hasDue t = true
  /\ exists d due, due_date t = Some d /\ getTime d = Some due
                   /\ (due < now)%Z.
Proof.
  unfold isOverdue, hasDue.
  destruct (due_date t) as [[| c s] |]; try discriminate.
  destruct (completed t); [discriminate |].
  destruct (getTime (c :: s)) as [due |] eqn:E; [| discriminate].
  intros H. apply Z.ltb_lt in H.
  repeat split. exists (c :: s), due. auto.
Qed.

(** X17.  For every task list the deferral ratio lies between 0 and 1,
    the overdue tasks are incomplete tasks with a due date that parses to
    an instant before now, and there are at most as many of them as there
    are incomplete tasks. *)
Theorem deferral_and_overdue_bounds (getTime : JS.jsstring -> option Z)
    (now : Z) (todos : list Todo) :
  0 <= postponedHighPriority todos
  /\ postponedHighPriority todos <= 1
  /\ (Z.of_nat (List.length (overdueTasks getTime now todos))
      <= incompleteTasks todos)%Z
  /\ (forall t, In t (overdueTasks getTime now todos) ->
        In t todos /\ completed t = false
        /\ exists d due, due_date t = Some d /\ getTime d = Some due
                         /\ (due < now)%Z).
Proof.
  pose proof (postponed_count todos) as Hh.
  destruct (ratio_bounds _ (incompleteTasks todos)
              (conj (Nat2Z.is_nonneg _) Hh)) as [Hlo Hhi].
  split; [exact Hlo |]. split; [exact Hhi |]. split.
  - unfold overdueTasks, incompleteTasks, totalTasks, completedTasks.
    pose proof (AnalyzeTodosFacts.filter_length_split completed todos) as Hs.
    assert (Hle : (List.length (filter (isOverdue getTime now) todos)
                   <= List.length
                        (filter (fun t => negb (completed t)) todos))%nat).
    { clear. induction todos as [| a l IH]; simpl; [lia |].
      destruct (isOverdue getTime now a) eqn:E.
      - apply overdue_incomplete in E as [-> _]. simpl. lia.
      - destruct (negb (completed a)); simpl; lia. }
    lia.
  - intros t Hin. unfold overdueTasks in Hin.
    apply filter_In in Hin as [Hin Ho].
    destruct (overdue_incomplete getTime now t Ho) as (Hc & _ & Hd).
    auto.
Qed.

Lemma all_completed_filter (todos : list Todo) :
  Forall (fun t => completed t = true) todos ->
  filter completed todos = todos
  /\ filter (fun t => negb (completed t)) todos = [].
Proof.
  induction 1 as [| a l Ha Hl [IH1 IH2]]; simpl; [split; reflexivity |].
  rewrite Ha. simpl. rewrite IH1, IH2. split; reflexivity.
Qed.

(** X18.  When every task of a list that is not empty is completed, the
    completion rate is 100, no task is incomplete, none is overdue and
    the deferral ratio is 0. *)
Theorem all_completed_statistics (getTime : JS.jsstring -> option Z)
    (now : Z) (todos : list Todo) :
  todos <> [] ->
  Forall (fun t => completed t = true) todos ->
  completionRate todos == 100
  /\ incompleteTasks todos = 0%Z
  /\ overdueTasks getTime now todos = []
  /\ postponedHighPriority todos == 0.
Proof.
  intros Hne Hall.
  destruct (all_completed_filter todos Hall) as [Hc Hi].
  assert (Hct : completedTasks todos = totalTasks todos).
  { unfold completedTasks, totalTasks. now rewrite Hc. }
  assert (Hpos : (0 < totalTasks todos)%Z).
  { unfold totalTasks. destruct todos; [contradiction | simpl; lia]. }
  split.
  { unfold completionRate, percentage. rewrite Hct.
    destruct (Z.ltb_spec 0 (totalTasks todos)); [| lia].
    destruct (totalTasks todos) as [| p | p]; try lia.
    unfold Qeq, Qdiv, Qmult, Qinv, inject_Z. simpl. lia. }
  split; [unfold incompleteTasks; lia |].
  split.
  { unfold overdueTasks. clear -Hall.
    induction Hall as [| a l Ha Hl IH]; simpl; [reflexivity |].
    unfold isOverdue at 1. rewrite Ha.
    destruct (due_date a) as [[| c s] |]; exact IH. }
  unfold postponedHighPriority.
  assert (E : filter (fun t => negb (completed t)) (highPriorityTasks todos)
              = []).
  { unfold highPriorityTasks. clear -Hall.
    induction Hall as [| a l Ha Hl IH]; simpl; [reflexivity |].
    destruct (priority_eqb (priority a) high); simpl; [| exact IH].
    rewrite Ha. simpl. exact IH. }
  rewrite E. simpl. unfold Qdiv. apply Qmult_0_l.
Qed.

Lemma all_completed_statistics_witness :
  let todos :=
    [mkTodo (JS.js "1") (JS.js "a") None (Some (JS.js "2025-06-01T09:00:00"))
       high [JS.js "업무"] true;
     mkTodo (JS.js "2") (JS.js "b") None None low [] true] in
  let getTime := fun _ : JS.jsstring => Some 5%Z in
  (todos <> [] /\ Forall (fun t => completed t = true) todos)
  /\ (completionRate todos == 100
      /\ incompleteTasks todos = 0%Z
      /\ overdueTasks getTime 10 todos = []
      /\ postponedHighPriority todos == 0).
Proof.
  intros todos getTime.
  assert (H1 : todos <> []) by discriminate.
  assert (H2 : Forall (fun t => completed t = true) todos)
    by (repeat constructor).
  split; [exact (conj H1 H2) |].
  exact (all_completed_statistics getTime 10 todos H1 H2).
Defined.

(** *** The order of the tasks, and the rates of the slots *)

Lemma filter_perm_length {A} (f : A -> bool) (l l' : list A) :
  Permutation l l' ->
  List.length (filter f l) = List.length (filter f l').
Proof.
  intros HP. apply Permutation_length.
  induction HP; simpl.
  - constructor.
  - destruct (f x); [now constructor | assumption].
  - destruct (f x), (f y); try apply Permutation_refl. apply perm_swap.
  - eapply Permutation_trans; eassumption.
Qed.

(** X19.  The statistics do not depend on the order in which the tasks
    arrive: two lists with the same tasks give the same counts, the same
    completion rate, the same slot counters and the same most productive
    slot. *)
Theorem statistics_ignore_task_order (getHours : JS.jsstring -> option Z)
    (l l' : list Todo) :
  Permutation l l' ->
  totalTasks l = totalTasks l'
  /\ completedTasks l = completedTasks l'
  /\ completionRate l = completionRate l'
  /\ timeSlotCount getHours l = timeSlotCount getHours l'
  /\ mostProductiveTimeSlot (timeSlotCount getHours l)
     = mostProductiveTimeSlot (timeSlotCount getHours l').
Proof.
  intros HP.
  assert (Ht : totalTasks l = totalTasks l').
  { unfold totalTasks. now rewrite (Permutation_length HP). }
  assert (Hc : completedTasks l = completedTasks l').
  { unfold completedTasks. now rewrite (filter_perm_length completed l l' HP). }
  split; [exact Ht |]. split; [exact Hc |].
  split; [unfold completionRate; now rewrite Ht, Hc |].
  pose proof (AnalyzeTodosFacts.timeSlotCount_perm getHours l l' HP) as Hs.
  split; [exact Hs | now rewrite Hs].
Qed.

Lemma statistics_ignore_task_order_witness :
  let a := mkTodo (JS.js "1") (JS.js "a") None (Some (JS.js "09")) high []
             true in
  let b := mkTodo (JS.js "2") (JS.js "b") None (Some (JS.js "15")) low []
             false in
  let getHours := fun s : JS.jsstring =>
    match s with [x; y] => Some (JSDate.num2 x y) | _ => None end in
  Permutation [a; b] [b; a]
  /\ (totalTasks [a; b] = totalTasks [b; a]
      /\ completedTasks [a; b] = completedTasks [b; a]
      /\ completionRate [a; b] = completionRate [b; a]
      /\ timeSlotCount getHours [a; b] = timeSlotCount getHours [b; a]
      /\ mostProductiveTimeSlot (timeSlotCount getHours [a; b])
         = mostProductiveTimeSlot (timeSlotCount getHours [b; a])).
Proof.
  intros a b getHours.
  assert (H : Permutation [a; b] [b; a]) by apply perm_swap.
  split; [exact H |].
  exact (statistics_ignore_task_order getHours [a; b] [b; a] H).
Defined.

(** X20.  In every slot the completed tasks counted are among the tasks
    counted, so each slot's completion rate, and with it the rate of the
    most productive slot, lies between 0 and 100. *)
Theorem slot_rates_bounded (getHours : JS.jsstring -> option Z)
    (todos : list Todo) :
  let c := timeSlotCount getHours todos in
  (forall s,
     (0 <= Count.completed (slotCount c s) <= Count.total (slotCount c s))%Z
     /\ 0 <= rateOf c s /\ rateOf c s <= 100)
  /\ exists s r, mostProductiveTimeSlot c = Some (s, r)
                 /\ 0 <= r /\ r <= 100.
Proof.
  intros c.
  assert (B : forall s,
    (0 <= Count.completed (slotCount c s) <= Count.total (slotCount c s))%Z).
  { intros s. unfold c.
    rewrite AnalyzeTodosFacts.slot_total_counts,
      AnalyzeTodosFacts.slot_completed_counts.
    pose proof (filter_and_length_le completed (inSlot getHours s) todos) as H.
    assert (E : List.length
                  (filter (fun t => inSlot getHours s t && completed t) todos)
                = List.length
                    (filter (fun a => completed a && inSlot getHours s a)
                       todos)).
    { f_equal. apply filter_ext. intros a. apply andb_comm. }
    lia. }
  assert (R : forall s, 0 <= rateOf c s /\ rateOf c s <= 100).
  { intros s. unfold rateOf.
    apply AnalyzeTodosFacts.percentage_bounds. apply B. }
  split.
  - intros s. split; [apply B | apply R].
  - destruct (AnalyzeTodosFacts.mostProductive_first_max c) as (s & E & _).
    exists s, (rateOf c s). split; [exact E | apply R].
Qed.

(** *** The Monday of the week *)

(** X15.  For every day of the week, the day of the month that
    [getWeekRange] and the week filter of the page take as the start of
    the week is a Monday, today or one of the six days before. *)
Theorem week_starts_on_monday (date dayOfWeek : Z) :
  (0 <= dayOfWeek <= 6)%Z ->
  (date - 6 <= mondayDiff date dayOfWeek <= date)%Z
  /\ ((dayOfWeek + (mondayDiff date dayOfWeek - date)) mod 7 = 1)%Z.
Proof.
  intros H. unfold mondayDiff.
  destruct (Z.eqb_spec dayOfWeek 0) as [-> | Hne].
  - split; [lia |].
    replace (0 + (date - 0 + -6 - date))%Z with (-6)%Z by lia.
    reflexivity.
  - split; [lia |].
    replace (dayOfWeek + (date - dayOfWeek + 1 - date))%Z with 1%Z by lia.
    reflexivity.
Qed.

Lemma week_starts_on_monday_witness :
  (0 <= 0 <= 6)%Z
  /\ ((1 - 6 <= mondayDiff 1 0 <= 1)%Z
      /\ ((0 + (mondayDiff 1 0 - 1)) mod 7 = 1)%Z).
Proof.
  assert (H : (0 <= 0 <= 6)%Z) by lia.
  split; [exact H | exact (week_starts_on_monday 1 0 H)].
Defined.

(** *** The handler and its caller *)

Lemma run_bind {Req Rep A B} (service : Req -> Rep) (h : Handler Req Rep A)
    (k : A -> Handler Req Rep B) :
  run service (bind h k)
  = match run service h with
    | (inl a, log) =>
      (fst (run service (k a)), log ++ snd (run service (k a)))
    | (inr e, log) => (inr e, log)
    end.
Proof.
  induction h as [a | e | q f IH]; simpl.
  - now destruct (run service (k a)).
  - reflexivity.
  - rewrite IH. destruct (run service (f (service q))) as [[a | e] log];
      reflexivity.
Qed.

Lemma recognized_period (p : JS.jsstring) :
  p = JS.js "today" \/ p = JS.js "week" ->
  negb (truthy (JString (A := Opaque) p)) || periodUnknown (JString p)
  = false.
Proof. intros [-> | ->]; reflexivity. Qed.


(** The request of an accepted call, and what follows from the reply. *)
Lemma analyze_POST_with_key (getHours : JS.jsstring -> option Z) (env : Env)
    (l : list Todo) (p : JS.jsstring) service :
  p = JS.js "today" \/ p = JS.js "week" ->
  apiKeySet env = true ->
  exists best,
    mostProductiveTimeSlot (timeSlotCount getHours l) = Some best
    /\ let q := mkRequest p (totalTasks l) (completedTasks l)
                  (incompleteTasks l) (completionRate l)
                  (timeSlotCount getHours l) best in
       run service (POST getHours env (JArray l) (JString p))
       = (inl match service q with
              | ReplyObject a => mkResponse 200 (Data a)
              | ReplyOther => onError env noObjectGenerated
              | ReplyNoJSON => onError env noObjectParsed
              | ReplyFailure e => onError env e
              end, [q]).
Proof.
  intros Hp Hk.
  destruct (AnalyzeTodosFacts.mostProductive_first_max
              (timeSlotCount getHours l)) as (s & E & _).
  exists (s, rateOf (timeSlotCount getHours l) s). split; [exact E |].
  cbv zeta. unfold POST.
  change (negb (truthy (JArray l)) || negb (isArray (JArray l))) with false.
  rewrite (recognized_period p Hp).
  unfold apiKeySet in Hk. rewrite Hk. lazy beta iota. rewrite E.
  unfold generateObject. cbn [bind tryCatch run negb].
  destruct (service _) as [a | | | e]; reflexivity.
Qed.

Lemma analyze_POST_without_key (getHours : JS.jsstring -> option Z) (env : Env)
    (l : list Todo) (p : JS.jsstring) :
  p = JS.js "today" \/ p = JS.js "week" ->
  apiKeySet env = false ->
  POST getHours env (JArray l) (JString p)
  = Ret (mkResponse 500
           (Failure (Some false)
              (Some (JS.js "AI 서비스 설정 오류가 발생했습니다.")) None)).
Proof.
  intros Hp Hk. unfold POST.
  change (negb (truthy (JArray l)) || negb (isArray (JArray l))) with false.
  rewrite (recognized_period p Hp).
  unfold apiKeySet in Hk. rewrite Hk. reflexivity.
Qed.

(** What the catch block of the summarizer answers. *)
Lemma analyze_onError_shape (env : Env) (e : JSError) :
  exists st msg,
    onError env e
    = mkResponse st
        (Failure (Some false) (Some msg)
           (if isDevelopment env then message e else None))
    /\ (st = 429 \/ st = 500)%Z /\ msg <> [].
Proof.
  unfold onError.
  destruct (_ || _);
    [eexists _, _; split; [reflexivity | split; [lia | discriminate]] |].
  destruct (_ || _);
    [eexists _, _; split; [reflexivity | split; [lia | discriminate]] |].
  destruct (_ || _);
    eexists _, _; (split; [reflexivity | split; [lia | discriminate]]).
Qed.

(** *** The route on any JSON body *)
















Lemma due_within_has_due (getTime : JS.jsstring -> option Z)
    (start stop : Z) (t : Todo) :
  dueWithin getTime start stop t = true -> hasDue t = true.
Proof.
  unfold dueWithin, hasDue.
  destruct (due_date t) as [[| c s] |]; try discriminate. reflexivity.
Qed.

Lemma filtered_have_due (getTime : JS.jsstring -> option Z) (clock : Clock)
    (period : Period) (todos : list Todo) :
  filter hasDue (filterForPeriod getTime clock period todos)
  = filterForPeriod getTime clock period todos.
Proof.
  assert (G : forall f : Todo -> bool,
            (forall t, f t = true -> hasDue t = true) ->
            filter hasDue (filter f todos) = filter f todos).
  { intros f Hf. induction todos as [| a l IH]; simpl; [reflexivity |].
    destruct (f a) eqn:E; [| exact IH].
    simpl. rewrite (Hf a E). now rewrite IH. }
  destruct period; simpl; apply G; intros t; apply due_within_has_due.
Qed.

(** How a run of the caller goes once some task falls in the period: the
    calls are those of the route, and the state follows its answer. *)
Lemma caller_run (getHours getTime : JS.jsstring -> option Z) (env : Env)
    (clock : Clock) (period : Period) (todos : list Todo) service :
  let f := filterForPeriod getTime clock period todos in
  let h := POST getHours env (JArray f) (JString (periodName period)) in
  f <> [] ->
  exists st,
    run service (handleAnalyzeTodos getHours getTime env clock period todos)
    = (inl st, calls service h)
    /\ isAnalyzing st = false
    /\ ((exists a, outcome service h = inl (mkResponse 200 (Data a))
                   /\ analysisError st = None
                   /\ analysisResult st = Some a)
        \/ (exists msg, analysisError st = Some msg /\ msg <> []
                        /\ analysisResult st = None
                        /\ forall a, outcome service h
                                     <> inl (mkResponse 200 (Data a)))).
Proof.
  intros f h Hne.
  assert (Hp : periodName period = JS.js "today"
               \/ periodName period = JS.js "week")
    by (destruct period; auto).
  unfold handleAnalyzeTodos. cbv zeta. fold f.
  destruct (Z.eqb_spec (Z.of_nat (List.length f)) 0) as [E | _].
  { destruct f; [contradiction | simpl in E; lia]. }
  fold h. rewrite run_bind. unfold calls, outcome.
  destruct (apiKeySet env) eqn:Hk.
  - destruct (analyze_POST_with_key getHours env f _ service Hp Hk)
      as (best & _ & E).
    cbv zeta in E. fold h in E. rewrite E.
    destruct (service _) as [a | | | e];
      [ eexists; cbn; split; [reflexivity |]; split; [reflexivity |];
        left; now exists a
      | set (err := noObjectGenerated)
      | set (err := noObjectParsed)
      | set (err := e) ];
      (destruct (analyze_onError_shape env err) as (st & msg & -> & Hst & Hm);
       assert (Hok : ok (mkResponse (D := Analysis) st
                           (Failure (Some false) (Some msg)
                              (if isDevelopment env
                               then message err else None)))
                     = false)
         by (unfold ok; cbn; destruct Hst as [-> | ->]; reflexivity);
       cbn [body fst snd]; rewrite Hok; cbn;
       eexists; (split; [reflexivity |]); (split; [reflexivity |]);
       right; exists msg; (destruct msg; [contradiction |]);
       repeat split; try discriminate).
  - subst h. rewrite (analyze_POST_without_key getHours env f _ Hp Hk). cbn.
    eexists. split; [reflexivity |]. split; [reflexivity |].
    right. eexists. repeat split; try discriminate.
Qed.

(** X23.  A request the page sends to the summarizer never concerns an
    empty list, and every task in it has a due date: in the request the
    completion service receives, the task count is positive and equal to
    the sum of the three slot totals. *)
Theorem analysed_tasks_have_due_dates
    (getHours getTime : JS.jsstring -> option Z) (env : Env) (clock : Clock)
    (period : Period) (todos : list Todo) service (q : GenRequest) :
  In q (calls service
          (handleAnalyzeTodos getHours getTime env clock period todos)) ->
  prompt_period q = periodName period
  /\ (0 < prompt_totalTasks q)%Z
  /\ (Count.total (at_morning (prompt_timeSlotCount q))
      + Count.total (at_afternoon (prompt_timeSlotCount q))
      + Count.total (at_evening (prompt_timeSlotCount q))
      = prompt_totalTasks q)%Z.
Proof.
  assert (D : filterForPeriod getTime clock period todos = []
              \/ filterForPeriod getTime clock period todos <> []).
  { destruct (filterForPeriod getTime clock period todos);
      [now left | right; discriminate]. }
  destruct D as [E0 | Hne].
  { unfold handleAnalyzeTodos. cbv zeta. rewrite E0. simpl. contradiction. }
  destruct (caller_run getHours getTime env clock period todos service Hne)
    as (st & Hrun & _).
  unfold calls at 1. rewrite Hrun. cbn [snd].
  set (f := filterForPeriod getTime clock period todos) in *.
  assert (Hp : periodName period = JS.js "today"
               \/ periodName period = JS.js "week")
    by (destruct period; auto).
  destruct (apiKeySet env) eqn:Hk.
  - destruct (analyze_POST_with_key getHours env f _ service Hp Hk)
      as (best & _ & E).
    cbv zeta in E. unfold calls. rewrite E. cbn [snd].
    intros [<- | []]. cbn.
    split; [reflexivity |]. split.
    + unfold totalTasks. destruct f; [contradiction | simpl; lia].
    + pose proof (AnalyzeTodosFacts.slot_total_counts getHours f morning) as H1.
      pose proof (AnalyzeTodosFacts.slot_total_counts getHours f afternoon)
        as H2.
      pose proof (AnalyzeTodosFacts.slot_total_counts getHours f evening)
        as H3.
      cbn [slotCount] in H1, H2, H3. rewrite H1, H2, H3.
      pose proof (AnalyzeTodosFacts.slots_partition_due getHours f) as Hs.
      pose proof (filtered_have_due getTime clock period todos) as Hd.
      fold f in Hd. rewrite Hd in Hs.
      unfold totalTasks. lia.
  - rewrite (analyze_POST_without_key getHours env f _ Hp Hk). simpl. contradiction.
Qed.

Lemma analysed_tasks_have_due_dates_witness :
  let env := mkEnv (Some (JS.js "k")) None in
  let clock := mkClock 0 100 0 700 in
  let getTime := fun s : JS.jsstring =>
    match s with [x; y] => Some (JSDate.num2 x y) | _ => None end in
  let todos :=
    [mkTodo (JS.js "1") (JS.js "a") None (Some (JS.js "09")) high [] true;
     mkTodo (JS.js "2") (JS.js "b") None None low [] false] in
  let a := mkAnalysis (JS.js "ok") [] [] [] in
  let service := fun _ : GenRequest => ReplyObject a in
  let q := mkRequest (JS.js "today") 1 1 0 (100 # 1)
             (mkSlots (Count.mk 1 1) Count.zero Count.zero)
             (morning, 100 # 1) in
  In q (calls service
          (handleAnalyzeTodos getTime getTime env clock today todos))
  /\ (prompt_period q = periodName today
      /\ (0 < prompt_totalTasks q)%Z
      /\ (Count.total (at_morning (prompt_timeSlotCount q))
          + Count.total (at_afternoon (prompt_timeSlotCount q))
          + Count.total (at_evening (prompt_timeSlotCount q))
          = prompt_totalTasks q)%Z).
Proof.
  intros env clock getTime todos a service q.
  assert (H : In q (calls service
                      (handleAnalyzeTodos getTime getTime env clock today
                         todos)))
    by (vm_compute; left; reflexivity).
  split; [exact H |].
  exact (analysed_tasks_have_due_dates getTime getTime env clock today todos
           service q H).
Defined.

(** X24.  The analysis action of the page always comes to an end with the
    progress flag off and with either a result or an error message that
    is not empty, never both and never neither; with a result exactly when
    the summarizer answered 200, and then the result is the answer's
    data. *)
Theorem analysis_always_settles
    (getHours getTime : JS.jsstring -> option Z) (env : Env) (clock : Clock)
    (period : Period) (todos : list Todo) service :
  exists st,
    outcome service
      (handleAnalyzeTodos getHours getTime env clock period todos) = inl st
    /\ isAnalyzing st = false
    /\ ((exists a,
           analysisError st = None /\ analysisResult st = Some a
           /\ outcome service
                (POST getHours env
                   (JArray (filterForPeriod getTime clock period todos))
                   (JString (periodName period)))
              = inl (mkResponse 200 (Data a)))
        \/ (exists msg,
              analysisError st = Some msg /\ msg <> []
              /\ analysisResult st = None)).
Proof.
  destruct (filterForPeriod getTime clock period todos) as [| t0 f0] eqn:Ef.
  - exists (failed nothingToAnalyze).
    unfold handleAnalyzeTodos. cbv zeta. rewrite Ef.
    split; [reflexivity |]. split; [reflexivity |].
    right. exists nothingToAnalyze. repeat split. discriminate.
  - assert (Hne : filterForPeriod getTime clock period todos <> []).
    { rewrite Ef. discriminate. }
    destruct (caller_run getHours getTime env clock period todos service Hne)
      as (st & Hrun & Hflag & Hst).
    exists st. unfold outcome at 1. rewrite Hrun.
    split; [reflexivity |]. split; [exact Hflag |].
    rewrite <- Ef.
    destruct Hst as [(a & Ho & He & Hr) | (msg & He & Hm & Hr & _)].
    + left. exists a. auto.
    + right. exists msg. auto.
Qed.

End SummarizerFacts.

(* ================================================================= *)
(** ** The task form *)

Module TodoFormFacts.

Import TodoForm.

(** *** The category check boxes *)

Lemma str_eqb_refl (s : JS.jsstring) : JS.str_eqb s s = true.
Proof. now apply str_eqb_eq. Qed.

Lemma str_eqb_neq (s t : JS.jsstring) : s <> t -> JS.str_eqb s t = false.
Proof.
  intros H. destruct (JS.str_eqb s t) eqn:E; [| reflexivity].
  apply str_eqb_eq in E. contradiction.
Qed.

Lemma includes_filtered_out (l : list JS.jsstring) (c : JS.jsstring) :
  includesCategory (filter (fun x => negb (JS.str_eqb x c)) l) c = false.
Proof.
  unfold includesCategory.
  induction l as [| a l IH]; simpl; [reflexivity |].
  destruct (JS.str_eqb a c) eqn:E; simpl; [exact IH |].
  now rewrite E.
Qed.

Lemma includes_other_filtered (l : list JS.jsstring) (c c' : JS.jsstring) :
  c' <> c ->
  includesCategory (filter (fun x => negb (JS.str_eqb x c)) l) c'
  = includesCategory l c'.
Proof.
  intros Hne. unfold includesCategory.
  induction l as [| a l IH]; simpl; [reflexivity |].
  destruct (JS.str_eqb a c) eqn:E; simpl.
  - apply str_eqb_eq in E. subst a.
    rewrite (str_eqb_neq c c') by congruence. exact IH.
  - now rewrite IH.
Qed.

Lemma includes_app (l m : list JS.jsstring) (c : JS.jsstring) :
  includesCategory (l ++ m) c = includesCategory l c || includesCategory m c.
Proof. unfold includesCategory. apply existsb_app. Qed.

Lemma filter_absent (l : list JS.jsstring) (c : JS.jsstring) :
  includesCategory l c = false ->
  filter (fun x => negb (JS.str_eqb x c)) l = l.
Proof.
  unfold includesCategory.
  induction l as [| a l IH]; simpl; [reflexivity |].
  intros H. apply orb_false_iff in H as [Ha Hl].
  rewrite Ha. simpl. now rewrite IH.
Qed.

(** X25.  Toggling a category flips whether the selection includes it
    and leaves every other category as it was; toggling a category that
    was not selected twice gives back the selection as it was; and a
    selection without repetition stays without. *)
Theorem category_toggle (current : list JS.jsstring)
    (category : JS.jsstring) :
  includesCategory (handleCategoryToggle current category) category
  = negb (includesCategory current category)
  /\ (forall other, other <> category ->
        includesCategory (handleCategoryToggle current category) other
        = includesCategory current other)
  /\ (includesCategory current category = false ->
      handleCategoryToggle (handleCategoryToggle current category) category
      = current)
  /\ (NoDup current -> NoDup (handleCategoryToggle current category)).
Proof.
  unfold handleCategoryToggle.
  destruct (includesCategory current category) eqn:E.
  - split; [apply includes_filtered_out |].
    split; [intros other Hne; now apply includes_other_filtered |].
    split; [discriminate |].
    intros Hnd. now apply NoDup_filter.
  - split.
    { rewrite includes_app, E. unfold includesCategory. simpl.
      now rewrite str_eqb_refl. }
    split.
    { intros other Hne. rewrite includes_app. unfold includesCategory at 2.
      simpl. rewrite (str_eqb_neq category other) by congruence.
      now rewrite !orb_false_r. }
    split.
    { intros _.
      replace (includesCategory (current ++ [category]) category) with true.
      - rewrite filter_app. simpl. rewrite str_eqb_refl. simpl.
        rewrite app_nil_r. now apply filter_absent.
      - symmetry. rewrite includes_app. unfold includesCategory at 2. simpl.
        rewrite str_eqb_refl. apply orb_true_r. }
    intros Hnd.
    apply NoDup_app; [exact Hnd | repeat constructor; intros [] |].
    intros x Hx [<- | []].
    unfold includesCategory in E.
    assert (Hex : existsb (fun c => JS.str_eqb c category) current = true).
    { apply existsb_exists. exists category.
      split; [exact Hx | apply str_eqb_refl]. }
    congruence.
Qed.

Lemma category_toggle_witness :
  let current := [JS.js "업무"; JS.js "개인"] in
  let category := JS.js "건강" in
  (includesCategory current category = false /\ NoDup current)
  /\ handleCategoryToggle (handleCategoryToggle current category) category
     = current.
Proof.
  intros current category.
  assert (H1 : includesCategory current category = false) by reflexivity.
  assert (H2 : NoDup current).
  { repeat constructor; simpl; intuition discriminate. }
  split; [exact (conj H1 H2) |].
  exact (proj1 (proj2 (proj2 (category_toggle current category))) H1).
Defined.

(** *** Filling the form from a sentence *)

Lemma valid_by_length (s : JS.jsstring) :
  GenerateTodo.valid (GenerateTodo.validateInput (JString s))
  = ((2 <=? JS.length (JS.trim s)) && (JS.length (JS.trim s) <=? 500))%Z.
Proof.
  destruct s as [| c s]; [reflexivity |].
  unfold GenerateTodo.validateInput.
  change (negb (truthy (JString (A := Opaque) (c :: s)))) with false.
  cbv iota zeta.
  assert (H0 : (0 <= JS.length (JS.trim (c :: s)))%Z)
    by (unfold JS.length; lia).
  set (n := JS.length (JS.trim (c :: s))) in *.
  destruct (Z.eqb_spec n 0) as [E | E].
  - rewrite E. reflexivity.
  - destruct (Z.ltb_spec n 2) as [H | H].
    + cbn [GenerateTodo.valid]. symmetry. apply andb_false_iff. left.
      apply Z.leb_gt. lia.
    + destruct (Z.ltb_spec 500 n) as [G | G]; cbn [GenerateTodo.valid];
        symmetry.
      * apply andb_false_iff. right. apply Z.leb_gt. lia.
      * apply andb_true_iff. split; apply Z.leb_le; lia.
Qed.

Lemma route_calls (engine : JSDate.Engine) (env : Env)
    (today s : JS.jsstring) service :
  calls service (GenerateTodo.POST engine env today (JString s))
  = if GenerateTodo.valid (GenerateTodo.validateInput (JString s))
       && apiKeySet env
    then [GenerateTodo.mkRequest today (GenerateTodo.preprocessInput s)]
    else [].
Proof.
  destruct (GenerateTodo.valid (GenerateTodo.validateInput (JString s)))
    eqn:H.
  - destruct (apiKeySet env) eqn:Hk; cbn [andb].
    + unfold calls.
      now rewrite (NormalizerFacts.POST_with_key engine env today s service
                     H Hk).
    + now rewrite (NormalizerFacts.POST_without_key engine env today s H Hk).
  - cbn [andb].
    now rewrite (NormalizerFacts.POST_refused engine env today (JString s) H).
Qed.

Lemma form_run (engine : JSDate.Engine) (env : Env) (today : JS.jsstring)
    (st : AiState) service :
  JS.trim (aiInput st) <> [] ->
  run service (handleAiGenerate engine env today st)
  = match run service
            (GenerateTodo.POST engine env today
               (JString (JS.trim (aiInput st)))) with
    | (inl r, log) => (inl (settle st (JS.trim (aiInput st)) r), log)
    | (inr e, log) => (inr e, log)
    end.
Proof.
  intros Hne. unfold handleAiGenerate.
  destruct (JS.trim (aiInput st)) as [| c s] eqn:E; [contradiction |].
  rewrite SummarizerFacts.run_bind.
  destruct (run service (GenerateTodo.POST engine env today
                           (JString (c :: s)))) as [[r | e] log];
    [| reflexivity].
  unfold settle.
  destruct (body r) as [d | success e details].
  - destruct (ok r); cbn; now rewrite app_nil_r.
  - destruct (negb (ok r) || negb (AnalyzeTodos.truthyFlag success));
      cbn; now rewrite app_nil_r.
Qed.

Lemma textOr_nonempty (e : option JS.jsstring) :
  textOr e "할 일 생성에 실패했습니다." <> [].
Proof. destruct e as [[| c s] |]; cbn; discriminate. Qed.

Lemma settle_failure (st : AiState) (o : JS.jsstring) (code : Z)
    success e details :
  (code = 400 \/ code = 429 \/ code = 500)%Z ->
  exists msg,
    msg <> []
    /\ settle st o (mkResponse code (Failure success e details))
       = mkAiState (aiInput st) (Some msg) (values st).
Proof.
  intros H. exists (textOr e "할 일 생성에 실패했습니다.").
  split; [apply textOr_nonempty |].
  unfold settle. cbn [body].
  replace (ok (mkResponse (D := GenerateTodo.TodoData) code
                 (Failure success e details))) with false;
    [reflexivity |].
  unfold ok. cbn [status].
  destruct H as [-> | [-> | ->]]; reflexivity.
Qed.

Lemma settle_success (engine : JSDate.Engine) (today : JS.jsstring)
    (st : AiState) (o : JS.jsstring) (d : GenerateTodo.TodoData) :
  let st' := settle st o
               (mkResponse 200 (Data (GenerateTodo.repair engine today d))) in
  aiError st' = None
  /\ aiInput st' = []
  /\ title (values st') = GenerateTodo.repairTitle (GenerateTodo.title d)
  /\ (exists pre, description (values st') = Some (pre ++ o))
  /\ due_time (values st')
     = Some (GenerateTodo.repairDueTime (GenerateTodo.due_time d))
  /\ priority (values st')
     = GenerateTodo.repairPriority (GenerateTodo.priority d)
  /\ category (values st')
     = GenerateTodo.repairCategory (GenerateTodo.category d).
Proof.
  cbv zeta. unfold settle. cbn [body].
  change (ok (mkResponse (D := GenerateTodo.TodoData) 200
                (Data (GenerateTodo.repair engine today d)))) with true.
  cbv iota. cbn [aiError aiInput values].
  split; [reflexivity |]. split; [reflexivity |].
  unfold fillForm, GenerateTodo.repair.
  cbn [GenerateTodo.title GenerateTodo.description GenerateTodo.due_date
       GenerateTodo.due_time GenerateTodo.priority GenerateTodo.category
       title description due_date due_time priority category].
  split.
  { destruct (GenerateTodo.repairTitle (GenerateTodo.title d)); reflexivity. }
  split.
  { destruct (GenerateTodo.repairDescription (GenerateTodo.description d))
      as [[| c s] |].
    - now exists [].
    - eexists. rewrite app_assoc. reflexivity.
    - now exists []. }
  split; [| split; reflexivity].
  pose proof (GenerateTodoFacts.repairDueTime_timeRegex
                (GenerateTodo.due_time d)) as H.
  destruct (GenerateTodo.repairDueTime (GenerateTodo.due_time d));
    [discriminate | reflexivity].
Qed.

(** X26.  The form asks the completion service at most once, and only for
    an input that, trimmed, has 2 to 500 code units, and only when the key
    is set; the text the service then gets is the normalized input.  For an
    input of white space alone the form shows its own message, sends
    nothing and keeps input and values. *)
Theorem form_asks_for_usable_input (engine : JSDate.Engine) (env : Env)
    (today : JS.jsstring) (st : AiState) service :
  calls service (handleAiGenerate engine env today st)
  = (if ((2 <=? JS.length (JS.trim (aiInput st)))
         && (JS.length (JS.trim (aiInput st)) <=? 500))%Z
        && apiKeySet env
     then [GenerateTodo.mkRequest today
             (GenerateTodo.preprocessInput (aiInput st))]
     else [])
  /\ (JS.trim (aiInput st) = [] ->
      handleAiGenerate engine env today st
      = Ret (mkAiState (aiInput st) (Some (JS.js "자연어 입력이 필요합니다."))
               (values st))).
Proof.
  split.
  - destruct (JS.trim (aiInput st)) as [| c s] eqn:E.
    + unfold handleAiGenerate. rewrite E. reflexivity.
    + rewrite <- E. unfold calls. rewrite form_run by (rewrite E; discriminate).
      pose proof (route_calls engine env today (JS.trim (aiInput st)) service)
        as R.
      unfold calls in R.
      destruct (run service
                  (GenerateTodo.POST engine env today
                     (JString (JS.trim (aiInput st))))) as [[r | e] log];
        cbn [snd] in *; rewrite R, valid_by_length, trim_idem;
        unfold GenerateTodo.preprocessInput; cbv zeta;
        now rewrite trim_idem.
  - intros E. unfold handleAiGenerate. now rewrite E.
Qed.

Lemma form_asks_for_usable_input_witness :
  let env := mkEnv (Some (JS.js "k")) None in
  let today := JS.js "2025-06-01" in
  let st := mkAiState (JS.js "   ") None
              (mkValues (JS.js "t") None None None GenerateTodo.medium []) in
  JS.trim (aiInput st) = []
  /\ handleAiGenerate JSDate.CarryOver env today st
     = Ret (mkAiState (aiInput st) (Some (JS.js "자연어 입력이 필요합니다."))
              (values st)).
Proof.
  intros env today st.
  assert (H : JS.trim (aiInput st) = []) by reflexivity.
  split; [exact H |].
  exact (proj2 (form_asks_for_usable_input JSDate.CarryOver env today st
                  (fun _ => GenerateTodo.ReplyOther)) H).
Defined.

Lemma settle_success_date (engine : JSDate.Engine) (today : JS.jsstring)
    (st : AiState) (o : JS.jsstring) (d : GenerateTodo.TodoData) :
  JSDate.isCalendarDate today = true ->
  due_date
    (values
       (settle st o
          (mkResponse 200 (Data (GenerateTodo.repair engine today d)))))
  = Some (GenerateTodo.repairDueDate engine today (GenerateTodo.due_date d)).
Proof.
  intros H.
  destruct (GenerateTodoFacts.repairDueDate_acceptable engine today
              (GenerateTodo.due_date d) H) as [Hre _].
  unfold settle. cbn [body].
  change (ok (mkResponse (D := GenerateTodo.TodoData) 200
                (Data (GenerateTodo.repair engine today d)))) with true.
  cbv iota. cbn [values]. unfold fillForm, GenerateTodo.repair.
  cbn [GenerateTodo.due_date due_date].
  destruct (GenerateTodo.repairDueDate engine today
              (GenerateTodo.due_date d));
    [discriminate | reflexivity].
Qed.

(** The two ways generation ends. *)
Lemma form_outcome_cases (engine : JSDate.Engine) (env : Env)
    (today : JS.jsstring) (st : AiState) service :
  exists st',
    outcome service (handleAiGenerate engine env today st) = inl st'
    /\ ((exists d,
           st' = settle st (JS.trim (aiInput st))
                   (mkResponse 200
                      (Data (GenerateTodo.repair engine today d))))
        \/ (exists msg,
              msg <> []
              /\ st' = mkAiState (aiInput st) (Some msg) (values st))).
Proof.
  destruct (JS.trim (aiInput st)) as [| c s] eqn:E.
  - unfold handleAiGenerate. rewrite E. eexists. split; [reflexivity |].
    right. eexists. split; [| reflexivity]. vm_compute. discriminate.
  - rewrite <- E. unfold outcome.
    rewrite form_run by (rewrite E; discriminate).
    pose proof (NormalizerFacts.POST_outcome_cases engine env today
                  (JString (JS.trim (aiInput st))) service) as C.
    unfold outcome in C.
    destruct (run service
                (GenerateTodo.POST engine env today
                   (JString (JS.trim (aiInput st))))) as [[r | e] log];
      cbn [fst] in *.
    + eexists. split; [reflexivity |].
      destruct C as [[msg C] | [C | [[d C] | [e C]]]];
        injection C as ->.
      * right. apply settle_failure. lia.
      * right. apply settle_failure. lia.
      * left. now exists d.
      * right.
        destruct (NormalizerFacts.onError_shape env e)
          as (code & msg & -> & Hc).
        now apply settle_failure.
    + destruct C as [[msg C] | [C | [[d C] | [e' C]]]]; discriminate.
Qed.

(** X27.  Generation always settles, in one of two ways.  Either the form
    is filled: no error is shown, the AI input is cleared, the title is
    not empty, the description ends with the trimmed sentence the user
    typed, and the due time is one the pattern of the route accepts.  Or a
    non-empty error message is shown, and the sentence and the values of
    the form are left as they were. *)
Theorem form_filled_or_left_alone (engine : JSDate.Engine) (env : Env)
    (today : JS.jsstring) (st : AiState) service :
  exists st',
    outcome service (handleAiGenerate engine env today st) = inl st'
    /\ ((aiError st' = None
         /\ aiInput st' = []
         /\ title (values st') <> []
         /\ (exists pre,
               description (values st')
               = Some (pre ++ JS.trim (aiInput st)))
         /\ (exists t, due_time (values st') = Some t
                       /\ JSDate.timeRegex_test t = true))
        \/ (exists msg,
              msg <> []
              /\ st' = mkAiState (aiInput st) (Some msg) (values st))).
Proof.
  destruct (form_outcome_cases engine env today st service)
    as (st' & E & C); exists st'; split; [exact E |].
  destruct C as [[d ->] | F]; [left | right; exact F].
  destruct (settle_success engine today st (JS.trim (aiInput st)) d)
    as (H1 & H2 & H3 & H4 & H5 & _).
  split; [exact H1 |]. split; [exact H2 |].
  split.
  { rewrite H3.
    destruct (NormalizerFacts.repairTitle_bounds (GenerateTodo.title d))
      as (_ & Hlen & _).
    intros Ht. rewrite Ht in Hlen. unfold JS.length in Hlen.
    simpl in Hlen. lia. }
  split; [exact H4 |].
  eexists. split; [exact H5 |].
  apply GenerateTodoFacts.repairDueTime_timeRegex.
Qed.

(** X28.  With [today] the [YYYY-MM-DD] form of a calendar day: a form
    that generation has filled, submitted as it is, hands over a title
    that is not empty and a due date that is never undefined; the due
    date is a date of the form [YYYY-MM-DD] that parses to a day not
    before today, then [T], a time the pattern of the route accepts, and
    [:00]. *)
Theorem generated_form_submits_deadline (engine : JSDate.Engine) (env : Env)
    (today : JS.jsstring) (st st' : AiState) service :
  JSDate.isCalendarDate today = true ->
  outcome service (handleAiGenerate engine env today st) = inl st' ->
  aiError st' = None ->
  title (handleSubmit (values st')) <> []
  /\ exists date time,
       due_date (handleSubmit (values st'))
       = Some (date ++ JS.js "T" ++ time ++ JS.js ":00")
       /\ GenerateTodo.acceptableDate engine today date
       /\ JSDate.timeRegex_test time = true.
Proof.
  intros Htoday Hout Herr.
  destruct (form_outcome_cases engine env today st service)
    as (st1 & E & C).
  rewrite E in Hout. injection Hout as <-.
  destruct C as [[d ->] | (msg & _ & ->)]; [| discriminate].
  destruct (settle_success engine today st (JS.trim (aiInput st)) d)
    as (_ & _ & H3 & _ & H5 & _).
  pose proof (settle_success_date engine today st (JS.trim (aiInput st)) d
                Htoday) as H6.
  pose proof (GenerateTodoFacts.repairDueDate_acceptable engine today
                (GenerateTodo.due_date d) Htoday) as Hd.
  pose proof (GenerateTodoFacts.repairDueTime_timeRegex
                (GenerateTodo.due_time d)) as Ht.
  set (v := values (settle st (JS.trim (aiInput st))
                      (mkResponse 200
                         (Data (GenerateTodo.repair engine today d))))) in *.
  split.
  - unfold handleSubmit. cbn [title]. rewrite H3.
    destruct (NormalizerFacts.repairTitle_bounds (GenerateTodo.title d))
      as (_ & Hlen & _).
    intros Hn. rewrite Hn in Hlen. unfold JS.length in Hlen.
    simpl in Hlen. lia.
  - exists (GenerateTodo.repairDueDate engine today (GenerateTodo.due_date d)),
      (GenerateTodo.repairDueTime (GenerateTodo.due_time d)).
    split; [| split; [exact Hd | exact Ht]].
    unfold handleSubmit. cbn [due_date]. unfold combinedDueDate.
    rewrite H6, H5.
    destruct Hd as [Hre _].
    destruct (GenerateTodo.repairDueDate engine today
                (GenerateTodo.due_date d)) as [| c r]; [discriminate |].
    destruct (GenerateTodo.repairDueTime (GenerateTodo.due_time d))
      as [| u t]; [discriminate |].
    reflexivity.
Qed.

Lemma generated_form_submits_deadline_witness :
  let engine := JSDate.CarryOver in
  let env := mkEnv (Some (JS.js "k")) None in
  let today := JS.js "2025-06-01" in
  let st := mkAiState (JS.js " buy milk ") None
              (mkValues [] None None None GenerateTodo.medium []) in
  let o := GenerateTodo.mkRaw (JString (JS.js "Buy milk")) JUndefined
             (JString (JS.js "2025-06-02")) (JString (JS.js "18:30"))
             (JString (JS.js "high")) (JArray [JString (JS.js "x")]) in
  let service := fun _ : GenerateTodo.GenRequest =>
                   GenerateTodo.ReplyObject o in
  let st' := mkAiState [] None
               (mkValues (JS.js "Buy milk") (Some (JS.js "buy milk"))
                  (Some (JS.js "2025-06-02")) (Some (JS.js "18:30"))
                  GenerateTodo.high [JS.js "x"]) in
  (JSDate.isCalendarDate today = true
   /\ outcome service (handleAiGenerate engine env today st) = inl st'
   /\ aiError st' = None)
  /\ title (handleSubmit (values st')) <> []
  /\ exists date time,
       due_date (handleSubmit (values st'))
       = Some (date ++ JS.js "T" ++ time ++ JS.js ":00")
       /\ GenerateTodo.acceptableDate engine today date
       /\ JSDate.timeRegex_test time = true.
Proof.
  intros engine env today st o service st'.
  assert (H1 : JSDate.isCalendarDate today = true)
    by (vm_compute; reflexivity).
  assert (H2 : outcome service (handleAiGenerate engine env today st)
               = inl st') by (vm_compute; reflexivity).
  assert (H3 : aiError st' = None) by reflexivity.
  split; [exact (conj H1 (conj H2 H3)) |].
  exact (generated_form_submits_deadline engine env today st st' service
           H1 H2 H3).
Defined.

End TodoFormFacts.
